(** * AI-OCR: the streaming client of [static/js/main.js]

    The repository ships two variants of the browser script: the basic one
    ([src/static/js/main.js], module [Basic] below) and the one with the
    mutually exclusive reasoning / output boxes ([src/unnamed/part_000],
    module [Panel]).  Both are embedded here: the asynchronous function
    [toggleRecognize] is cut at its [await] points and becomes a step
    function on the page state, and the platform functions it calls
    (strings, [TextDecoder], [JSON.parse], property reads) are modelled in
    module [JS].  The code around the call follows: the clipboard and the
    history modal (module [Desk]), the configuration and the reasoning
    switch (module [Settings]), the image preview (module [Preview], whose
    numbers are IEEE doubles). *)

From Stdlib Require Import ZArith List Bool Lia.
From Stdlib.Strings Require Import String Ascii Byte.
From Stdlib Require SpecFloat.
Import ListNotations.
Open Scope Z_scope.
Set Warnings "-register-all".


(* ================================================================== *)
(** * The platform: strings, the UTF-8 decoder, JSON values            *)
(* ================================================================== *)

Module JS.

(** A JavaScript string is a sequence of UTF-16 code units. *)
Definition jsstring := list Z.

(** String literals of the source.  A Rocq string is read one character per
    code unit; [jq] reads an apostrophe as the double quote, to write JSON
    texts. *)
Definition unit_of_ascii (a : ascii) : Z := Z.of_N (N_of_ascii a).

Definition lit (s : string) : jsstring :=
  map unit_of_ascii (list_ascii_of_string s).

Definition quote_unit (c : Z) : Z := if c =? 39 then 34 else c.

Definition jq (s : string) : jsstring := map quote_unit (lit s).

(** [a === b] on strings. *)
Fixpoint str_eqb (a b : jsstring) : bool :=
  match a, b with
  | [], [] => true
  | x :: a', y :: b' => (x =? y) && str_eqb a' b'
  | _, _ => false
  end.

(** [s.split("\n")]: never empty, the last piece is what follows the last
    newline. *)
Fixpoint split_nl (s : jsstring) : list jsstring :=
  match s with
  | [] => [[]]
  | c :: s' =>
      if c =? 10 then [] :: split_nl s'
      else match split_nl s' with
           | [] => [[c]]
           | l :: ls => (c :: l) :: ls
           end
  end.

(** ECMAScript WhiteSpace and LineTerminator code units, what [trim] strips. *)
Definition is_trim_unit (c : Z) : bool :=
  ((9 <=? c) && (c <=? 13)) || (c =? 32) || (c =? 160) || (c =? 5760)
  || ((8192 <=? c) && (c <=? 8202)) || (c =? 8232) || (c =? 8233)
  || (c =? 8239) || (c =? 8287) || (c =? 12288) || (c =? 65279).

Fixpoint trimStart (s : jsstring) : jsstring :=
  match s with
  | [] => []
  | c :: s' => if is_trim_unit c then trimStart s' else s
  end.

Definition trimEnd (s : jsstring) : jsstring := rev (trimStart (rev s)).

Definition trim (s : jsstring) : jsstring := trimEnd (trimStart s).

Fixpoint startsWith (s p : jsstring) {struct p} : bool :=
  match p with
  | [] => true
  | x :: p' => match s with
               | y :: s' => (x =? y) && startsWith s' p'
               | [] => false
               end
  end.

Definition endsWith (s p : jsstring) : bool := startsWith (rev s) (rev p).

(** [s.length], [s.slice(n)] for [0 <= n] and [s.substring(a, b)]. *)
Definition strlen (s : jsstring) : Z := Z.of_nat (List.length s).

Definition slice_from (n : nat) (s : jsstring) : jsstring := skipn n s.

Definition clamp (lo hi x : Z) : Z := Z.max lo (Z.min hi x).

Definition substring (s : jsstring) (a b : Z) : jsstring :=
  let a' := clamp 0 (strlen s) a in
  let b' := clamp 0 (strlen s) b in
  let from := Z.min a' b' in
  let to := Z.max a' b' in
  firstn (Z.to_nat (to - from)) (skipn (Z.to_nat from) s).

(** Truthiness of a string: non-empty. *)
Definition nonempty (s : jsstring) : bool :=
  match s with [] => false | _ :: _ => true end.

(** ** [TextDecoder] for UTF-8, as [decoder.decode(value, {stream: true})]

    The decoder of the Encoding Standard: a state machine over the bytes
    that keeps an unfinished sequence between calls.  A malformed sequence
    gives U+FFFD and the offending byte is read again as a first byte. *)
Record utf8_state := mk_utf8 {
  u_cp : Z; u_seen : Z; u_needed : Z; u_lower : Z; u_upper : Z }.

Definition utf8_init : utf8_state := mk_utf8 0 0 0 128 191.

Definition utf8_first (b : Z) : utf8_state * list Z :=
  if b <=? 127 then (utf8_init, [b])
  else if (194 <=? b) && (b <=? 223) then
    (mk_utf8 (Z.land b 31) 0 1 128 191, [])
  else if (224 <=? b) && (b <=? 239) then
    (mk_utf8 (Z.land b 15) 0 2
       (if b =? 224 then 160 else 128) (if b =? 237 then 159 else 191), [])
  else if (240 <=? b) && (b <=? 244) then
    (mk_utf8 (Z.land b 7) 0 3
       (if b =? 240 then 144 else 128) (if b =? 244 then 143 else 191), [])
  else (utf8_init, [65533]).

Definition utf8_step (st : utf8_state) (b : Z) : utf8_state * list Z :=
  if u_needed st =? 0 then utf8_first b
  else if negb ((u_lower st <=? b) && (b <=? u_upper st)) then
    let (st', out) := utf8_first b in (st', 65533 :: out)
  else
    let cp := Z.lor (Z.shiftl (u_cp st) 6) (Z.land b 63) in
    if u_seen st + 1 =? u_needed st then (utf8_init, [cp])
    else (mk_utf8 cp (u_seen st + 1) (u_needed st) 128 191, []).

Fixpoint utf8_run (st : utf8_state) (bs : list byte) : utf8_state * list Z :=
  match bs with
  | [] => (st, [])
  | b :: bs' =>
      let (st1, o1) := utf8_step st (Z.of_N (Byte.to_N b)) in
      let (st2, o2) := utf8_run st1 bs' in
      (st2, o1 ++ o2)
  end.

(** The byte order mark: the first code point the decoder ever gives is
    dropped when it is U+FEFF. *)
Definition strip_bom (bom_seen : bool) (out : list Z) : bool * list Z :=
  if bom_seen then (true, out)
  else match out with
       | [] => (false, [])
       | c :: r => (true, if c =? 65279 then r else out)
       end.

(** A code point as UTF-16 code units. *)
Definition utf16 (cp : Z) : list Z :=
  if cp <? 65536 then [cp]
  else [55296 + Z.shiftr (cp - 65536) 10; 56320 + Z.land (cp - 65536) 1023].

Record TextDecoder := mk_decoder { d_utf8 : utf8_state; d_bom_seen : bool }.

Definition new_TextDecoder : TextDecoder := mk_decoder utf8_init false.

Definition decode (d : TextDecoder) (value : list byte) : TextDecoder * jsstring :=
  let (st, cps) := utf8_run (d_utf8 d) value in
  let (seen, cps') := strip_bom (d_bom_seen d) cps in
  (mk_decoder st seen, flat_map utf16 cps').

(** The bytes of an ASCII literal, apostrophes read as double quotes. *)
Definition bytes_of (s : string) : list byte :=
  map (fun a => byte_of_ascii (if Ascii.eqb a "'"%char then "034"%char else a))
      (list_ascii_of_string s).

(** ** Numbers

    [JSON.parse] gives IEEE 754 doubles.  A double is kept as its exact
    value [m * 2^e]; a literal is rounded to the nearest double, ties to
    even, and printed by [Number::toString]: the shortest decimal that
    rounds back to it. *)
Inductive number :=
| NZero (neg : bool)
| NFinite (neg : bool) (m e : Z)
| NInfinity (neg : bool).

Definition round_half_even (n d : Z) : Z :=
  let q := n / d in
  let r := n mod d in
  if 2 * r <? d then q
  else if d <? 2 * r then q + 1
  else if Z.even q then q else q + 1.

(** [p / q] against [2^g], both positive. *)
Definition ratio_ge_pow2 (p q g : Z) : bool :=
  if 0 <=? g then q * 2 ^ g <=? p else q <=? p * 2 ^ (- g).

Definition floor_log2_ratio (p q : Z) : Z :=
  let g := Z.log2 p - Z.log2 q in
  if ratio_ge_pow2 p q g then g else g - 1.

(** The double nearest to the positive rational [p / q]. *)
Definition double_of_ratio (neg : bool) (p q : Z) : number :=
  let e := Z.max (floor_log2_ratio p q - 52) (-1074) in
  let m := if 0 <=? e then round_half_even p (q * 2 ^ e)
           else round_half_even (p * 2 ^ (- e)) q in
  let '(m, e) := if m =? 2 ^ 53 then (2 ^ 52, e + 1) else (m, e) in
  if m =? 0 then NZero neg
  else if 972 <=? e then NInfinity neg
  else NFinite neg m e.

Fixpoint digits_value (acc : Z) (ds : list Z) : Z :=
  match ds with
  | [] => acc
  | d :: ds' => digits_value (10 * acc + d) ds'
  end.

Fixpoint decimal_fuel (fuel : nat) (n : Z) (acc : list Z) : list Z :=
  match fuel with
  | O => acc
  | S f => if n <? 10 then n :: acc
           else decimal_fuel f (n / 10) (n mod 10 :: acc)
  end.

(** The decimal digits of [n >= 0], most significant first. *)
Definition decimal (n : Z) : list Z :=
  decimal_fuel (S (Z.to_nat (Z.log2 n))) n [].

(** The double a JSON number literal denotes: sign, digits before and after
    the point (as digit values) and the exponent. *)
Definition number_of_literal (neg : bool) (int frac : list Z) (exp : Z) : number :=
  let m := digits_value 0 (int ++ frac) in
  let e10 := exp - Z.of_nat (List.length frac) in
  let d := Z.of_nat (List.length (decimal m)) in
  if m =? 0 then NZero neg
  else if 310 <? d + e10 then NInfinity neg
  else if d + e10 <? -330 then NZero neg
  else if 0 <=? e10 then double_of_ratio neg (m * 10 ^ e10) 1
  else double_of_ratio neg m (10 ^ (- e10)).

(** Shortest round-trip digits.  With [u = 2^(e-2)], the double is [4m u]
    and the reals that round to it lie between [lo u] and [hi u] (bounds
    included when [m] is even). *)
Section Shortest.
Variables (m e : Z).

Definition lo : Z :=
  if (m =? 2 ^ 52) && (-1074 <? e) then 4 * m - 1 else 4 * m - 2.
Definition hi : Z := 4 * m + 2.

(** [k] digits at scale [10^(t0 + j)]: the digit string nearest to the
    double among those that round to it, with its scale and distance. *)
Definition candidate (k t0 j : Z) : option (Z * Z * Z) :=
  let un := if 0 <=? e - 2 then 2 ^ (e - 2) else 1 in
  let ud := if 0 <=? e - 2 then 1 else 2 ^ (2 - e) in
  let a := if 0 <=? t0 then un else un * 10 ^ (- t0) in
  let b := if 0 <=? t0 then ud * 10 ^ t0 else ud in
  let bj := b * 10 ^ j in
  let s_lo := if Z.even m then - ((- (lo * a)) / bj) else (lo * a) / bj + 1 in
  let s_hi := if Z.even m then (hi * a) / bj else - ((- (hi * a)) / bj) - 1 in
  let s_lo := Z.max s_lo (10 ^ (k - 1)) in
  let s_hi := Z.min s_hi (10 ^ k - 1) in
  if s_hi <? s_lo then None
  else
    let s := Z.max s_lo (Z.min s_hi (round_half_even (4 * m * a) bj)) in
    Some (s, t0 + j, Z.abs (s * bj - 4 * m * a)).

Definition better (x y : option (Z * Z * Z)) : option (Z * Z * Z) :=
  match x, y with
  | Some (_, _, dx), Some (_, _, dy) => if dy <? dx then y else x
  | None, _ => y
  | _, None => x
  end.

Definition est10 : Z := ((Z.log2 m + e) * 30103) / 100000.

Definition candidates (k : Z) : option (Z * Z * Z) :=
  let t0 := est10 - 1 - k in
  fold_left (fun acc j => better acc (candidate k t0 j)) [0; 1; 2; 3; 4] None.

Fixpoint shortest_from (fuel : nat) (k : Z) : Z * Z * Z :=
  match fuel with
  | O => (0, 0, 1)
  | S f => match candidates k with
           | Some (s, t, _) => (s, k, t + k)
           | None => shortest_from f (k + 1)
           end
  end.

(** [(s, k, n)]: the digits [s], their number [k] and the position [n] of
    the decimal point. *)
Definition shortest : Z * Z * Z := shortest_from 17 1.
End Shortest.

Definition digit_units (ds : list Z) : jsstring := map (fun d => 48 + d) ds.

Definition zeros (n : Z) : jsstring := repeat 48 (Z.to_nat n).

Definition format_positive (m e : Z) : jsstring :=
  let '(s, k, n) := shortest m e in
  let ds := digit_units (decimal s) in
  if (k <=? n) && (n <=? 21) then ds ++ zeros (n - k)
  else if (0 <? n) && (n <=? 21) then
    firstn (Z.to_nat n) ds ++ lit "." ++ skipn (Z.to_nat n) ds
  else if (-6 <? n) && (n <=? 0) then lit "0." ++ zeros (- n) ++ ds
  else
    let ex := (if 0 <=? n - 1 then lit "+" else lit "-")
              ++ digit_units (decimal (Z.abs (n - 1))) in
    if k =? 1 then ds ++ lit "e" ++ ex
    else firstn 1 ds ++ lit "." ++ skipn 1 ds ++ lit "e" ++ ex.

Definition Number_toString (x : number) : jsstring :=
  match x with
  | NZero _ => lit "0"
  | NFinite neg m e => (if neg then lit "-" else []) ++ format_positive m e
  | NInfinity neg => (if neg then lit "-" else []) ++ lit "Infinity"
  end.

(** ** JSON values and [JSON.parse] *)
Inductive JSON :=
| JNull
| JBool (b : bool)
| JNum (x : number)
| JStr (s : jsstring)
| JArr (l : list JSON)
| JObj (m : list (jsstring * JSON)).

Inductive token :=
| TLBrace | TRBrace | TLBracket | TRBracket | TColon | TComma
| TValue (v : JSON).

(** The lexer reads one code unit at a time; text collected so far is kept
    reversed. *)
Inductive lex_state :=
| LDefault
| LString (acc : jsstring)
| LEscape (acc : jsstring)
| LUnicode (acc : jsstring) (todo : nat) (v : Z)
| LWord (acc : jsstring)
| LNumber (acc : jsstring).

Definition is_digit (c : Z) : bool := (48 <=? c) && (c <=? 57).
Definition is_lower (c : Z) : bool := (97 <=? c) && (c <=? 122).
Definition is_number_unit (c : Z) : bool :=
  is_digit c || (c =? 45) || (c =? 43) || (c =? 46) || (c =? 101) || (c =? 69).

Definition hex_value (c : Z) : option Z :=
  if is_digit c then Some (c - 48)
  else if (97 <=? c) && (c <=? 102) then Some (c - 87)
  else if (65 <=? c) && (c <=? 70) then Some (c - 55)
  else None.

(** The unit a one-letter escape stands for. *)
Definition escape_unit (c : Z) : option Z :=
  if c =? 34 then Some 34 else if c =? 92 then Some 92
  else if c =? 47 then Some 47 else if c =? 98 then Some 8
  else if c =? 102 then Some 12 else if c =? 110 then Some 10
  else if c =? 114 then Some 13 else if c =? 116 then Some 9
  else None.

Definition word_token (w : jsstring) : option token :=
  if str_eqb w (lit "true") then Some (TValue (JBool true))
  else if str_eqb w (lit "false") then Some (TValue (JBool false))
  else if str_eqb w (lit "null") then Some (TValue JNull)
  else None.

Fixpoint span_digits (s : jsstring) : list Z * jsstring :=
  match s with
  | c :: s' => if is_digit c
               then let (ds, r) := span_digits s' in ((c - 48) :: ds, r)
               else ([], s)
  | [] => ([], [])
  end.

Definition is_nil {A} (l : list A) : bool :=
  match l with [] => true | _ => false end.

(** The JSON number grammar: an optional minus, an integer part with no
    leading zero, an optional fraction and an optional exponent, each with at
    least one digit. *)
Definition number_token (s : jsstring) : option token :=
  let (neg, s1) := match s with
                   | c :: r => if c =? 45 then (true, r) else (false, s)
                   | [] => (false, s)
                   end in
  let (int, s2) := span_digits s1 in
  let int_ok := match int with
                | [] => false
                | d :: r => negb (d =? 0) || is_nil r
                end in
  let '(frac, frac_ok, s3) :=
    match s2 with
    | c :: r => if c =? 46
                then let (f, r') := span_digits r in (f, negb (is_nil f), r')
                else ([], true, s2)
    | [] => ([], true, s2)
    end in
  let '(exp, exp_ok, s4) :=
    match s3 with
    | c :: r =>
        if (c =? 101) || (c =? 69) then
          let (eneg, r1) := match r with
                            | x :: r' => if x =? 45 then (true, r')
                                         else if x =? 43 then (false, r')
                                         else (false, r)
                            | [] => (false, r)
                            end in
          let (ds, r2) := span_digits r1 in
          ((if eneg then - digits_value 0 ds else digits_value 0 ds),
           negb (is_nil ds), r2)
        else (0, true, s3)
    | [] => (0, true, s3)
    end in
  if int_ok && frac_ok && exp_ok && is_nil s4
  then Some (TValue (JNum (number_of_literal neg int frac exp)))
  else None.

(** A unit read between tokens. *)
Definition lex_default (c : Z) : option (lex_state * list token) :=
  if (c =? 32) || (c =? 9) || (c =? 10) || (c =? 13) then Some (LDefault, [])
  else if c =? 123 then Some (LDefault, [TLBrace])
  else if c =? 125 then Some (LDefault, [TRBrace])
  else if c =? 91 then Some (LDefault, [TLBracket])
  else if c =? 93 then Some (LDefault, [TRBracket])
  else if c =? 58 then Some (LDefault, [TColon])
  else if c =? 44 then Some (LDefault, [TComma])
  else if c =? 34 then Some (LString [], [])
  else if is_lower c then Some (LWord [c], [])
  else if is_digit c || (c =? 45) then Some (LNumber [c], [])
  else None.

Fixpoint lex (st : lex_state) (toks : list token) (s : jsstring)
  : option (list token) :=
  match s with
  | [] =>
      match st with
      | LDefault => Some (rev toks)
      | LWord acc => option_map (fun t => rev (t :: toks)) (word_token (rev acc))
      | LNumber acc => option_map (fun t => rev (t :: toks)) (number_token (rev acc))
      | _ => None
      end
  | c :: s' =>
      match st with
      | LDefault =>
          match lex_default c with
          | Some (st', out) => lex st' (out ++ toks) s'
          | None => None
          end
      | LString acc =>
          if c =? 34 then lex LDefault (TValue (JStr (rev acc)) :: toks) s'
          else if c =? 92 then lex (LEscape acc) toks s'
          else if c <? 32 then None
          else lex (LString (c :: acc)) toks s'
      | LEscape acc =>
          match escape_unit c with
          | Some u => lex (LString (u :: acc)) toks s'
          | None => if c =? 117 then lex (LUnicode acc 4 0) toks s' else None
          end
      | LUnicode acc todo v =>
          match hex_value c, todo with
          | Some h, 1%nat => lex (LString ((16 * v + h) :: acc)) toks s'
          | Some h, S todo' => lex (LUnicode acc todo' (16 * v + h)) toks s'
          | _, _ => None
          end
      | LWord acc =>
          if is_lower c then lex (LWord (c :: acc)) toks s'
          else match word_token (rev acc), lex_default c with
               | Some t, Some (st', out) => lex st' (out ++ t :: toks) s'
               | _, _ => None
               end
      | LNumber acc =>
          if is_number_unit c then lex (LNumber (c :: acc)) toks s'
          else match number_token (rev acc), lex_default c with
               | Some t, Some (st', out) => lex st' (out ++ t :: toks) s'
               | _, _ => None
               end
      end
  end.

(** The parser is a stack machine over the tokens: one frame per open array
    or object. *)
Inductive frame :=
| FArr (elems : list JSON)
| FObj (members : list (jsstring * JSON))
| FObjV (members : list (jsstring * JSON)) (key : jsstring).

Inductive pmode :=
| MValue | MArrStart | MObjStart | MKey | MColon (key : jsstring) | MAfter
| MDone (v : JSON).

Definition complete (v : JSON) (stack : list frame) : option (list frame * pmode) :=
  match stack with
  | [] => Some ([], MDone v)
  | FArr elems :: st => Some (FArr (v :: elems) :: st, MAfter)
  | FObjV members k :: st => Some (FObj ((k, v) :: members) :: st, MAfter)
  | FObj _ :: _ => None
  end.

Definition parse_step (stack : list frame) (mode : pmode) (t : token)
  : option (list frame * pmode) :=
  match mode, t with
  | (MValue | MArrStart), TValue v => complete v stack
  | (MValue | MArrStart), TLBracket => Some (FArr [] :: stack, MArrStart)
  | (MValue | MArrStart), TLBrace => Some (FObj [] :: stack, MObjStart)
  | MArrStart, TRBracket =>
      match stack with
      | FArr [] :: st => complete (JArr []) st
      | _ => None
      end
  | MObjStart, TRBrace =>
      match stack with
      | FObj [] :: st => complete (JObj []) st
      | _ => None
      end
  | (MObjStart | MKey), TValue (JStr k) => Some (stack, MColon k)
  | MColon k, TColon =>
      match stack with
      | FObj members :: st => Some (FObjV members k :: st, MValue)
      | _ => None
      end
  | MAfter, TComma =>
      match stack with
      | FArr _ :: _ => Some (stack, MValue)
      | FObj _ :: _ => Some (stack, MKey)
      | _ => None
      end
  | MAfter, TRBracket =>
      match stack with
      | FArr elems :: st => complete (JArr (rev elems)) st
      | _ => None
      end
  | MAfter, TRBrace =>
      match stack with
      | FObj members :: st => complete (JObj (rev members)) st
      | _ => None
      end
  | _, _ => None
  end.

Fixpoint parse_tokens (stack : list frame) (mode : pmode) (ts : list token)
  : option JSON :=
  match ts with
  | [] => match mode with MDone v => Some v | _ => None end
  | t :: ts' =>
      match parse_step stack mode t with
      | Some (stack', mode') => parse_tokens stack' mode' ts'
      | None => None
      end
  end.

(** [JSON.parse(text)]; [None] when it throws a SyntaxError. *)
Definition JSON_parse (text : jsstring) : option JSON :=
  match lex LDefault [] text with
  | Some ts => parse_tokens [] MValue ts
  | None => None
  end.

(** ** Reading properties

    A value of the running script is a JSON value or [undefined] ([None]).
    The property names the scripts read ([type], [delta], [choices],
    [content], [reasoning], [error]) are no built-in property of strings,
    numbers, booleans or arrays, so only an object can have them. *)
Definition value := option JSON.

(** An object's member: with a repeated key the last one stands. *)
Fixpoint member (k : jsstring) (m : list (jsstring * JSON)) : value :=
  match m with
  | [] => None
  | (k', v) :: m' =>
      match member k m' with
      | Some v' => Some v'
      | None => if str_eqb k k' then Some v else None
      end
  end.

(** [v.k] where [v] is neither null nor undefined. *)
Definition prop (v : JSON) (k : jsstring) : value :=
  match v with
  | JObj m => member k m
  | _ => None
  end.

(** [v[0]] where [v] is neither null nor undefined. *)
Definition index0 (v : JSON) : value :=
  match v with
  | JArr l => nth_error l 0
  | JObj m => member (lit "0") m
  | JStr (c :: _) => Some (JStr [c])
  | _ => None
  end.

Definition nullish (v : value) : bool :=
  match v with None | Some JNull => true | _ => false end.

(** [v.k] and [v[0]]: [None] is the TypeError thrown on null and undefined. *)
Definition get (v : value) (k : jsstring) : option value :=
  match v with
  | None | Some JNull => None
  | Some j => Some (prop j k)
  end.

Definition get0 (v : value) : option value :=
  match v with
  | None | Some JNull => None
  | Some j => Some (index0 j)
  end.

(** [v?.k] *)
Definition opt_get (v : value) (k : jsstring) : value :=
  match v with
  | None | Some JNull => None
  | Some j => prop j k
  end.

Definition truthy (v : value) : bool :=
  match v with
  | None | Some JNull => false
  | Some (JBool b) => b
  | Some (JNum (NZero _)) => false
  | Some (JNum _) => true
  | Some (JStr s) => nonempty s
  | Some (JArr _) | Some (JObj _) => true
  end.

Fixpoint join_comma (l : list jsstring) : jsstring :=
  match l with
  | [] => []
  | [s] => s
  | s :: l' => s ++ lit "," ++ join_comma l'
  end.

(** What [text += v] appends for a value [v]. *)
Fixpoint ToString (v : JSON) : jsstring :=
  match v with
  | JNull => lit "null"
  | JBool true => lit "true"
  | JBool false => lit "false"
  | JNum x => Number_toString x
  | JStr s => s
  | JArr l =>
      join_comma (map (fun x => match x with JNull => [] | _ => ToString x end) l)
  | JObj _ => lit "[object Object]"
  end.

(** [v || ""] *)
Definition or_empty (v : value) : JSON :=
  match v with
  | Some j => if truthy v then j else JStr []
  | None => JStr []
  end.

(** [v === s] for a string [s]. *)
Definition is_string (v : value) (s : jsstring) : bool :=
  match v with
  | Some (JStr s') => str_eqb s' s
  | _ => false
  end.

End JS.

Import JS.

(* ================================================================== *)
(** * What both scripts share                                          *)
(* ================================================================== *)

(** An entry of [currentImages]; the script reads its length and the
    [base64] fields. *)
Record Image := mkImage { img_name : jsstring; img_base64 : jsstring }.

(** An entry of [sessionHistory]: [{id, time, text}]. *)
Record HistoryItem := mkHistoryItem {
  h_id : Z; h_time : jsstring; h_text : jsstring }.

(** The element [status-indicator], as [updateStatus(msg, type)] sets it. *)
Record Status := mkStatus { innerText : jsstring; className : jsstring }.

(** The element [btn-recognize]: its text and whether it has the class
    [btn-stop]. *)
Record Button := mkButton { btn_text : jsstring; btn_stop : bool }.

(** The body of the request sent to [/api/stream_recognize]. *)
Record Request := mkRequest {
  req_images : list jsstring; req_prompt : jsstring; req_model : jsstring;
  req_enable_reasoning : bool }.

(** A thrown value, read through [err.name] and [err.message]. *)
Record JSError := mkError { err_name : jsstring; err_message : jsstring }.

(** What an aborted [fetch], [read] or [json] rejects with. *)
Definition AbortError : JSError :=
  mkError (lit "AbortError") (lit "The user aborted a request.").

(** [new Error(message)] *)
Definition new_Error (message : jsstring) : JSError :=
  mkError (lit "Error") message.

(** The TypeError of reading [error] from null (in V8's words). *)
Definition TypeError_null_error : JSError :=
  mkError (lit "TypeError")
          (lit "Cannot read properties of null (reading 'error')").

(** The toggle icons, U+25B2 and U+25BC. *)
Definition icon_up : jsstring := [9650].
Definition icon_down : jsstring := [9660].

Definition BEGIN_MARKER : jsstring := lit "<|begin_of_box|>".
Definition END_MARKER : jsstring := lit "<|end_of_box|>".

(** "Process final text (remove markers if present)": the test and the new
    [fullText]. *)
Definition has_markers (fullText : jsstring) : bool :=
  startsWith fullText BEGIN_MARKER && endsWith fullText END_MARKER.

Definition strip_markers (fullText : jsstring) : jsstring :=
  if has_markers fullText
  then substring fullText (strlen BEGIN_MARKER)
                 (strlen fullText - strlen END_MARKER)
  else fullText.

(** [`HTTP ${response.status}`] *)
Definition http_message (status : Z) : jsstring :=
  lit "HTTP " ++ digit_units (decimal status).

(** [errorData.error || `HTTP ${response.status}`] as the message of the
    Error thrown for a response that is not ok; [errorData] is what
    [response.json().catch(() => ({}))] gave. *)
Definition response_error (errorData : JSON) (status : Z) : JSError :=
  match get (Some errorData) (lit "error") with
  | None => TypeError_null_error
  | Some v => if truthy v then new_Error (ToString (or_empty v))
              else new_Error (http_message status)
  end.

(** ** The reading loop

    One turn of [while (true)] after [reader.read()] gave a chunk: decode,
    append to the buffer, split, keep the last piece and handle the other
    lines in order.  The handling of a line is what the two scripts differ
    in. *)
Section Stream.
Variable St : Type.
Variable process_line : St -> jsstring -> St.

Record Reader := mkReader {
  decoder : TextDecoder; buffer : jsstring; acc : St }.

Definition read_chunk (r : Reader) (value : list byte) : Reader :=
  let (d, text) := decode (decoder r) value in
  let buffer := buffer r ++ text in
  let lines := split_nl buffer in
  mkReader d (last lines []) (fold_left process_line (removelast lines) (acc r)).

(** The reader as created before the loop. *)
Definition new_Reader (s : St) : Reader := mkReader new_TextDecoder [] s.

(** The whole loop over the chunks the body delivers. *)
Definition read_all (chunks : list (list byte)) (r : Reader) : Reader :=
  fold_left read_chunk chunks r.

(** A buffer without newline, as every turn of the loop leaves it. *)
Definition clean (r : Reader) : Prop := split_nl (buffer r) = [buffer r].
End Stream.

Arguments mkReader {St}.
Arguments decoder {St}.
Arguments buffer {St}.
Arguments acc {St}.
Arguments read_chunk {St}.
Arguments new_Reader {St}.
Arguments read_all {St}.
Arguments clean {St}.

(** A thrown exception inside [try] is [None]; [x <- e ;; k] stops at the
    first one. *)
Notation "x <- e ;; k" :=
  (match e with Some x => k | None => None end)
  (at level 61, e at next level, right associativity).

(** [p |> f |> g]: the statements [f], then [g], on the page [p]. *)
Notation "p |> f" := (f p) (at level 50, left associativity, only parsing).

(** The local variables [fullText] and [reasoningText] of [toggleRecognize]. *)
Record Locals := mkLocals { fullText : jsstring; reasoningText : jsstring }.

(** Where a call of [toggleRecognize] is suspended: at [await fetch(...)],
    at [await response.json()] of a response that is not ok, or at
    [await reader.read()]. *)
Inductive suspended :=
| AwaitFetch
| AwaitErrorBody (status : Z)
| AwaitRead (decoder : TextDecoder) (buffer : jsstring).

(** What happens to the page: the user's clicks on the button and on a box
    header, the promises the suspended call waits for, timers, and the
    user's changes to what the call reads when it starts: the staged images
    (added, removed, reordered), the prompt, the model and the reasoning
    switch, and the Clear button once confirmed. *)
Inductive event :=
| Click_recognize
| Click_box (boxType : jsstring)
| Fetch_resolved (status : Z)
| Fetch_rejected (err : JSError)
| Error_body (errorData : option JSON)
| Read_chunk (value : list byte)
| Read_done (now : Z) (time : jsstring)
| Read_rejected (err : JSError)
| Timer
| Set_images (images : list Image)
| Set_prompt (text : jsstring)
| Set_model (model : jsstring)
| Set_reasoning_toggle (checked : bool)
| Clear.


(* ================================================================== *)
(** * The basic script ([src/static/js/main.js])                       *)
(* ================================================================== *)

Module Basic.

(** The globals of the script, the form controls it reads, the elements it
    writes ([reasoning_display_expanded]: the class [expanded] of
    [reasoning-display]; [reasoning_content_display]: [style.display] of
    [reasoning-content]), and what it sends out. *)
Record Page := mkPage {
  currentImages : list Image;
  isRecognizing : bool;
  sessionHistory : list HistoryItem;
  reasoningContent : jsstring;
  user_prompt : jsstring;
  model_select : jsstring;
  reasoning_toggle : bool;
  btn_recognize : Button;
  status_indicator : Status;
  result_display : jsstring;
  reasoning_display : jsstring;
  reasoning_display_expanded : bool;
  reasoning_content_display : jsstring;
  reasoning_toggle_icon : jsstring;
  alerts : list jsstring;
  console : list jsstring;
  requests : list Request;
  timers : nat }.

Definition set_currentImages (v : list Image) (p : Page) : Page :=
  {| currentImages := v; isRecognizing := isRecognizing p;
     sessionHistory := sessionHistory p;
     reasoningContent := reasoningContent p; user_prompt := user_prompt p;
     model_select := model_select p; reasoning_toggle := reasoning_toggle p;
     btn_recognize := btn_recognize p;
     status_indicator := status_indicator p;
     result_display := result_display p;
     reasoning_display := reasoning_display p;
     reasoning_display_expanded := reasoning_display_expanded p;
     reasoning_content_display := reasoning_content_display p;
     reasoning_toggle_icon := reasoning_toggle_icon p; alerts := alerts p;
     console := console p; requests := requests p; timers := timers p |}.

Definition set_isRecognizing (v : bool) (p : Page) : Page :=
  {| currentImages := currentImages p; isRecognizing := v;
     sessionHistory := sessionHistory p;
     reasoningContent := reasoningContent p; user_prompt := user_prompt p;
     model_select := model_select p; reasoning_toggle := reasoning_toggle p;
     btn_recognize := btn_recognize p;
     status_indicator := status_indicator p;
     result_display := result_display p;
     reasoning_display := reasoning_display p;
     reasoning_display_expanded := reasoning_display_expanded p;
     reasoning_content_display := reasoning_content_display p;
     reasoning_toggle_icon := reasoning_toggle_icon p; alerts := alerts p;
     console := console p; requests := requests p; timers := timers p |}.

Definition set_sessionHistory (v : list HistoryItem) (p : Page) : Page :=
  {| currentImages := currentImages p; isRecognizing := isRecognizing p;
     sessionHistory := v; reasoningContent := reasoningContent p;
     user_prompt := user_prompt p; model_select := model_select p;
     reasoning_toggle := reasoning_toggle p;
     btn_recognize := btn_recognize p;
     status_indicator := status_indicator p;
     result_display := result_display p;
     reasoning_display := reasoning_display p;
     reasoning_display_expanded := reasoning_display_expanded p;
     reasoning_content_display := reasoning_content_display p;
     reasoning_toggle_icon := reasoning_toggle_icon p; alerts := alerts p;
     console := console p; requests := requests p; timers := timers p |}.

Definition set_reasoningContent (v : jsstring) (p : Page) : Page :=
  {| currentImages := currentImages p; isRecognizing := isRecognizing p;
     sessionHistory := sessionHistory p; reasoningContent := v;
     user_prompt := user_prompt p; model_select := model_select p;
     reasoning_toggle := reasoning_toggle p;
     btn_recognize := btn_recognize p;
     status_indicator := status_indicator p;
     result_display := result_display p;
     reasoning_display := reasoning_display p;
     reasoning_display_expanded := reasoning_display_expanded p;
     reasoning_content_display := reasoning_content_display p;
     reasoning_toggle_icon := reasoning_toggle_icon p; alerts := alerts p;
     console := console p; requests := requests p; timers := timers p |}.

Definition set_user_prompt (v : jsstring) (p : Page) : Page :=
  {| currentImages := currentImages p; isRecognizing := isRecognizing p;
     sessionHistory := sessionHistory p;
     reasoningContent := reasoningContent p; user_prompt := v;
     model_select := model_select p; reasoning_toggle := reasoning_toggle p;
     btn_recognize := btn_recognize p;
     status_indicator := status_indicator p;
     result_display := result_display p;
     reasoning_display := reasoning_display p;
     reasoning_display_expanded := reasoning_display_expanded p;
     reasoning_content_display := reasoning_content_display p;
     reasoning_toggle_icon := reasoning_toggle_icon p; alerts := alerts p;
     console := console p; requests := requests p; timers := timers p |}.

Definition set_model_select (v : jsstring) (p : Page) : Page :=
  {| currentImages := currentImages p; isRecognizing := isRecognizing p;
     sessionHistory := sessionHistory p;
     reasoningContent := reasoningContent p; user_prompt := user_prompt p;
     model_select := v; reasoning_toggle := reasoning_toggle p;
     btn_recognize := btn_recognize p;
     status_indicator := status_indicator p;
     result_display := result_display p;
     reasoning_display := reasoning_display p;
     reasoning_display_expanded := reasoning_display_expanded p;
     reasoning_content_display := reasoning_content_display p;
     reasoning_toggle_icon := reasoning_toggle_icon p; alerts := alerts p;
     console := console p; requests := requests p; timers := timers p |}.

Definition set_reasoning_toggle (v : bool) (p : Page) : Page :=
  {| currentImages := currentImages p; isRecognizing := isRecognizing p;
     sessionHistory := sessionHistory p;
     reasoningContent := reasoningContent p; user_prompt := user_prompt p;
     model_select := model_select p; reasoning_toggle := v;
     btn_recognize := btn_recognize p;
     status_indicator := status_indicator p;
     result_display := result_display p;
     reasoning_display := reasoning_display p;
     reasoning_display_expanded := reasoning_display_expanded p;
     reasoning_content_display := reasoning_content_display p;
     reasoning_toggle_icon := reasoning_toggle_icon p; alerts := alerts p;
     console := console p; requests := requests p; timers := timers p |}.

Definition set_btn_recognize (v : Button) (p : Page) : Page :=
  {| currentImages := currentImages p; isRecognizing := isRecognizing p;
     sessionHistory := sessionHistory p;
     reasoningContent := reasoningContent p; user_prompt := user_prompt p;
     model_select := model_select p; reasoning_toggle := reasoning_toggle p;
     btn_recognize := v; status_indicator := status_indicator p;
     result_display := result_display p;
     reasoning_display := reasoning_display p;
     reasoning_display_expanded := reasoning_display_expanded p;
     reasoning_content_display := reasoning_content_display p;
     reasoning_toggle_icon := reasoning_toggle_icon p; alerts := alerts p;
     console := console p; requests := requests p; timers := timers p |}.

Definition set_status_indicator (v : Status) (p : Page) : Page :=
  {| currentImages := currentImages p; isRecognizing := isRecognizing p;
     sessionHistory := sessionHistory p;
     reasoningContent := reasoningContent p; user_prompt := user_prompt p;
     model_select := model_select p; reasoning_toggle := reasoning_toggle p;
     btn_recognize := btn_recognize p; status_indicator := v;
     result_display := result_display p;
     reasoning_display := reasoning_display p;
     reasoning_display_expanded := reasoning_display_expanded p;
     reasoning_content_display := reasoning_content_display p;
     reasoning_toggle_icon := reasoning_toggle_icon p; alerts := alerts p;
     console := console p; requests := requests p; timers := timers p |}.

Definition set_result_display (v : jsstring) (p : Page) : Page :=
  {| currentImages := currentImages p; isRecognizing := isRecognizing p;
     sessionHistory := sessionHistory p;
     reasoningContent := reasoningContent p; user_prompt := user_prompt p;
     model_select := model_select p; reasoning_toggle := reasoning_toggle p;
     btn_recognize := btn_recognize p;
     status_indicator := status_indicator p; result_display := v;
     reasoning_display := reasoning_display p;
     reasoning_display_expanded := reasoning_display_expanded p;
     reasoning_content_display := reasoning_content_display p;
     reasoning_toggle_icon := reasoning_toggle_icon p; alerts := alerts p;
     console := console p; requests := requests p; timers := timers p |}.

Definition set_reasoning_display (v : jsstring) (p : Page) : Page :=
  {| currentImages := currentImages p; isRecognizing := isRecognizing p;
     sessionHistory := sessionHistory p;
     reasoningContent := reasoningContent p; user_prompt := user_prompt p;
     model_select := model_select p; reasoning_toggle := reasoning_toggle p;
     btn_recognize := btn_recognize p;
     status_indicator := status_indicator p;
     result_display := result_display p; reasoning_display := v;
     reasoning_display_expanded := reasoning_display_expanded p;
     reasoning_content_display := reasoning_content_display p;
     reasoning_toggle_icon := reasoning_toggle_icon p; alerts := alerts p;
     console := console p; requests := requests p; timers := timers p |}.

Definition set_reasoning_display_expanded (v : bool) (p : Page) : Page :=
  {| currentImages := currentImages p; isRecognizing := isRecognizing p;
     sessionHistory := sessionHistory p;
     reasoningContent := reasoningContent p; user_prompt := user_prompt p;
     model_select := model_select p; reasoning_toggle := reasoning_toggle p;
     btn_recognize := btn_recognize p;
     status_indicator := status_indicator p;
     result_display := result_display p;
     reasoning_display := reasoning_display p;
     reasoning_display_expanded := v;
     reasoning_content_display := reasoning_content_display p;
     reasoning_toggle_icon := reasoning_toggle_icon p; alerts := alerts p;
     console := console p; requests := requests p; timers := timers p |}.

Definition set_reasoning_content_display (v : jsstring) (p : Page) : Page :=
  {| currentImages := currentImages p; isRecognizing := isRecognizing p;
     sessionHistory := sessionHistory p;
     reasoningContent := reasoningContent p; user_prompt := user_prompt p;
     model_select := model_select p; reasoning_toggle := reasoning_toggle p;
     btn_recognize := btn_recognize p;
     status_indicator := status_indicator p;
     result_display := result_display p;
     reasoning_display := reasoning_display p;
     reasoning_display_expanded := reasoning_display_expanded p;
     reasoning_content_display := v;
     reasoning_toggle_icon := reasoning_toggle_icon p; alerts := alerts p;
     console := console p; requests := requests p; timers := timers p |}.

Definition set_reasoning_toggle_icon (v : jsstring) (p : Page) : Page :=
  {| currentImages := currentImages p; isRecognizing := isRecognizing p;
     sessionHistory := sessionHistory p;
     reasoningContent := reasoningContent p; user_prompt := user_prompt p;
     model_select := model_select p; reasoning_toggle := reasoning_toggle p;
     btn_recognize := btn_recognize p;
     status_indicator := status_indicator p;
     result_display := result_display p;
     reasoning_display := reasoning_display p;
     reasoning_display_expanded := reasoning_display_expanded p;
     reasoning_content_display := reasoning_content_display p;
     reasoning_toggle_icon := v; alerts := alerts p; console := console p;
     requests := requests p; timers := timers p |}.

Definition set_alerts (v : list jsstring) (p : Page) : Page :=
  {| currentImages := currentImages p; isRecognizing := isRecognizing p;
     sessionHistory := sessionHistory p;
     reasoningContent := reasoningContent p; user_prompt := user_prompt p;
     model_select := model_select p; reasoning_toggle := reasoning_toggle p;
     btn_recognize := btn_recognize p;
     status_indicator := status_indicator p;
     result_display := result_display p;
     reasoning_display := reasoning_display p;
     reasoning_display_expanded := reasoning_display_expanded p;
     reasoning_content_display := reasoning_content_display p;
     reasoning_toggle_icon := reasoning_toggle_icon p; alerts := v;
     console := console p; requests := requests p; timers := timers p |}.

Definition set_console (v : list jsstring) (p : Page) : Page :=
  {| currentImages := currentImages p; isRecognizing := isRecognizing p;
     sessionHistory := sessionHistory p;
     reasoningContent := reasoningContent p; user_prompt := user_prompt p;
     model_select := model_select p; reasoning_toggle := reasoning_toggle p;
     btn_recognize := btn_recognize p;
     status_indicator := status_indicator p;
     result_display := result_display p;
     reasoning_display := reasoning_display p;
     reasoning_display_expanded := reasoning_display_expanded p;
     reasoning_content_display := reasoning_content_display p;
     reasoning_toggle_icon := reasoning_toggle_icon p; alerts := alerts p;
     console := v; requests := requests p; timers := timers p |}.

Definition set_requests (v : list Request) (p : Page) : Page :=
  {| currentImages := currentImages p; isRecognizing := isRecognizing p;
     sessionHistory := sessionHistory p;
     reasoningContent := reasoningContent p; user_prompt := user_prompt p;
     model_select := model_select p; reasoning_toggle := reasoning_toggle p;
     btn_recognize := btn_recognize p;
     status_indicator := status_indicator p;
     result_display := result_display p;
     reasoning_display := reasoning_display p;
     reasoning_display_expanded := reasoning_display_expanded p;
     reasoning_content_display := reasoning_content_display p;
     reasoning_toggle_icon := reasoning_toggle_icon p; alerts := alerts p;
     console := console p; requests := v; timers := timers p |}.

Definition set_timers (v : nat) (p : Page) : Page :=
  {| currentImages := currentImages p; isRecognizing := isRecognizing p;
     sessionHistory := sessionHistory p;
     reasoningContent := reasoningContent p; user_prompt := user_prompt p;
     model_select := model_select p; reasoning_toggle := reasoning_toggle p;
     btn_recognize := btn_recognize p;
     status_indicator := status_indicator p;
     result_display := result_display p;
     reasoning_display := reasoning_display p;
     reasoning_display_expanded := reasoning_display_expanded p;
     reasoning_content_display := reasoning_content_display p;
     reasoning_toggle_icon := reasoning_toggle_icon p; alerts := alerts p;
     console := console p; requests := requests p; timers := v |}.

Definition updateStatus (msg type : jsstring) (p : Page) : Page :=
  set_status_indicator (mkStatus msg type) p.

Definition hideReasoningContent (p : Page) : Page :=
  p |> set_reasoning_content_display (lit "none")
    |> set_reasoning_display_expanded false
    |> set_reasoning_toggle_icon icon_down.

Definition showReasoningContent (content : jsstring) (p : Page) : Page :=
  let p := set_reasoningContent content p in
  if nonempty content && nonempty (trim content) then
    p |> set_reasoning_display content
      |> set_reasoning_content_display (lit "block")
  else hideReasoningContent p.

Definition toggleReasoningDisplay (p : Page) : Page :=
  if reasoning_display_expanded p then
    p |> set_reasoning_display_expanded false
      |> set_reasoning_toggle_icon icon_down
  else
    p |> set_reasoning_display_expanded true
      |> set_reasoning_toggle_icon icon_up.

(** ** Handling one line of the stream *)

(** [reasoningText += v; showReasoningContent(reasoningText)] *)
Definition append_reasoning (v : JSON) (st : Locals * Page) : Locals * Page :=
  let (l, p) := st in
  let reasoningText := reasoningText l ++ ToString v in
  (mkLocals (fullText l) reasoningText, showReasoningContent reasoningText p).

(** [fullText += v; display.innerText = fullText] *)
Definition append_content (v : JSON) (st : Locals * Page) : Locals * Page :=
  let (l, p) := st in
  let fullText := fullText l ++ ToString v in
  (mkLocals fullText (reasoningText l), set_result_display fullText p).

(** The body of [try] after [JSON.parse]. *)
Definition dispatch (json : JSON) (st : Locals * Page) : option (Locals * Page) :=
  choices <- get (Some json) (lit "choices") ;;
  first <- get0 choices ;;
  let delta := opt_get first (lit "delta") in
  let content := or_empty (opt_get delta (lit "content")) in
  if truthy (Some content) then
    let st := append_content content st in
    let reasoning := opt_get delta (lit "reasoning") in
    Some (if truthy reasoning then append_reasoning (or_empty reasoning) st
          else st)
  else Some st.

(** [console.error("Parse error", e)] *)
Definition log_parse_error (st : Locals * Page) : Locals * Page :=
  (fst st, set_console (console (snd st) ++ [lit "Parse error"]) (snd st)).

(** The body of [for (const line of lines)]. *)
Definition process_line (st : Locals * Page) (line : jsstring) : Locals * Page :=
  let trimmed := trim line in
  if negb (nonempty trimmed) || str_eqb trimmed (lit "data: [DONE]") then st
  else if startsWith trimmed (lit "data: ") then
    match JSON_parse (slice_from 6 trimmed) with
    | Some json =>
        match dispatch json st with
        | Some st' => st'
        | None => log_parse_error st
        end
    | None => log_parse_error st
    end
  else st.

(** ** [toggleRecognize], cut at its [await]s *)

(** A suspended call: its locals and where it waits. *)
Record Run := mkRun { locals : Locals; at_await : suspended }.

Record App := mkApp { page : Page; run : option Run }.

Definition alert (msg : jsstring) (p : Page) : Page :=
  set_alerts (alerts p ++ [msg]) p.

(** From the first statement to [await fetch(...)]. *)
Definition start (p : Page) : App :=
  let p :=
    p |> set_isRecognizing true
      |> set_btn_recognize (mkButton (lit "Stop") true)
      |> updateStatus (lit "Connecting...") (lit "connecting")
      |> set_result_display []
      |> set_reasoningContent []
      |> set_reasoning_display []
      |> hideReasoningContent in
  let requestData :=
    mkRequest (map img_base64 (currentImages p)) (user_prompt p)
              (model_select p) (reasoning_toggle p) in
  let p :=
    p |> updateStatus (lit "Processing...") (lit "processing")
      |> set_requests (requests p ++ [requestData]) in
  mkApp p (Some (mkRun (mkLocals [] []) AwaitFetch)).

(** The [catch (err)] block. *)
Definition catch_block (err : JSError) (p : Page) : Page :=
  if str_eqb (err_name err) (lit "AbortError") then
    p |> updateStatus (lit "Stopped") (lit "error")
  else
    p |> updateStatus (lit "Error: " ++ err_message err) (lit "error")
      |> set_console (console p ++ [err_message err]).

(** The [finally] block. *)
Definition finally_block (p : Page) : Page :=
  p |> set_isRecognizing false
    |> set_btn_recognize (mkButton (lit "Start") false).

(** The call ends by an exception thrown at its [await]. *)
Definition throw (err : JSError) (p : Page) : App :=
  mkApp (finally_block (catch_block err p)) None.

(** [abortController?.abort()]: the promise the call waits for is rejected
    with an AbortError.  At [response.json().catch(() => ({}))] the
    rejection is caught, [errorData] is [{}] and the Error for the status is
    thrown. *)
Definition abort (a : App) : App :=
  match run a with
  | None => a
  | Some r =>
      match at_await r with
      | AwaitFetch | AwaitRead _ _ => throw AbortError (page a)
      | AwaitErrorBody status => throw (response_error (JObj []) status) (page a)
      end
  end.

(** [toggleRecognize()] as the click calls it. *)
Definition toggleRecognize (a : App) : App :=
  if isRecognizing (page a) then abort a
  else if is_nil (currentImages (page a))
       then mkApp (alert (lit "Please add images.") (page a)) (run a)
       else start (page a).

(** [response] arrived. *)
Definition on_response (status : Z) (r : Run) (p : Page) : App :=
  if (200 <=? status) && (status <=? 299)
  then mkApp p (Some (mkRun (locals r) (AwaitRead new_TextDecoder [])))
  else mkApp p (Some (mkRun (locals r) (AwaitErrorBody status))).

(** One turn of the loop with a chunk. *)
Definition on_chunk (value : list byte) (d : TextDecoder) (b : jsstring)
  (r : Run) (p : Page) : App :=
  let rd := read_chunk process_line (mkReader d b (locals r, p)) value in
  mkApp (snd (acc rd))
        (Some (mkRun (fst (acc rd)) (AwaitRead (decoder rd) (buffer rd)))).

(** After the loop: from "Process final text" to the end of [try]. *)
Definition after_loop (now : Z) (time : jsstring) (r : Run) (p : Page) : Page :=
  let accumulated := fullText (locals r) in
  let fullText := strip_markers accumulated in
  let p := if has_markers accumulated then set_result_display fullText p
           else p in
  if nonempty fullText then
    let p :=
      p |> set_sessionHistory
             (mkHistoryItem now time fullText :: sessionHistory p)
        |> updateStatus (lit "Done") (lit "success") in
    if nonempty (reasoningText (locals r))
    then set_timers (S (timers p)) p
    else p
  else p.

(** The callback of [setTimeout(..., 1000)]. *)
Definition auto_collapse (p : Page) : Page :=
  if reasoning_display_expanded p then
    p |> set_reasoning_display_expanded false
      |> set_reasoning_toggle_icon icon_down
  else p.

(** [clearAll()], after [confirm] said yes. *)
Definition clearAll (p : Page) : Page :=
  p |> set_currentImages []
    |> set_result_display []
    |> set_user_prompt []
    |> set_reasoningContent []
    |> hideReasoningContent.

(** One event; [None] when the page cannot receive it (no call waits for
    that promise, no timer is pending). *)
Definition step (a : App) (e : event) : option App :=
  match e, run a with
  | Click_recognize, _ => Some (toggleRecognize a)
  | Click_box _, _ => Some (mkApp (toggleReasoningDisplay (page a)) (run a))
  | Timer, _ =>
      match timers (page a) with
      | O => None
      | S n => Some (mkApp (auto_collapse (set_timers n (page a))) (run a))
      end
  | Set_images images, _ => Some (mkApp (set_currentImages images (page a)) (run a))
  | Set_prompt text, _ => Some (mkApp (set_user_prompt text (page a)) (run a))
  | Set_model model, _ => Some (mkApp (set_model_select model (page a)) (run a))
  | Set_reasoning_toggle checked, _ =>
      Some (mkApp (set_reasoning_toggle checked (page a)) (run a))
  | Clear, _ => Some (mkApp (clearAll (page a)) (run a))
  | Fetch_resolved status, Some r =>
      match at_await r with
      | AwaitFetch => Some (on_response status r (page a))
      | _ => None
      end
  | Fetch_rejected err, Some r =>
      match at_await r with
      | AwaitFetch => Some (throw err (page a))
      | _ => None
      end
  | Error_body errorData, Some r =>
      match at_await r with
      | AwaitErrorBody status =>
          let errorData := match errorData with Some j => j | None => JObj [] end in
          Some (throw (response_error errorData status) (page a))
      | _ => None
      end
  | Read_chunk value, Some r =>
      match at_await r with
      | AwaitRead d b => Some (on_chunk value d b r (page a))
      | _ => None
      end
  | Read_done now time, Some r =>
      match at_await r with
      | AwaitRead _ _ => Some (mkApp (finally_block (after_loop now time r (page a))) None)
      | _ => None
      end
  | Read_rejected err, Some r =>
      match at_await r with
      | AwaitRead _ _ => Some (throw err (page a))
      | _ => None
      end
  | _, None => None
  end.

Fixpoint exec (a : App) (es : list event) : option App :=
  match es with
  | [] => Some a
  | e :: es' => match step a e with
                | Some a' => exec a' es'
                | None => None
                end
  end.

End Basic.
(* ================================================================== *)
(** * The script with the two exclusive boxes ([src/unnamed/part_000]) *)
(* ================================================================== *)

Module Panel.

(** The classes [expanded] and [collapsed] of a box's [classList]. *)
Inductive cls := expanded | collapsed.

Record Box := mkBox { has_expanded : bool; has_collapsed : bool }.

Definition contains (b : Box) (c : cls) : bool :=
  match c with expanded => has_expanded b | collapsed => has_collapsed b end.

Definition add (c : cls) (b : Box) : Box :=
  match c with
  | expanded => mkBox true (has_collapsed b)
  | collapsed => mkBox (has_expanded b) true
  end.

Definition remove (c : cls) (b : Box) : Box :=
  match c with
  | expanded => mkBox false (has_collapsed b)
  | collapsed => mkBox (has_expanded b) false
  end.

(** The globals of the script, the form controls it reads, the elements it
    writes, and what it sends out: alerts, console errors, requests and
    pending [setTimeout] callbacks. *)
Record Page := mkPage {
  currentImages : list Image;
  isRecognizing : bool;
  sessionHistory : list HistoryItem;
  reasoningContent : jsstring;
  user_prompt : jsstring;
  model_select : jsstring;
  reasoning_toggle : bool;
  btn_recognize : Button;
  status_indicator : Status;
  result_display : jsstring;
  reasoning_display : jsstring;
  reasoning_box : Box;
  reasoning_box_display : jsstring;
  output_box : Box;
  reasoning_toggle_icon : jsstring;
  output_toggle_icon : jsstring;
  reasoning_status : jsstring;
  output_status : jsstring;
  alerts : list jsstring;
  console : list jsstring;
  requests : list Request;
  timers : nat }.

Definition set_currentImages (v : list Image) (p : Page) : Page :=
  {| currentImages := v; isRecognizing := isRecognizing p;
     sessionHistory := sessionHistory p;
     reasoningContent := reasoningContent p; user_prompt := user_prompt p;
     model_select := model_select p; reasoning_toggle := reasoning_toggle p;
     btn_recognize := btn_recognize p;
     status_indicator := status_indicator p;
     result_display := result_display p;
     reasoning_display := reasoning_display p;
     reasoning_box := reasoning_box p;
     reasoning_box_display := reasoning_box_display p;
     output_box := output_box p;
     reasoning_toggle_icon := reasoning_toggle_icon p;
     output_toggle_icon := output_toggle_icon p;
     reasoning_status := reasoning_status p;
     output_status := output_status p; alerts := alerts p;
     console := console p; requests := requests p; timers := timers p |}.

Definition set_isRecognizing (v : bool) (p : Page) : Page :=
  {| currentImages := currentImages p; isRecognizing := v;
     sessionHistory := sessionHistory p;
     reasoningContent := reasoningContent p; user_prompt := user_prompt p;
     model_select := model_select p; reasoning_toggle := reasoning_toggle p;
     btn_recognize := btn_recognize p;
     status_indicator := status_indicator p;
     result_display := result_display p;
     reasoning_display := reasoning_display p;
     reasoning_box := reasoning_box p;
     reasoning_box_display := reasoning_box_display p;
     output_box := output_box p;
     reasoning_toggle_icon := reasoning_toggle_icon p;
     output_toggle_icon := output_toggle_icon p;
     reasoning_status := reasoning_status p;
     output_status := output_status p; alerts := alerts p;
     console := console p; requests := requests p; timers := timers p |}.

Definition set_sessionHistory (v : list HistoryItem) (p : Page) : Page :=
  {| currentImages := currentImages p; isRecognizing := isRecognizing p;
     sessionHistory := v; reasoningContent := reasoningContent p;
     user_prompt := user_prompt p; model_select := model_select p;
     reasoning_toggle := reasoning_toggle p;
     btn_recognize := btn_recognize p;
     status_indicator := status_indicator p;
     result_display := result_display p;
     reasoning_display := reasoning_display p;
     reasoning_box := reasoning_box p;
     reasoning_box_display := reasoning_box_display p;
     output_box := output_box p;
     reasoning_toggle_icon := reasoning_toggle_icon p;
     output_toggle_icon := output_toggle_icon p;
     reasoning_status := reasoning_status p;
     output_status := output_status p; alerts := alerts p;
     console := console p; requests := requests p; timers := timers p |}.

Definition set_reasoningContent (v : jsstring) (p : Page) : Page :=
  {| currentImages := currentImages p; isRecognizing := isRecognizing p;
     sessionHistory := sessionHistory p; reasoningContent := v;
     user_prompt := user_prompt p; model_select := model_select p;
     reasoning_toggle := reasoning_toggle p;
     btn_recognize := btn_recognize p;
     status_indicator := status_indicator p;
     result_display := result_display p;
     reasoning_display := reasoning_display p;
     reasoning_box := reasoning_box p;
     reasoning_box_display := reasoning_box_display p;
     output_box := output_box p;
     reasoning_toggle_icon := reasoning_toggle_icon p;
     output_toggle_icon := output_toggle_icon p;
     reasoning_status := reasoning_status p;
     output_status := output_status p; alerts := alerts p;
     console := console p; requests := requests p; timers := timers p |}.

Definition set_user_prompt (v : jsstring) (p : Page) : Page :=
  {| currentImages := currentImages p; isRecognizing := isRecognizing p;
     sessionHistory := sessionHistory p;
     reasoningContent := reasoningContent p; user_prompt := v;
     model_select := model_select p; reasoning_toggle := reasoning_toggle p;
     btn_recognize := btn_recognize p;
     status_indicator := status_indicator p;
     result_display := result_display p;
     reasoning_display := reasoning_display p;
     reasoning_box := reasoning_box p;
     reasoning_box_display := reasoning_box_display p;
     output_box := output_box p;
     reasoning_toggle_icon := reasoning_toggle_icon p;
     output_toggle_icon := output_toggle_icon p;
     reasoning_status := reasoning_status p;
     output_status := output_status p; alerts := alerts p;
     console := console p; requests := requests p; timers := timers p |}.

Definition set_model_select (v : jsstring) (p : Page) : Page :=
  {| currentImages := currentImages p; isRecognizing := isRecognizing p;
     sessionHistory := sessionHistory p;
     reasoningContent := reasoningContent p; user_prompt := user_prompt p;
     model_select := v; reasoning_toggle := reasoning_toggle p;
     btn_recognize := btn_recognize p;
     status_indicator := status_indicator p;
     result_display := result_display p;
     reasoning_display := reasoning_display p;
     reasoning_box := reasoning_box p;
     reasoning_box_display := reasoning_box_display p;
     output_box := output_box p;
     reasoning_toggle_icon := reasoning_toggle_icon p;
     output_toggle_icon := output_toggle_icon p;
     reasoning_status := reasoning_status p;
     output_status := output_status p; alerts := alerts p;
     console := console p; requests := requests p; timers := timers p |}.

Definition set_reasoning_toggle (v : bool) (p : Page) : Page :=
  {| currentImages := currentImages p; isRecognizing := isRecognizing p;
     sessionHistory := sessionHistory p;
     reasoningContent := reasoningContent p; user_prompt := user_prompt p;
     model_select := model_select p; reasoning_toggle := v;
     btn_recognize := btn_recognize p;
     status_indicator := status_indicator p;
     result_display := result_display p;
     reasoning_display := reasoning_display p;
     reasoning_box := reasoning_box p;
     reasoning_box_display := reasoning_box_display p;
     output_box := output_box p;
     reasoning_toggle_icon := reasoning_toggle_icon p;
     output_toggle_icon := output_toggle_icon p;
     reasoning_status := reasoning_status p;
     output_status := output_status p; alerts := alerts p;
     console := console p; requests := requests p; timers := timers p |}.

Definition set_btn_recognize (v : Button) (p : Page) : Page :=
  {| currentImages := currentImages p; isRecognizing := isRecognizing p;
     sessionHistory := sessionHistory p;
     reasoningContent := reasoningContent p; user_prompt := user_prompt p;
     model_select := model_select p; reasoning_toggle := reasoning_toggle p;
     btn_recognize := v; status_indicator := status_indicator p;
     result_display := result_display p;
     reasoning_display := reasoning_display p;
     reasoning_box := reasoning_box p;
     reasoning_box_display := reasoning_box_display p;
     output_box := output_box p;
     reasoning_toggle_icon := reasoning_toggle_icon p;
     output_toggle_icon := output_toggle_icon p;
     reasoning_status := reasoning_status p;
     output_status := output_status p; alerts := alerts p;
     console := console p; requests := requests p; timers := timers p |}.

Definition set_status_indicator (v : Status) (p : Page) : Page :=
  {| currentImages := currentImages p; isRecognizing := isRecognizing p;
     sessionHistory := sessionHistory p;
     reasoningContent := reasoningContent p; user_prompt := user_prompt p;
     model_select := model_select p; reasoning_toggle := reasoning_toggle p;
     btn_recognize := btn_recognize p; status_indicator := v;
     result_display := result_display p;
     reasoning_display := reasoning_display p;
     reasoning_box := reasoning_box p;
     reasoning_box_display := reasoning_box_display p;
     output_box := output_box p;
     reasoning_toggle_icon := reasoning_toggle_icon p;
     output_toggle_icon := output_toggle_icon p;
     reasoning_status := reasoning_status p;
     output_status := output_status p; alerts := alerts p;
     console := console p; requests := requests p; timers := timers p |}.

Definition set_result_display (v : jsstring) (p : Page) : Page :=
  {| currentImages := currentImages p; isRecognizing := isRecognizing p;
     sessionHistory := sessionHistory p;
     reasoningContent := reasoningContent p; user_prompt := user_prompt p;
     model_select := model_select p; reasoning_toggle := reasoning_toggle p;
     btn_recognize := btn_recognize p;
     status_indicator := status_indicator p; result_display := v;
     reasoning_display := reasoning_display p;
     reasoning_box := reasoning_box p;
     reasoning_box_display := reasoning_box_display p;
     output_box := output_box p;
     reasoning_toggle_icon := reasoning_toggle_icon p;
     output_toggle_icon := output_toggle_icon p;
     reasoning_status := reasoning_status p;
     output_status := output_status p; alerts := alerts p;
     console := console p; requests := requests p; timers := timers p |}.

Definition set_reasoning_display (v : jsstring) (p : Page) : Page :=
  {| currentImages := currentImages p; isRecognizing := isRecognizing p;
     sessionHistory := sessionHistory p;
     reasoningContent := reasoningContent p; user_prompt := user_prompt p;
     model_select := model_select p; reasoning_toggle := reasoning_toggle p;
     btn_recognize := btn_recognize p;
     status_indicator := status_indicator p;
     result_display := result_display p; reasoning_display := v;
     reasoning_box := reasoning_box p;
     reasoning_box_display := reasoning_box_display p;
     output_box := output_box p;
     reasoning_toggle_icon := reasoning_toggle_icon p;
     output_toggle_icon := output_toggle_icon p;
     reasoning_status := reasoning_status p;
     output_status := output_status p; alerts := alerts p;
     console := console p; requests := requests p; timers := timers p |}.

Definition set_reasoning_box (v : Box) (p : Page) : Page :=
  {| currentImages := currentImages p; isRecognizing := isRecognizing p;
     sessionHistory := sessionHistory p;
     reasoningContent := reasoningContent p; user_prompt := user_prompt p;
     model_select := model_select p; reasoning_toggle := reasoning_toggle p;
     btn_recognize := btn_recognize p;
     status_indicator := status_indicator p;
     result_display := result_display p;
     reasoning_display := reasoning_display p; reasoning_box := v;
     reasoning_box_display := reasoning_box_display p;
     output_box := output_box p;
     reasoning_toggle_icon := reasoning_toggle_icon p;
     output_toggle_icon := output_toggle_icon p;
     reasoning_status := reasoning_status p;
     output_status := output_status p; alerts := alerts p;
     console := console p; requests := requests p; timers := timers p |}.

Definition set_reasoning_box_display (v : jsstring) (p : Page) : Page :=
  {| currentImages := currentImages p; isRecognizing := isRecognizing p;
     sessionHistory := sessionHistory p;
     reasoningContent := reasoningContent p; user_prompt := user_prompt p;
     model_select := model_select p; reasoning_toggle := reasoning_toggle p;
     btn_recognize := btn_recognize p;
     status_indicator := status_indicator p;
     result_display := result_display p;
     reasoning_display := reasoning_display p;
     reasoning_box := reasoning_box p; reasoning_box_display := v;
     output_box := output_box p;
     reasoning_toggle_icon := reasoning_toggle_icon p;
     output_toggle_icon := output_toggle_icon p;
     reasoning_status := reasoning_status p;
     output_status := output_status p; alerts := alerts p;
     console := console p; requests := requests p; timers := timers p |}.

Definition set_output_box (v : Box) (p : Page) : Page :=
  {| currentImages := currentImages p; isRecognizing := isRecognizing p;
     sessionHistory := sessionHistory p;
     reasoningContent := reasoningContent p; user_prompt := user_prompt p;
     model_select := model_select p; reasoning_toggle := reasoning_toggle p;
     btn_recognize := btn_recognize p;
     status_indicator := status_indicator p;
     result_display := result_display p;
     reasoning_display := reasoning_display p;
     reasoning_box := reasoning_box p;
     reasoning_box_display := reasoning_box_display p; output_box := v;
     reasoning_toggle_icon := reasoning_toggle_icon p;
     output_toggle_icon := output_toggle_icon p;
     reasoning_status := reasoning_status p;
     output_status := output_status p; alerts := alerts p;
     console := console p; requests := requests p; timers := timers p |}.

Definition set_reasoning_toggle_icon (v : jsstring) (p : Page) : Page :=
  {| currentImages := currentImages p; isRecognizing := isRecognizing p;
     sessionHistory := sessionHistory p;
     reasoningContent := reasoningContent p; user_prompt := user_prompt p;
     model_select := model_select p; reasoning_toggle := reasoning_toggle p;
     btn_recognize := btn_recognize p;
     status_indicator := status_indicator p;
     result_display := result_display p;
     reasoning_display := reasoning_display p;
     reasoning_box := reasoning_box p;
     reasoning_box_display := reasoning_box_display p;
     output_box := output_box p; reasoning_toggle_icon := v;
     output_toggle_icon := output_toggle_icon p;
     reasoning_status := reasoning_status p;
     output_status := output_status p; alerts := alerts p;
     console := console p; requests := requests p; timers := timers p |}.

Definition set_output_toggle_icon (v : jsstring) (p : Page) : Page :=
  {| currentImages := currentImages p; isRecognizing := isRecognizing p;
     sessionHistory := sessionHistory p;
     reasoningContent := reasoningContent p; user_prompt := user_prompt p;
     model_select := model_select p; reasoning_toggle := reasoning_toggle p;
     btn_recognize := btn_recognize p;
     status_indicator := status_indicator p;
     result_display := result_display p;
     reasoning_display := reasoning_display p;
     reasoning_box := reasoning_box p;
     reasoning_box_display := reasoning_box_display p;
     output_box := output_box p;
     reasoning_toggle_icon := reasoning_toggle_icon p;
     output_toggle_icon := v; reasoning_status := reasoning_status p;
     output_status := output_status p; alerts := alerts p;
     console := console p; requests := requests p; timers := timers p |}.

Definition set_reasoning_status (v : jsstring) (p : Page) : Page :=
  {| currentImages := currentImages p; isRecognizing := isRecognizing p;
     sessionHistory := sessionHistory p;
     reasoningContent := reasoningContent p; user_prompt := user_prompt p;
     model_select := model_select p; reasoning_toggle := reasoning_toggle p;
     btn_recognize := btn_recognize p;
     status_indicator := status_indicator p;
     result_display := result_display p;
     reasoning_display := reasoning_display p;
     reasoning_box := reasoning_box p;
     reasoning_box_display := reasoning_box_display p;
     output_box := output_box p;
     reasoning_toggle_icon := reasoning_toggle_icon p;
     output_toggle_icon := output_toggle_icon p; reasoning_status := v;
     output_status := output_status p; alerts := alerts p;
     console := console p; requests := requests p; timers := timers p |}.

Definition set_output_status (v : jsstring) (p : Page) : Page :=
  {| currentImages := currentImages p; isRecognizing := isRecognizing p;
     sessionHistory := sessionHistory p;
     reasoningContent := reasoningContent p; user_prompt := user_prompt p;
     model_select := model_select p; reasoning_toggle := reasoning_toggle p;
     btn_recognize := btn_recognize p;
     status_indicator := status_indicator p;
     result_display := result_display p;
     reasoning_display := reasoning_display p;
     reasoning_box := reasoning_box p;
     reasoning_box_display := reasoning_box_display p;
     output_box := output_box p;
     reasoning_toggle_icon := reasoning_toggle_icon p;
     output_toggle_icon := output_toggle_icon p;
     reasoning_status := reasoning_status p; output_status := v;
     alerts := alerts p; console := console p; requests := requests p;
     timers := timers p |}.

Definition set_alerts (v : list jsstring) (p : Page) : Page :=
  {| currentImages := currentImages p; isRecognizing := isRecognizing p;
     sessionHistory := sessionHistory p;
     reasoningContent := reasoningContent p; user_prompt := user_prompt p;
     model_select := model_select p; reasoning_toggle := reasoning_toggle p;
     btn_recognize := btn_recognize p;
     status_indicator := status_indicator p;
     result_display := result_display p;
     reasoning_display := reasoning_display p;
     reasoning_box := reasoning_box p;
     reasoning_box_display := reasoning_box_display p;
     output_box := output_box p;
     reasoning_toggle_icon := reasoning_toggle_icon p;
     output_toggle_icon := output_toggle_icon p;
     reasoning_status := reasoning_status p;
     output_status := output_status p; alerts := v; console := console p;
     requests := requests p; timers := timers p |}.

Definition set_console (v : list jsstring) (p : Page) : Page :=
  {| currentImages := currentImages p; isRecognizing := isRecognizing p;
     sessionHistory := sessionHistory p;
     reasoningContent := reasoningContent p; user_prompt := user_prompt p;
     model_select := model_select p; reasoning_toggle := reasoning_toggle p;
     btn_recognize := btn_recognize p;
     status_indicator := status_indicator p;
     result_display := result_display p;
     reasoning_display := reasoning_display p;
     reasoning_box := reasoning_box p;
     reasoning_box_display := reasoning_box_display p;
     output_box := output_box p;
     reasoning_toggle_icon := reasoning_toggle_icon p;
     output_toggle_icon := output_toggle_icon p;
     reasoning_status := reasoning_status p;
     output_status := output_status p; alerts := alerts p; console := v;
     requests := requests p; timers := timers p |}.

Definition set_requests (v : list Request) (p : Page) : Page :=
  {| currentImages := currentImages p; isRecognizing := isRecognizing p;
     sessionHistory := sessionHistory p;
     reasoningContent := reasoningContent p; user_prompt := user_prompt p;
     model_select := model_select p; reasoning_toggle := reasoning_toggle p;
     btn_recognize := btn_recognize p;
     status_indicator := status_indicator p;
     result_display := result_display p;
     reasoning_display := reasoning_display p;
     reasoning_box := reasoning_box p;
     reasoning_box_display := reasoning_box_display p;
     output_box := output_box p;
     reasoning_toggle_icon := reasoning_toggle_icon p;
     output_toggle_icon := output_toggle_icon p;
     reasoning_status := reasoning_status p;
     output_status := output_status p; alerts := alerts p;
     console := console p; requests := v; timers := timers p |}.

Definition set_timers (v : nat) (p : Page) : Page :=
  {| currentImages := currentImages p; isRecognizing := isRecognizing p;
     sessionHistory := sessionHistory p;
     reasoningContent := reasoningContent p; user_prompt := user_prompt p;
     model_select := model_select p; reasoning_toggle := reasoning_toggle p;
     btn_recognize := btn_recognize p;
     status_indicator := status_indicator p;
     result_display := result_display p;
     reasoning_display := reasoning_display p;
     reasoning_box := reasoning_box p;
     reasoning_box_display := reasoning_box_display p;
     output_box := output_box p;
     reasoning_toggle_icon := reasoning_toggle_icon p;
     output_toggle_icon := output_toggle_icon p;
     reasoning_status := reasoning_status p;
     output_status := output_status p; alerts := alerts p;
     console := console p; requests := requests p; timers := v |}.

Definition updateStatus (msg type : jsstring) (p : Page) : Page :=
  set_status_indicator (mkStatus msg type) p.

Definition hideReasoningContent (p : Page) : Page :=
  if negb (contains (reasoning_box p) collapsed) then
    p |> set_reasoning_box (add collapsed (remove expanded (reasoning_box p)))
      |> set_reasoning_toggle_icon icon_down
      |> set_output_box (add expanded (remove collapsed (output_box p)))
      |> set_output_toggle_icon icon_up
  else p.

Definition showReasoningContent (content : jsstring) (p : Page) : Page :=
  let p := set_reasoningContent content p in
  if nonempty content && nonempty (trim content) then
    p |> set_reasoning_display content
      |> set_reasoning_box_display (lit "flex")
      |> set_reasoning_box (add expanded (remove collapsed (reasoning_box p)))
      |> set_reasoning_toggle_icon icon_up
      |> set_output_box (add collapsed (remove expanded (output_box p)))
      |> set_output_toggle_icon icon_down
      |> set_output_status (lit "box-status")
      |> set_reasoning_status (lit "box-status spinning")
  else hideReasoningContent p.

Definition toggleBox (boxType : jsstring) (p : Page) : Page :=
  let r := str_eqb boxType (lit "reasoning") in
  let targetBox := if r then reasoning_box p else output_box p in
  let otherBox := if r then output_box p else reasoning_box p in
  let set_target b icon q :=
    if r then set_reasoning_toggle_icon icon (set_reasoning_box b q)
    else set_output_toggle_icon icon (set_output_box b q) in
  let set_other b icon q :=
    if r then set_output_toggle_icon icon (set_output_box b q)
    else set_reasoning_toggle_icon icon (set_reasoning_box b q) in
  if contains targetBox collapsed then
    p |> set_target (add expanded (remove collapsed targetBox)) icon_up
      |> set_other (add collapsed (remove expanded otherBox)) icon_down
  else
    p |> set_target (add collapsed (remove expanded targetBox)) icon_down
      |> set_other (add expanded (remove collapsed otherBox)) icon_up.

Definition toggleReasoningDisplay (p : Page) : Page :=
  toggleBox (lit "reasoning") p.

(** ** Handling one line of the stream *)

(** [reasoningText += v; showReasoningContent(reasoningText)] *)
Definition append_reasoning (v : JSON) (st : Locals * Page) : Locals * Page :=
  let (l, p) := st in
  let reasoningText := reasoningText l ++ ToString v in
  (mkLocals (fullText l) reasoningText, showReasoningContent reasoningText p).

(** [fullText += v; display.innerText = fullText] *)
Definition append_content (v : JSON) (st : Locals * Page) : Locals * Page :=
  let (l, p) := st in
  let fullText := fullText l ++ ToString v in
  (mkLocals fullText (reasoningText l), set_result_display fullText p).

(** The body of [try] after [JSON.parse]. *)
Definition dispatch (json : JSON) (st : Locals * Page) : option (Locals * Page) :=
  type <- get (Some json) (lit "type") ;;
  if is_string type (lit "response.reasoning.delta") then
    delta <- get (Some json) (lit "delta") ;;
    let reasoningDelta := or_empty delta in
    Some (if truthy (Some reasoningDelta)
          then append_reasoning reasoningDelta st else st)
  else
    choices <- get (Some json) (lit "choices") ;;
    if truthy choices then
      first <- get0 choices ;;
      if truthy (opt_get first (lit "delta")) then
        delta <- get first (lit "delta") ;;
        content_v <- get delta (lit "content") ;;
        reasoning_v <- get delta (lit "reasoning") ;;
        let content := or_empty content_v in
        let reasoning := or_empty reasoning_v in
        let st := if truthy (Some reasoning) then append_reasoning reasoning st
                  else st in
        Some (if truthy (Some content) then append_content content st else st)
      else Some st
    else Some st.

(** [console.error("Parse error", e)] *)
Definition log_parse_error (st : Locals * Page) : Locals * Page :=
  (fst st, set_console (console (snd st) ++ [lit "Parse error"]) (snd st)).

(** The body of [for (const line of lines)]. *)
Definition process_line (st : Locals * Page) (line : jsstring) : Locals * Page :=
  let trimmed := trim line in
  if negb (nonempty trimmed) || str_eqb trimmed (lit "data: [DONE]") then st
  else if startsWith trimmed (lit "data: ") then
    match JSON_parse (slice_from 6 trimmed) with
    | Some json =>
        match dispatch json st with
        | Some st' => st'
        | None => log_parse_error st
        end
    | None => log_parse_error st
    end
  else st.

(** ** [toggleRecognize], cut at its [await]s *)

(** A suspended call: its locals and where it waits. *)
Record Run := mkRun {
  locals : Locals; reasoningEnabled : bool; at_await : suspended }.

Record App := mkApp { page : Page; run : option Run }.

Definition alert (msg : jsstring) (p : Page) : Page :=
  set_alerts (alerts p ++ [msg]) p.

(** From the first statement to [await fetch(...)]. *)
Definition start (p : Page) : App :=
  let reasoningEnabled := reasoning_toggle p in
  let p :=
    p |> set_isRecognizing true
      |> set_btn_recognize (mkButton (lit "Stop") true)
      |> updateStatus (lit "Connecting...") (lit "connecting")
      |> set_result_display []
      |> set_reasoningContent []
      |> set_reasoning_display []
      |> set_reasoning_status (lit "box-status")
      |> set_output_status (lit "box-status") in
  let requestData :=
    mkRequest (map img_base64 (currentImages p)) (user_prompt p)
              (model_select p) (reasoning_toggle p) in
  let p :=
    if reasoningEnabled then
      p |> set_reasoning_box_display (lit "flex")
        |> set_reasoning_box (add expanded (remove collapsed (reasoning_box p)))
        |> set_reasoning_toggle_icon icon_up
        |> set_output_box (add collapsed (remove expanded (output_box p)))
        |> set_output_toggle_icon icon_down
        |> set_output_status (lit "box-status")
        |> set_reasoning_status (lit "box-status spinning")
    else
      p |> set_reasoning_box_display (lit "none")
        |> set_reasoning_box (add collapsed (remove expanded (reasoning_box p)))
        |> set_reasoning_toggle_icon icon_down
        |> set_output_box (add expanded (remove collapsed (output_box p)))
        |> set_output_toggle_icon icon_up
        |> set_reasoning_status (lit "box-status")
        |> set_output_status (lit "box-status spinning") in
  let p :=
    p |> updateStatus (lit "Processing...") (lit "processing")
      |> set_requests (requests p ++ [requestData]) in
  mkApp p (Some (mkRun (mkLocals [] []) reasoningEnabled AwaitFetch)).

(** The [catch (err)] block. *)
Definition catch_block (err : JSError) (p : Page) : Page :=
  if str_eqb (err_name err) (lit "AbortError") then
    p |> updateStatus (lit "Stopped") (lit "error")
      |> set_reasoning_status (lit "box-status")
      |> set_output_status (lit "box-status")
  else
    p |> updateStatus (lit "Error: " ++ err_message err) (lit "error")
      |> set_console (console p ++ [err_message err])
      |> set_reasoning_status (lit "box-status error")
      |> set_output_status (lit "box-status error").

(** The [finally] block. *)
Definition finally_block (p : Page) : Page :=
  p |> set_isRecognizing false
    |> set_btn_recognize (mkButton (lit "Start") false).

(** The call ends by an exception thrown at its [await]. *)
Definition throw (err : JSError) (p : Page) : App :=
  mkApp (finally_block (catch_block err p)) None.

(** [abortController?.abort()]: the promise the call waits for is rejected
    with an AbortError.  At [response.json().catch(() => ({}))] the
    rejection is caught, [errorData] is [{}] and the Error for the status is
    thrown. *)
Definition abort (a : App) : App :=
  match run a with
  | None => a
  | Some r =>
      match at_await r with
      | AwaitFetch | AwaitRead _ _ => throw AbortError (page a)
      | AwaitErrorBody status => throw (response_error (JObj []) status) (page a)
      end
  end.

(** [toggleRecognize()] as the click calls it. *)
Definition toggleRecognize (a : App) : App :=
  if isRecognizing (page a) then abort a
  else if is_nil (currentImages (page a))
       then mkApp (alert (lit "Please add images.") (page a)) (run a)
       else start (page a).

(** [response] arrived. *)
Definition on_response (status : Z) (r : Run) (p : Page) : App :=
  if (200 <=? status) && (status <=? 299)
  then mkApp p (Some (mkRun (locals r) (reasoningEnabled r)
                            (AwaitRead new_TextDecoder [])))
  else mkApp p (Some (mkRun (locals r) (reasoningEnabled r)
                            (AwaitErrorBody status))).

(** One turn of the loop with a chunk. *)
Definition on_chunk (value : list byte) (d : TextDecoder) (b : jsstring)
  (r : Run) (p : Page) : App :=
  let rd := read_chunk process_line (mkReader d b (locals r, p)) value in
  mkApp (snd (acc rd))
        (Some (mkRun (fst (acc rd)) (reasoningEnabled r)
                     (AwaitRead (decoder rd) (buffer rd)))).

(** After the loop: from "Process final text" to the end of [try]. *)
Definition after_loop (now : Z) (time : jsstring) (r : Run) (p : Page) : Page :=
  let accumulated := fullText (locals r) in
  let fullText := strip_markers accumulated in
  let p := if has_markers accumulated then set_result_display fullText p
           else p in
  if nonempty fullText then
    let p :=
      p |> set_sessionHistory
             (mkHistoryItem now time fullText :: sessionHistory p)
        |> updateStatus (lit "Done") (lit "success") in
    let p :=
      if reasoningEnabled r && nonempty (reasoningText (locals r)) then
        p |> set_reasoning_status (lit "box-status completed")
          |> set_output_status (lit "box-status completed")
      else
        p |> set_output_status (lit "box-status completed") in
    if nonempty (reasoningText (locals r))
    then set_timers (S (timers p)) p
    else p
  else p.

(** The callback of [setTimeout(..., 1000)]. *)
Definition auto_switch (p : Page) : Page :=
  if negb (str_eqb (reasoning_box_display p) (lit "none")) then
    p |> set_reasoning_box (add collapsed (remove expanded (reasoning_box p)))
      |> set_reasoning_toggle_icon icon_down
      |> set_output_box (add expanded (remove collapsed (output_box p)))
      |> set_output_toggle_icon icon_up
  else p.

(** [clearInput()], after [confirm] said yes. *)
Definition clearInput (p : Page) : Page :=
  p |> set_currentImages []
    |> set_user_prompt [].

(** One event; [None] when the page cannot receive it (no call waits for
    that promise, no timer is pending). *)
Definition step (a : App) (e : event) : option App :=
  match e, run a with
  | Click_recognize, _ => Some (toggleRecognize a)
  | Click_box boxType, _ => Some (mkApp (toggleBox boxType (page a)) (run a))
  | Timer, _ =>
      match timers (page a) with
      | O => None
      | S n => Some (mkApp (auto_switch (set_timers n (page a))) (run a))
      end
  | Set_images images, _ => Some (mkApp (set_currentImages images (page a)) (run a))
  | Set_prompt text, _ => Some (mkApp (set_user_prompt text (page a)) (run a))
  | Set_model model, _ => Some (mkApp (set_model_select model (page a)) (run a))
  | Set_reasoning_toggle checked, _ =>
      Some (mkApp (set_reasoning_toggle checked (page a)) (run a))
  | Clear, _ => Some (mkApp (clearInput (page a)) (run a))
  | Fetch_resolved status, Some r =>
      match at_await r with
      | AwaitFetch => Some (on_response status r (page a))
      | _ => None
      end
  | Fetch_rejected err, Some r =>
      match at_await r with
      | AwaitFetch => Some (throw err (page a))
      | _ => None
      end
  | Error_body errorData, Some r =>
      match at_await r with
      | AwaitErrorBody status =>
          let errorData := match errorData with Some j => j | None => JObj [] end in
          Some (throw (response_error errorData status) (page a))
      | _ => None
      end
  | Read_chunk value, Some r =>
      match at_await r with
      | AwaitRead d b => Some (on_chunk value d b r (page a))
      | _ => None
      end
  | Read_done now time, Some r =>
      match at_await r with
      | AwaitRead _ _ => Some (mkApp (finally_block (after_loop now time r (page a))) None)
      | _ => None
      end
  | Read_rejected err, Some r =>
      match at_await r with
      | AwaitRead _ _ => Some (throw err (page a))
      | _ => None
      end
  | _, None => None
  end.

Fixpoint exec (a : App) (es : list event) : option App :=
  match es with
  | [] => Some a
  | e :: es' => match step a e with
                | Some a' => exec a' es'
                | None => None
                end
  end.

End Panel.

(* ================================================================== *)
(** * Vocabulary of the properties                                     *)
(* ================================================================== *)

(** The text a field of a payload contributes when it is appended: nothing
    for a missing or falsy field, the string itself for a string. *)
Definition text_of (v : value) : jsstring :=
  if truthy v then ToString (or_empty v) else [].



(** A line as the stream carries it: the prefix and a payload. *)
Definition data_line (payload : jsstring) : jsstring := lit "data: " ++ payload.

(** The reasoning text of the suspended call, empty when none is. *)
Definition panel_reasoning_of (a : Panel.App) : jsstring :=
  match Panel.run a with
  | Some r => reasoningText (Panel.locals r)
  | None => []
  end.

(** A box has exactly one of the classes [expanded] and [collapsed]. *)
Definition box_ok (b : Panel.Box) : Prop :=
  Panel.has_collapsed b = negb (Panel.has_expanded b).

(** Exactly one of the two boxes is expanded. *)
Definition exclusive (p : Panel.Page) : Prop :=
  xorb (Panel.has_expanded (Panel.reasoning_box p))
       (Panel.has_expanded (Panel.output_box p)) = true
  /\ box_ok (Panel.reasoning_box p) /\ box_ok (Panel.output_box p).

(** The loop state with the console emptied: what the user can see of it. *)
Definition basic_mute (st : Locals * Basic.Page) : Locals * Basic.Page :=
  (fst st, Basic.set_console [] (snd st)).

Definition panel_mute (st : Locals * Panel.Page) : Locals * Panel.Page :=
  (fst st, Panel.set_console [] (snd st)).

(** The status while a call is suspended. *)
Definition Processing : Status := mkStatus (lit "Processing...") (lit "processing").

(** ** The basic script: effects of a line, reachable pages *)
Module BasicSpec.
Import Basic.

(** What handling one line does to the loop state depends on the line
    alone: nothing, a logged parse error, or text appended (reasoning only
    together with content). *)
Inductive effect :=
| ENone
| ELog
| EContent (v : JSON)
| EBoth (c r : JSON).

Definition apply_effect (e : effect) (st : Locals * Page) : Locals * Page :=
  match e with
  | ENone => st
  | ELog => log_parse_error st
  | EContent v => append_content v st
  | EBoth c r => append_reasoning r (append_content c st)
  end.

Inductive reachable : App -> Prop :=
| reach_idle p : isRecognizing p = false -> reachable (mkApp p None)
| reach_step a e a' : reachable a -> step a e = Some a' -> reachable a'.

(** What the loop keeps: the call is marked running and the status says
    Processing. *)
Definition running (st : Locals * Page) : Prop :=
  isRecognizing (snd st) = true
  /\ status_indicator (snd st) = Processing.

Definition run_inv (a : App) : Prop :=
  match run a with
  | None => isRecognizing (page a) = false
  | Some r => running (locals r, page a)
  end.

Definition of_reader (rd : Reader (Locals * Page)) : App :=
  mkApp (snd (acc rd))
        (Some (mkRun (fst (acc rd)) (AwaitRead (decoder rd) (buffer rd)))).

End BasicSpec.

(** ** The script with the boxes: effects of a line, reachable pages *)
Module PanelSpec.
Import Panel.

(** What handling one line does to the loop state depends on the line
    alone: nothing, a logged parse error, or text appended. *)
Inductive effect :=
| ENone
| ELog
| EReasoning (v : JSON)
| EContent (v : JSON)
| EBoth (r c : JSON).

Definition apply_effect (e : effect) (st : Locals * Page) : Locals * Page :=
  match e with
  | ENone => st
  | ELog => log_parse_error st
  | EReasoning v => append_reasoning v st
  | EContent v => append_content v st
  | EBoth r c => append_content c (append_reasoning r st)
  end.

(** The states the page can be in: it starts with no call running, then
    events arrive. *)
Inductive reachable : App -> Prop :=
| reach_idle p : isRecognizing p = false -> reachable (mkApp p None)
| reach_step a e a' : reachable a -> step a e = Some a' -> reachable a'.

(** What the loop keeps: the call is marked running, the status says
    Processing, the result display shows [fullText], the boxes exclude each
    other. *)
Definition running (st : Locals * Page) : Prop :=
  isRecognizing (snd st) = true
  /\ status_indicator (snd st) = Processing
  /\ result_display (snd st) = fullText (fst st)
  /\ exclusive (snd st).

Definition run_inv (a : App) : Prop :=
  match run a with
  | None => isRecognizing (page a) = false
  | Some r => running (locals r, page a)
  end.

Definition of_reader (r : Run) (rd : Reader (Locals * Page)) : App :=
  mkApp (snd (acc rd))
        (Some (mkRun (fst (acc rd)) (reasoningEnabled r)
                     (AwaitRead (decoder rd) (buffer rd)))).

End PanelSpec.

(** ** Pages for the examples: idle, with the given images and history *)
Definition an_image : Image :=
  mkImage (lit "scan.png") (lit "data:image/png;base64,AAAA").

Definition basic_page (images : list Image) (history : list HistoryItem)
  : Basic.Page :=
  Basic.mkPage images false history [] [] (lit "model") true
    (mkButton (lit "Start") false) (mkStatus (lit "Ready") []) [] []
    false (lit "none") icon_down [] [] [] 0.

Definition panel_page (images : list Image) (history : list HistoryItem)
  : Panel.Page :=
  Panel.mkPage images false history [] [] (lit "model") true
    (mkButton (lit "Start") false) (mkStatus (lit "Ready") []) [] []
    (Panel.mkBox false true) (lit "none") (Panel.mkBox true false)
    icon_down icon_up (lit "box-status") (lit "box-status") [] [] [] 0.

(** The page after the events (as it was, when it cannot receive them). *)
Definition panel_after (a : Panel.App) (es : list event) : Panel.App :=
  match Panel.exec a es with Some a' => a' | None => a end.

(** The line feed that ends a line of the stream. *)
Definition LF : list byte := [x0a].

(** ** Streams, events and pages of the examples *)

(** The stream of the example, whole and cut inside a line and inside the
    three bytes of a character. *)
Definition stream_whole : list (list byte) :=
  [bytes_of "data: {'choices':[{'delta':{'content':'" ++ [xe4; xbd; xa0]
   ++ bytes_of "'}}]}" ++ LF].

Definition stream_cut : list (list byte) :=
  [bytes_of "data: {'choi";
   bytes_of "ces':[{'delta':{'content':'" ++ [xe4; xbd];
   [];
   [xa0] ++ bytes_of "'}}]}" ++ LF].

(** A call whose stream carries the marked text in two deltas. *)
Definition hello_events : list event :=
  [Click_recognize; Fetch_resolved 200;
   Read_chunk (bytes_of "data: {'choices':[{'delta':{'content':'<|begin_of_box|>HEL'}}]}" ++ LF);
   Read_chunk (bytes_of "data: {'choices':[{'delta':{'content':'LO<|end_of_box|>'}}]}" ++ LF)].

(** A call whose stream carries a blank line, a line that does not parse, a
    line without the prefix and a reasoning delta, and no content. *)
Definition no_content_events : list event :=
  [Click_recognize; Fetch_resolved 200;
   Read_chunk (LF ++ bytes_of "data: {'choices':[{'delta':" ++ LF
               ++ bytes_of ": keep-alive" ++ LF
               ++ bytes_of "data: {'type':'response.reasoning.delta','delta':'hm'}" ++ LF)].

(** An entry of an earlier call. *)
Definition earlier_item : HistoryItem :=
  mkHistoryItem 1699999990000 (lit "09:59:50") (lit "earlier").

Definition hello_item : HistoryItem :=
  mkHistoryItem 1700000000000 (lit "10:00:00") (lit "HELLO").

(** A call suspended at [reader.read()] with [HELLO] accumulated. *)
Definition panel_hello_read : Panel.App :=
  Panel.mkApp (Panel.set_isRecognizing true (panel_page [an_image] [earlier_item]))
              (Some (Panel.mkRun (mkLocals (lit "HELLO") []) true
                                 (AwaitRead new_TextDecoder []))).

Definition Stopped : Status := mkStatus (lit "Stopped") (lit "error").

(** The page one click and one response later: the call waits for a chunk. *)
Definition basic_reading : Basic.App :=
  Basic.mkApp (Basic.page (Basic.start (basic_page [an_image] [])))
              (Some (Basic.mkRun (mkLocals [] []) (AwaitRead new_TextDecoder []))).

Definition one_delta : jsstring :=
  jq "data: {'choices':[{'delta':{'content':'late'}}]}".

(** The claim C4 has the sentinel end the sequence, so that no later line
    contributes.  Here a delta follows the sentinel in the stream and its
    text is the final text of the call. *)
Definition after_sentinel_events : list event :=
  [Click_recognize; Fetch_resolved 200;
   Read_chunk (bytes_of "data: [DONE]" ++ LF
               ++ bytes_of "data: {'choices':[{'delta':{'content':'late'}}]}" ++ LF);
   Read_done 1700000000000 (lit "10:00:00")].

Definition broken_line : jsstring := jq "data: {'choices':[{'delta':".

(** A choices payload with a reasoning fragment and empty content, and a
    tagged payload. *)
Definition reasoning_only_line : jsstring :=
  jq "data: {'choices':[{'delta':{'reasoning':'think','content':''}}]}".

Definition tagged_line : jsstring :=
  jq "data: {'type':'response.reasoning.delta','delta':'think'}".

(** A page whose template left both boxes expanded; a call with a reasoning
    delta, then content, the end of the stream, the delayed switch and
    clicks on both headers. *)
Definition both_expanded : Panel.Page :=
  Panel.set_output_box (Panel.mkBox true false)
    (Panel.set_reasoning_box (Panel.mkBox true false) (panel_page [an_image] [])).

Definition exclusivity_events : list event :=
  [Read_chunk (bytes_of "data: {'choices':[{'delta':{'content':'text'}}]}" ++ LF);
   Click_box (lit "output");
   Read_done 1700000000000 (lit "10:00:00");
   Timer;
   Click_box (lit "reasoning");
   Click_recognize].

Definition reasoning_blank_chunk : list byte :=
  bytes_of "data: {'type':'response.reasoning.delta','delta':' '}" ++ LF.

Definition exclusivity_a1 : Panel.App :=
  Eval vm_compute in
    panel_after (Panel.mkApp both_expanded None)
                [Click_box (lit "output"); Click_recognize; Fetch_resolved 200].

Definition exclusivity_a2 : Panel.App :=
  Eval vm_compute in panel_after exclusivity_a1 [Read_chunk reasoning_blank_chunk].

Definition exclusivity_a3 : Panel.App :=
  Eval vm_compute in panel_after exclusivity_a2 exclusivity_events.

(* ================================================================== *)
(** * Further vocabulary: lines, streams and calls                     *)
(* ================================================================== *)

(** A string of code units that [trim] strips. *)
Definition whitespace (s : jsstring) : Prop := forallb is_trim_unit s = true.

(** The carriage return that precedes the line feed in a CRLF stream. *)
Definition CR : jsstring := [13].

(** Bytes without a line feed. *)
Definition no_line_feed (bs : list byte) : Prop :=
  forallb (fun b => negb (Byte.eqb b x0a)) bs = true.

(** What the decoder keeps between two bytes of a sequence it has not
    finished: the bits read so far are not all zero, or the next byte is
    bounded so that they will not be.  Every state the decoder reaches from
    its initial state is of this kind. *)
Definition utf8_wf (st : utf8_state) : Prop :=
  u_needed st = 0 \/ 1 <= u_cp st
  \/ (u_cp st = 0 /\ 144 <= u_lower st /\ u_upper st <= 191).

(** A reader between two turns of the loop. *)
Definition reader_wf {St} (r : Reader St) : Prop :=
  clean r /\ utf8_wf (d_utf8 (decoder r)).

(** ** Streams of the examples *)

(** A stream whose second line is not ended by a line feed. *)
Definition A_line : list byte :=
  bytes_of "data: {'choices':[{'delta':{'content':'A'}}]}".

Definition B_line : list byte :=
  bytes_of "data: {'choices':[{'delta':{'content':'B'}}]}".

(** ** What the handling of a line leaves alone

    The loop writes the two displays, the reasoning panel or the boxes, and
    the console.  These are the other parts of the page. *)
Definition basic_static (p : Basic.Page) :=
  (Basic.currentImages p, Basic.isRecognizing p, Basic.sessionHistory p,
   Basic.user_prompt p, Basic.model_select p, Basic.reasoning_toggle p,
   Basic.btn_recognize p, Basic.status_indicator p, Basic.alerts p,
   Basic.requests p, Basic.timers p).

Definition panel_static (p : Panel.Page) :=
  (Panel.currentImages p, Panel.isRecognizing p, Panel.sessionHistory p,
   Panel.user_prompt p, Panel.model_select p, Panel.reasoning_toggle p,
   Panel.btn_recognize p, Panel.status_indicator p, Panel.alerts p,
   Panel.requests p, Panel.timers p).



(** The button as [toggleRecognize] sets it when a call starts and in its
    [finally] block. *)
Definition Stop_button : Button := mkButton (lit "Stop") true.
Definition Start_button : Button := mkButton (lit "Start") false.

(** The button and the flag say whether a call is suspended. *)
Definition basic_button_ok (a : Basic.App) : Prop :=
  match Basic.run a with
  | Some _ => Basic.isRecognizing (Basic.page a) = true
              /\ Basic.btn_recognize (Basic.page a) = Stop_button
  | None => Basic.isRecognizing (Basic.page a) = false
            /\ Basic.btn_recognize (Basic.page a) = Start_button
  end.

Definition panel_button_ok (a : Panel.App) : Prop :=
  match Panel.run a with
  | Some _ => Panel.isRecognizing (Panel.page a) = true
              /\ Panel.btn_recognize (Panel.page a) = Stop_button
  | None => Panel.isRecognizing (Panel.page a) = false
            /\ Panel.btn_recognize (Panel.page a) = Start_button
  end.

(** The request [toggleRecognize] builds from the page. *)
Definition basic_request (p : Basic.Page) : Request :=
  mkRequest (map img_base64 (Basic.currentImages p)) (Basic.user_prompt p)
            (Basic.model_select p) (Basic.reasoning_toggle p).

Definition panel_request (p : Panel.Page) : Request :=
  mkRequest (map img_base64 (Panel.currentImages p)) (Panel.user_prompt p)
            (Panel.model_select p) (Panel.reasoning_toggle p).

(** The toggle icon that goes with a state. *)
Definition icon_of (is_expanded : bool) : jsstring :=
  if is_expanded then icon_up else icon_down.

(** The icons show the state of what they toggle. *)
Definition basic_icon_ok (p : Basic.Page) : Prop :=
  Basic.reasoning_toggle_icon p = icon_of (Basic.reasoning_display_expanded p).

Definition panel_icons_ok (p : Panel.Page) : Prop :=
  Panel.reasoning_toggle_icon p
  = icon_of (Panel.has_expanded (Panel.reasoning_box p))
  /\ Panel.output_toggle_icon p
     = icon_of (Panel.has_expanded (Panel.output_box p)).

(** The page after the events (as it was, when it cannot receive them). *)
Definition basic_after (a : Basic.App) (es : list event) : Basic.App :=
  match Basic.exec a es with Some a' => a' | None => a end.

(** A call that delivers the marked text, to its end. *)
Definition history_events : list event :=
  hello_events ++ [Read_done 1700000000000 (lit "10:00:00")].

Definition history_end : Basic.App :=
  Eval vm_compute in
    basic_after (Basic.mkApp (basic_page [an_image] [earlier_item]) None)
                history_events.

(** ** How a call ends *)

(** The call ended in its [catch] block with an error that is no abort:
    the status shows the message with the class [error], the message is
    logged, the call is over and the button is Start again; the history,
    the alerts and what the displays show are as they were. *)
Definition basic_ended_in_error (message : jsstring) (a a' : Basic.App) : Prop :=
  Basic.status_indicator (Basic.page a')
  = mkStatus (lit "Error: " ++ message) (lit "error")
  /\ Basic.console (Basic.page a') = Basic.console (Basic.page a) ++ [message]
  /\ Basic.run a' = None
  /\ Basic.isRecognizing (Basic.page a') = false
  /\ Basic.btn_recognize (Basic.page a') = Start_button
  /\ Basic.sessionHistory (Basic.page a') = Basic.sessionHistory (Basic.page a)
  /\ Basic.alerts (Basic.page a') = Basic.alerts (Basic.page a)
  /\ Basic.result_display (Basic.page a') = Basic.result_display (Basic.page a)
  /\ Basic.reasoning_display (Basic.page a')
     = Basic.reasoning_display (Basic.page a).

(** In the script with the boxes both box status indicators get the class
    [error] as well. *)
Definition panel_ended_in_error (message : jsstring) (a a' : Panel.App) : Prop :=
  Panel.status_indicator (Panel.page a')
  = mkStatus (lit "Error: " ++ message) (lit "error")
  /\ Panel.console (Panel.page a') = Panel.console (Panel.page a) ++ [message]
  /\ Panel.run a' = None
  /\ Panel.isRecognizing (Panel.page a') = false
  /\ Panel.btn_recognize (Panel.page a') = Start_button
  /\ Panel.sessionHistory (Panel.page a') = Panel.sessionHistory (Panel.page a)
  /\ Panel.alerts (Panel.page a') = Panel.alerts (Panel.page a)
  /\ Panel.result_display (Panel.page a') = Panel.result_display (Panel.page a)
  /\ Panel.reasoning_display (Panel.page a')
     = Panel.reasoning_display (Panel.page a)
  /\ Panel.reasoning_status (Panel.page a') = lit "box-status error"
  /\ Panel.output_status (Panel.page a') = lit "box-status error".




(** An error that is not named AbortError. *)
Definition not_abort (err : JSError) : Prop :=
  str_eqb (err_name err) (lit "AbortError") = false.

(** ** The box status indicators *)
Definition plain : jsstring := lit "box-status".
Definition spinning : jsstring := lit "box-status spinning".
Definition completed : jsstring := lit "box-status completed".

(** A reasoning text the panel shows: not empty and not blank. *)
Definition visible (text : jsstring) : bool :=
  nonempty text && nonempty (trim text).

(** The reasoning status during a call that started with the switch as
    [enabled] and has accumulated the reasoning text [text]. *)
Definition reasoning_mark (enabled : bool) (text : jsstring) : jsstring :=
  if enabled || visible text then spinning else plain.

(** The reasoning status after a call that ended with a result. *)
Definition reasoning_end_mark (enabled : bool) (text : jsstring) : jsstring :=
  if enabled && nonempty text then completed else reasoning_mark enabled text.

(** The events of a whole call that reads its stream to the end. *)
Definition whole_call (chunks : list (list byte)) (now : Z) (time : jsstring)
  : list event :=
  [Click_recognize; Fetch_resolved 200] ++ map Read_chunk chunks
  ++ [Read_done now time].

(** The loop state after the chunks of a call started on the page [p]. *)
Definition panel_loop_end (p : Panel.Page) (chunks : list (list byte))
  : Locals * Panel.Page :=
  acc (read_all Panel.process_line chunks
         (new_Reader (mkLocals [] [], Panel.page (Panel.start p)))).

(** ** Examples *)

(** A page with the reasoning switch off, and a stream that carries
    reasoning all the same. *)
Definition switch_off_page : Panel.Page :=
  Panel.set_reasoning_toggle false (panel_page [an_image] []).

Definition unasked_reasoning : list (list byte) :=
  [bytes_of "data: {'type':'response.reasoning.delta','delta':'hm'}" ++ LF;
   bytes_of "data: {'choices':[{'delta':{'content':'text'}}]}" ++ LF].


Definition basic_connecting : Basic.App :=
  Eval vm_compute in
    basic_after (Basic.mkApp (basic_page [an_image] []) None) [Click_recognize].

Definition network_down : JSError :=
  mkError (lit "TypeError") (lit "Failed to fetch").

(** A page of the script with the boxes whose reasoning box is expanded. *)
Definition reasoning_open : Panel.Page :=
  Panel.toggleBox (lit "reasoning") (panel_page [an_image] []).

(** The basic page in the middle of a call, after a first delta. *)
Definition basic_one_delta : Basic.App :=
  Eval vm_compute in
    basic_after basic_reading
      [Read_chunk (bytes_of "data: {'choices':[{'delta':{'content':'He'}}]}" ++ LF)].

Definition second_delta : list byte :=
  bytes_of "data: {'choices':[{'delta':{'content':'llo'}}]}" ++ LF.

(** The page with the boxes after a click on the output header, the click
    on the button and the response: the call waits for a chunk. *)
Definition panel_reading : Panel.App :=
  Eval vm_compute in
    panel_after (Panel.mkApp (panel_page [an_image] []) None)
      [Click_box (lit "output"); Click_recognize; Fetch_resolved 200].

(** ** What the reasoning display shows *)

(** The global [reasoningContent] is the accumulated reasoning text, and
    when that text is visible the reasoning display holds it and the
    reasoning box is shown. *)
Definition panel_reasoning_shown (st : Locals * Panel.Page) : Prop :=
  Panel.reasoningContent (snd st) = reasoningText (fst st)
  /\ (visible (reasoningText (fst st)) = true ->
      Panel.reasoning_display (snd st) = reasoningText (fst st)
      /\ Panel.reasoning_box_display (snd st) = lit "flex").

(** In the basic script the reasoning container is shown exactly when the
    text is visible. *)
Definition basic_reasoning_shown (st : Locals * Basic.Page) : Prop :=
  Basic.reasoningContent (snd st) = reasoningText (fst st)
  /\ (visible (reasoningText (fst st)) = true ->
      Basic.reasoning_display (snd st) = reasoningText (fst st))
  /\ Basic.reasoning_content_display (snd st)
     = (if visible (reasoningText (fst st)) then lit "block" else lit "none").

Definition panel_reasoning_ok (a : Panel.App) : Prop :=
  match Panel.run a with
  | Some r => panel_reasoning_shown (Panel.locals r, Panel.page a)
  | None => True
  end.

(** The loop state after the chunks of a call started on the page [p]. *)
Definition basic_loop_end (p : Basic.Page) (chunks : list (list byte))
  : Locals * Basic.Page :=
  acc (read_all Basic.process_line chunks
         (new_Reader (mkLocals [] [], Basic.page (Basic.start p)))).

(** A stream with blank reasoning first, then reasoning, then content. *)
Definition blank_then_reasoning : list (list byte) :=
  [reasoning_blank_chunk;
   bytes_of "data: {'type':'response.reasoning.delta','delta':'so'}" ++ LF;
   bytes_of "data: {'choices':[{'delta':{'content':'text'}}]}" ++ LF].

Definition panel_reasoned : Panel.App :=
  Eval vm_compute in
    panel_after (Panel.mkApp (panel_page [an_image] []) None)
      ([Click_recognize; Fetch_resolved 200; Clear; Click_box (lit "output")]
       ++ map Read_chunk blank_then_reasoning).

(* ================================================================== *)
(** * Copying and the history list (both scripts)                      *)
(* ================================================================== *)

(** [copyResult], [copyToClipboard], [openHistory], [copyHistoryItem] and
    [closeModal] are the same in the two scripts.  They are embedded once,
    over what they use of a script: its page with the status indicator, the
    result display and the history, and the events of the page. *)
Record Script := mkScript {
  SApp : Type;
  SPage : Type;
  s_page : SApp -> SPage;
  s_with_page : SPage -> SApp -> SApp;
  s_step : SApp -> event -> option SApp;
  s_status_indicator : SPage -> Status;
  s_updateStatus : jsstring -> jsstring -> SPage -> SPage;
  s_result_display : SPage -> jsstring;
  s_sessionHistory : SPage -> list HistoryItem }.

Definition basic_script : Script :=
  mkScript Basic.App Basic.Page Basic.page
           (fun p a => Basic.mkApp p (Basic.run a)) Basic.step
           Basic.status_indicator Basic.updateStatus
           Basic.result_display Basic.sessionHistory.

Definition panel_script : Script :=
  mkScript Panel.App Panel.Page Panel.page
           (fun p a => Panel.mkApp p (Panel.run a)) Panel.step
           Panel.status_indicator Panel.updateStatus
           Panel.result_display Panel.sessionHistory.

(** What [updateStatus] does, as far as these functions read the page. *)
Definition lawful (S : Script) : Prop :=
  (forall msg type p,
      s_status_indicator S (s_updateStatus S msg type p) = mkStatus msg type)
  /\ (forall msg type p,
      s_result_display S (s_updateStatus S msg type p) = s_result_display S p)
  /\ (forall msg type p,
      s_sessionHistory S (s_updateStatus S msg type p) = s_sessionHistory S p)
  /\ (forall p a, s_page S (s_with_page S p a) = p).

Module Desk.

(** [h.text.substring(0, 60).replace(/[\n\r]/g, ' ')] and the dots. *)
Definition replace_line_breaks (s : jsstring) : jsstring :=
  map (fun c => if (c =? 10) || (c =? 13) then 32 else c) s.

Definition preview (text : jsstring) : jsstring :=
  replace_line_breaks (substring text 0 60) ++ lit "...".

Definition NL : jsstring := [10].

(** The status a copy shows for a second and a half. *)
Definition Copied : Status := mkStatus (lit "Copied!") (lit "success").

(** The template literal of [openHistory] for the entry [h] at [index]. *)
Definition history_row (h : HistoryItem) (index : nat) : jsstring :=
  NL ++ jq "        <div class='history-item'>"
  ++ NL ++ jq "            <div class='history-content'>"
  ++ NL ++ jq "                <span class='history-time'>" ++ h_time h
        ++ lit "</span>"
  ++ NL ++ jq "                <div class='history-preview'>" ++ preview (h_text h)
        ++ lit "</div>"
  ++ NL ++ lit "            </div>"
  ++ NL ++ jq "            <button class='btn btn-secondary' style='padding: 4px 8px; font-size: 11px;'"
  ++ NL ++ jq "                    onclick='copyHistoryItem("
        ++ digit_units (decimal (Z.of_nat index)) ++ jq ")'>Copy</button>"
  ++ NL ++ lit "        </div>"
  ++ NL ++ lit "    ".

Definition no_records : jsstring :=
  jq "<div style='text-align:center; padding:20px; color:var(--text-muted);'>No records.</div>".

(** [sessionHistory.map((h, index) => ...)] from [index] on. *)
Fixpoint history_rows (index : nat) (history : list HistoryItem) : list jsstring :=
  match history with
  | [] => []
  | h :: rest => history_row h index :: history_rows (S index) rest
  end.

(** [rows.join('') || '<div ...>No records.</div>'] *)
Definition history_html (history : list HistoryItem) : jsstring :=
  let joined := List.concat (history_rows 0 history) in
  if nonempty joined then joined else no_records.

(** The events: those of the page, the clicks on Copy, on History, on the
    Copy button of a row and on the close button, the promise of
    [writeText] settled, and the oldest pending timer firing (the timers all
    have the same delay). *)
Inductive action :=
| Page_event (e : event)
| Click_copy
| Click_history
| Click_copy_item (index : nat)
| Click_close
| Clipboard_written
| Clipboard_refused
| Restore_timer.

(** The application of the script, the texts given to
    [navigator.clipboard.writeText] (oldest first) and how many of these
    promises are not settled, the status each pending
    [setTimeout(..., 1500)] will put back (oldest first), and the history
    list and modal. *)
Record State (A : Type) := mkState {
  app : A;
  writes : list jsstring;
  pending : nat;
  restores : list Status;
  history_list : jsstring;
  history_modal : jsstring }.

Arguments mkState {A}.
Arguments app {A}.
Arguments writes {A}.
Arguments pending {A}.
Arguments restores {A}.
Arguments history_list {A}.
Arguments history_modal {A}.

Definition set_app {A} (v : A) (d : State A) : State A :=
  mkState v (writes d) (pending d) (restores d) (history_list d) (history_modal d).

Definition set_writes {A} (v : list jsstring) (d : State A) : State A :=
  mkState (app d) v (pending d) (restores d) (history_list d) (history_modal d).

Definition set_pending {A} (v : nat) (d : State A) : State A :=
  mkState (app d) (writes d) v (restores d) (history_list d) (history_modal d).

Definition set_restores {A} (v : list Status) (d : State A) : State A :=
  mkState (app d) (writes d) (pending d) v (history_list d) (history_modal d).

Definition set_history_list {A} (v : jsstring) (d : State A) : State A :=
  mkState (app d) (writes d) (pending d) (restores d) v (history_modal d).

Definition set_history_modal {A} (v : jsstring) (d : State A) : State A :=
  mkState (app d) (writes d) (pending d) (restores d) (history_list d) v.

(** A script's application with nothing copied and no list rendered. *)
Definition fresh {A} (a : A) : State A := mkState a [] 0 [] [] (lit "none").

Section WithScript.
Variable script : Script.

Definition page (d : State (SApp script)) : SPage script := s_page script (app d).

Definition set_page (p : SPage script) (d : State (SApp script)) : State (SApp script) :=
  set_app (s_with_page script p (app d)) d.

(** [copyToClipboard(text)] up to the call of [writeText]. *)
Definition copyToClipboard (text : jsstring) (d : State (SApp script)) : State (SApp script) :=
  d |> set_writes (writes d ++ [text])
    |> set_pending (S (pending d)).

(** The callback of [then]: the promise of [writeText] is fulfilled. *)
Definition copied (d : State (SApp script)) : State (SApp script) :=
  let current := s_status_indicator script (page d) in
  d |> set_page (s_updateStatus script (lit "Copied!") (lit "success") (page d))
    |> set_restores (restores d ++ [current]).

(** The callback of [setTimeout(..., 1500)] that kept [saved]. *)
Definition restore (saved : Status) (d : State (SApp script)) : State (SApp script) :=
  set_page (s_updateStatus script (innerText saved) (className saved) (page d)) d.

Definition copyResult (d : State (SApp script)) : State (SApp script) :=
  let text := s_result_display script (page d) in
  if nonempty text then copyToClipboard text d else d.

Definition copyHistoryItem (index : nat) (d : State (SApp script)) : State (SApp script) :=
  match nth_error (s_sessionHistory script (page d)) index with
  | Some h => copyToClipboard (h_text h) d
  | None => d
  end.

Definition openHistory (d : State (SApp script)) : State (SApp script) :=
  d |> set_history_list (history_html (s_sessionHistory script (page d)))
    |> set_history_modal (lit "block").

Definition closeModal (d : State (SApp script)) : State (SApp script) :=
  set_history_modal (lit "none") d.

Definition step (d : State (SApp script)) (e : action) : option (State (SApp script)) :=
  match e with
  | Page_event e =>
      match s_step script (app d) e with
      | Some a => Some (set_app a d)
      | None => None
      end
  | Click_copy => Some (copyResult d)
  | Click_history => Some (openHistory d)
  | Click_copy_item index => Some (copyHistoryItem index d)
  | Click_close => Some (closeModal d)
  | Clipboard_written =>
      match pending d with
      | O => None
      | S n => Some (copied (set_pending n d))
      end
  | Clipboard_refused =>
      match pending d with
      | O => None
      | S n => Some (set_pending n d)
      end
  | Restore_timer =>
      match restores d with
      | [] => None
      | saved :: rest => Some (restore saved (set_restores rest d))
      end
  end.

Fixpoint exec (d : State (SApp script)) (es : list action) : option (State (SApp script)) :=
  match es with
  | [] => Some d
  | e :: es' => match step d e with
                | Some d' => exec d' es'
                | None => None
                end
  end.

End WithScript.


End Desk.

(** ** Examples *)

(** After the call of [history_events]: the second row copied. *)
Definition copied_earlier : Desk.State Basic.App :=
  Eval vm_compute in
    Desk.copyHistoryItem basic_script 1 (Desk.fresh history_end).

(** The result copied once while the call of [basic_one_delta] reads its
    stream, the promise of [writeText] pending. *)
Definition copying_while_reading : Desk.State Basic.App :=
  Eval vm_compute in Desk.copyResult basic_script (Desk.fresh basic_one_delta).

Definition desk_after (script : Script) (d : Desk.State (SApp script))
  (es : list Desk.action) : Desk.State (SApp script) :=
  match Desk.exec script d es with Some d' => d' | None => d end.

Definition copy_put_back : Desk.State Basic.App :=
  Eval vm_compute in
    desk_after basic_script copying_while_reading
      ([Desk.Clipboard_written]
       ++ map Desk.Page_event [Read_done 1700000000000 (lit "10:00:00")]
       ++ [Desk.Restore_timer]).

(** Copy clicked twice on a page that shows a result. *)
Definition shows_result : Panel.App :=
  Panel.mkApp (Panel.set_result_display (lit "HELLO") (panel_page [an_image] []))
              None.

Definition two_copies_pending : Desk.State Panel.App :=
  Eval vm_compute in
    desk_after panel_script (Desk.fresh shows_result) [Desk.Click_copy; Desk.Click_copy].

(* ================================================================== *)
(** * The configuration and the reasoning switch ([part_000])          *)
(* ================================================================== *)

Module Settings.

(** The reasoning switch besides its [checked], which is
    [reasoning_toggle] of the page: [reasoningToggle.disabled], the opacity
    of its parent element, and of the parent's parent (the toggle
    container) the class [disabled] and the cursor. *)
Record Controls := mkControls {
  toggle_disabled : bool;
  label_opacity : jsstring;
  container_disabled : bool;
  container_cursor : jsstring }.

(** The fields of [APP_CONFIG] that [loadConfig] writes. *)
Record Config := mkConfig {
  models : value;
  defaultModel : value;
  enableReasoningByDefault : value }.

(** [APP_CONFIG] as the script declares it: no [models] yet. *)
Definition APP_CONFIG : Config :=
  mkConfig None (Some (JStr [])) (Some (JBool true)).

(** [models.find(model => model.id === selectedModelId)] on an array:
    [None] is the TypeError of reading [id] from a [null] entry. *)
Fixpoint find_by_id (l : list JSON) (selectedModelId : jsstring) : option value :=
  match l with
  | [] => Some None
  | model :: rest =>
      id <- get (Some model) (lit "id") ;;
      if is_string id selectedModelId then Some (Some model)
      else find_by_id rest selectedModelId
  end.

(** [APP_CONFIG.models?.find(...)]: undefined when [models] is undefined or
    null, a TypeError when it is anything but an array. *)
Definition find_model (models : value) (selectedModelId : jsstring) : option value :=
  match models with
  | None | Some JNull => Some None
  | Some (JArr l) => find_by_id l selectedModelId
  | Some _ => None
  end.

(** The cases of the [switch]. *)
Definition disable (checked : bool) (opacity : jsstring)
  (st : Controls * Panel.Page) : Controls * Panel.Page :=
  (mkControls true opacity true (lit "not-allowed"),
   Panel.set_reasoning_toggle checked (snd st)).

Definition enable (st : Controls * Panel.Page) : Controls * Panel.Page :=
  (mkControls false (lit "1") false (lit "pointer"), snd st).

(** [updateReasoningToggleState()]; [None] when it throws. *)
Definition updateReasoningToggleState (config : Config)
  (st : Controls * Panel.Page) : option (Controls * Panel.Page) :=
  selectedModel <- find_model (models config) (Panel.model_select (snd st)) ;;
  if negb (truthy selectedModel) then Some st
  else
    supportsReasoning <- get selectedModel (lit "supports_reasoning") ;;
    Some (if is_string supportsReasoning (lit "false") then
            disable false (lit "0.5") st
          else if is_string supportsReasoning (lit "default") then
            disable true (lit "0.7") st
          else if is_string supportsReasoning (lit "true") then
            enable st
          else disable false (lit "0.5") st).

(** Where [loadConfig] is: at [await fetch('/api/models')], at
    [await response.json()], or over. *)
Inductive loading := Load_fetching | Load_reading | Load_over.

Record State := mkState {
  app : Panel.App;
  controls : Controls;
  config : Config;
  listening : bool;
  load : loading }.

Definition page (s : State) : Panel.Page := Panel.page (app s).

Definition set_page (p : Panel.Page) (s : State) : State :=
  mkState (Panel.mkApp p (Panel.run (app s))) (controls s) (config s)
          (listening s) (load s).

Definition set_load (v : loading) (s : State) : State :=
  mkState (app s) (controls s) (config s) (listening s) v.

(** [console.error('Failed to load configuration:', error)] *)
Definition log_failure (s : State) : State :=
  set_page (Panel.set_console
              (Panel.console (page s) ++ [lit "Failed to load configuration:"])
              (page s)) s.

(** The listener of [change] on the model select and on the switch, once
    [loadConfig] has added it; an exception it throws is not caught and
    changes nothing. *)
Definition on_change (s : State) : State :=
  if listening s then
    match updateReasoningToggleState (config s) (controls s, page s) with
    | Some (c, p) =>
        mkState (Panel.mkApp p (Panel.run (app s))) c (config s) (listening s)
                (load s)
    | None => s
    end
  else s.

Section WithSelect.

(** What [modelSelect.value] is after [modelSelect.value = v]: for a
    select element that depends on its options. *)
Variable model_after_assign : value -> jsstring.

(** The [try] block of [loadConfig] after [await response.json()] gave
    [data]; [None] when it throws before the first assignment. *)
Definition configure (data : JSON) (s : State) : option State :=
  models <- get (Some data) (lit "models") ;;
  let default_model := prop data (lit "default_model") in
  let enable_reasoning :=
    match prop data (lit "enable_reasoning_by_default") with
    | Some v => Some v
    | None => Some (JBool true)
    end in
  let config := mkConfig models default_model enable_reasoning in
  let p := page s in
  let p := if negb (nonempty (Panel.model_select p))
           then Panel.set_model_select (model_after_assign default_model) p
           else p in
  let s := mkState (Panel.mkApp p (Panel.run (app s))) (controls s) config true
                   Load_over in
  Some (match updateReasoningToggleState config (controls s, page s) with
        | Some (c, p) =>
            mkState (Panel.mkApp p (Panel.run (app s))) c config true Load_over
        | None => log_failure s
        end).

(** The events: those of the page, and the response and the body
    [loadConfig] waits for ([None]: the body is no JSON). *)
Inductive action :=
| Page_event (e : event)
| Models_response (ok : bool)
| Models_failed
| Models_body (data : option JSON).

Definition with_app (a : Panel.App) (s : State) : State :=
  mkState a (controls s) (config s) (listening s) (load s).

Definition step (s : State) (e : action) : option State :=
  match e with
  | Page_event (Set_model model) =>
      a <- Panel.step (app s) (Set_model model) ;;
      Some (on_change (with_app a s))
  | Page_event (Set_reasoning_toggle checked) =>
      if toggle_disabled (controls s) then None
      else
        a <- Panel.step (app s) (Set_reasoning_toggle checked) ;;
        Some (on_change (with_app a s))
  | Page_event e =>
      a <- Panel.step (app s) e ;;
      Some (with_app a s)
  | Models_response ok =>
      match load s with
      | Load_fetching => Some (set_load (if ok then Load_reading else Load_over) s)
      | _ => None
      end
  | Models_failed =>
      match load s with
      | Load_fetching => Some (log_failure (set_load Load_over s))
      | _ => None
      end
  | Models_body data =>
      match load s with
      | Load_reading =>
          match data with
          | Some data =>
              match configure data s with
              | Some s' => Some s'
              | None => Some (log_failure (set_load Load_over s))
              end
          | None => Some (log_failure (set_load Load_over s))
          end
      | _ => None
      end
  end.

Fixpoint exec (s : State) (es : list action) : option State :=
  match es with
  | [] => Some s
  | e :: es' => match step s e with
                | Some s' => exec s' es'
                | None => None
                end
  end.

End WithSelect.

(** The page as it is loaded: [loadConfig] waits for the response, the
    switch is as the template has it. *)
Definition loaded (p : Panel.Page) (c : Controls) : State :=
  mkState (Panel.mkApp p None) c APP_CONFIG false Load_fetching.

(** ** What the switch should be for the selected model *)

(** [supports_reasoning] of the selected model, when there is one. *)
Definition selected_support (s : State) : option value :=
  match find_model (models (config s)) (Panel.model_select (page s)) with
  | Some (Some model) => Some (prop model (lit "supports_reasoning"))
  | _ => None
  end.

(** The switch is as [updateReasoningToggleState] sets it for the selected
    model: free for ['true'], locked on for ['default'], locked off for
    anything else. *)
Definition agrees (s : State) : Prop :=
  match selected_support s with
  | Some support =>
      if is_string support (lit "true") then
        toggle_disabled (controls s) = false
        /\ container_disabled (controls s) = false
      else
        toggle_disabled (controls s) = true
        /\ container_disabled (controls s) = true
        /\ Panel.reasoning_toggle (page s) = is_string support (lit "default")
  | None => True
  end.

End Settings.

(** ** Examples *)

(** A switch that is free and on, and the body of [/api/models] with a
    model that cannot reason (the one the page has selected) and one that
    can. *)
Definition free_switch : Settings.Controls :=
  Settings.mkControls false (lit "1") false (lit "pointer").

Definition models_body : JSON :=
  Eval vm_compute in
    match JSON_parse
            (jq "{'models':[{'id':'model','supports_reasoning':'false'},{'id':'other','supports_reasoning':'true'}],'default_model':'model'}")
    with
    | Some j => j
    | None => JNull
    end.

(** An element whose value is the string of what is assigned to it. *)
Definition assign_text (v : value) : jsstring :=
  match v with
  | Some j => ToString j
  | None => lit "undefined"
  end.

Definition reading_models : Settings.State :=
  Settings.set_load Settings.Load_reading
    (Settings.loaded (panel_page [an_image] []) free_switch).

Definition configured : Settings.State :=
  Eval vm_compute in
    match Settings.step assign_text reading_models
            (Settings.Models_body (Some models_body)) with
    | Some s => s
    | None => reading_models
    end.

Definition plain_model : JSON :=
  JObj [(lit "id", JStr (lit "model")); (lit "supports_reasoning", JBool true)].

(* ================================================================== *)
(** * The image preview: zoom and drag (both scripts)                  *)
(* ================================================================== *)

Module Preview.

(** The numbers of the script are IEEE 754 doubles, here the binary64
    instance of the Standard Library's [spec_float]. *)
Definition double := SpecFloat.spec_float.

Definition NaN : double := SpecFloat.S754_nan.

Definition mul : double -> double -> double := SpecFloat.SFmul 53 1024.
Definition sub : double -> double -> double := SpecFloat.SFsub 53 1024.
Definition div : double -> double -> double := SpecFloat.SFdiv 53 1024.

(** [a > b] and [a <= b] *)
Definition gt (a b : double) : bool := SpecFloat.SFltb b a.
Definition le (a b : double) : bool := SpecFloat.SFleb a b.

(** The double of a decimal literal, through [JSON.parse]'s numbers. *)
Definition of_number (x : number) : double :=
  match x with
  | NZero s => SpecFloat.S754_zero s
  | NFinite s m e => SpecFloat.S754_finite s (Z.to_pos m) e
  | NInfinity s => SpecFloat.S754_infinity s
  end.

Definition literal (int frac : list Z) : double :=
  of_number (number_of_literal false int frac 0).

Definition d_0 : double := SpecFloat.S754_zero false.
Definition d_0_5 : double := Eval vm_compute in literal [0] [5].
Definition d_0_8 : double := Eval vm_compute in literal [0] [8].
Definition d_1 : double := Eval vm_compute in literal [1] [].
Definition d_1_2 : double := Eval vm_compute in literal [1] [2].
Definition d_2 : double := Eval vm_compute in literal [2] [].
Definition d_15 : double := Eval vm_compute in literal [1; 5] [].

(** [Math.max] and [Math.min] of two numbers: NaN when one of them is NaN,
    and [+0] larger than [-0]. *)
Definition Math_max (a b : double) : double :=
  match SpecFloat.SFcompare a b with
  | None => NaN
  | Some Lt => b
  | Some Gt => a
  | Some Eq =>
      match a, b with
      | SpecFloat.S754_zero sa, SpecFloat.S754_zero sb =>
          SpecFloat.S754_zero (sa && sb)
      | _, _ => a
      end
  end.

Definition Math_min (a b : double) : double :=
  match SpecFloat.SFcompare a b with
  | None => NaN
  | Some Lt => a
  | Some Gt => b
  | Some Eq =>
      match a, b with
      | SpecFloat.S754_zero sa, SpecFloat.S754_zero sb =>
          SpecFloat.S754_zero (sa || sb)
      | _, _ => a
      end
  end.

(** [`${x}`] for a number. *)
Definition toString (x : double) : jsstring :=
  match x with
  | SpecFloat.S754_nan => lit "NaN"
  | SpecFloat.S754_zero _ => lit "0"
  | SpecFloat.S754_infinity s => Number_toString (NInfinity s)
  | SpecFloat.S754_finite s m e => Number_toString (NFinite s (Z.pos m) e)
  end.

(** The globals [scale], [posX], [posY], [isDragging], [startX], [startY]
    (undefined until the first [mousedown]), and of the elements
    [preview-image] and [image-preview-modal] the source, the transform and
    the display. *)
Record View := mkView {
  scale : double;
  posX : double;
  posY : double;
  isDragging : bool;
  startX : option double;
  startY : option double;
  preview_src : jsstring;
  preview_transform : jsstring;
  modal_display : jsstring }.

(** The view as the script declares it, nothing shown yet. *)
Definition initial : View :=
  mkView d_1 d_0 d_0 false None None [] [] (lit "none").

Definition updateTransform (v : View) : View :=
  mkView (scale v) (posX v) (posY v) (isDragging v) (startX v) (startY v)
    (preview_src v)
    (lit "translate(" ++ toString (posX v) ++ lit "px, " ++ toString (posY v)
     ++ lit "px) scale(" ++ toString (scale v) ++ lit ")")
    (modal_display v).

Definition showImageModal (base64 : jsstring) (v : View) : View :=
  mkView d_1 d_0 d_0 (isDragging v) (startX v) (startY v) base64
    (lit "translate(0,0) scale(1)") (lit "block").

Definition closeImagePreview (v : View) : View :=
  mkView (scale v) (posX v) (posY v) false (startX v) (startY v)
    (preview_src v) (preview_transform v) (lit "none").

(** [x - startX], where [startX] may still be undefined. *)
Definition minus_start (x : double) (start : option double) : double :=
  match start with
  | Some s => sub x s
  | None => NaN
  end.

(** The listeners of [setupImageInteractions]. *)
Definition mousedown (clientX clientY : double) (v : View) : View :=
  mkView (scale v) (posX v) (posY v) true
    (Some (sub clientX (posX v))) (Some (sub clientY (posY v)))
    (preview_src v) (preview_transform v) (modal_display v).

Definition mousemove (clientX clientY : double) (v : View) : View :=
  if negb (isDragging v) then v
  else
    updateTransform
      (mkView (scale v) (minus_start clientX (startX v))
         (minus_start clientY (startY v)) (isDragging v) (startX v) (startY v)
         (preview_src v) (preview_transform v) (modal_display v)).

Definition mouseup (v : View) : View :=
  mkView (scale v) (posX v) (posY v) false (startX v) (startY v)
    (preview_src v) (preview_transform v) (modal_display v).

(** The rectangle [previewImg.getBoundingClientRect()] gives. *)
Record Rect := mkRect {
  rect_left : double; rect_top : double;
  rect_width : double; rect_height : double }.

Definition wheel (deltaY clientX clientY : double) (rect : Rect) (v : View) : View :=
  let delta := if gt deltaY d_0 then d_0_8 else d_1_2 in
  let nextScale := Math_min (Math_max d_0_5 (mul (scale v) delta)) d_15 in
  let mouseX := sub clientX (rect_left rect) in
  let mouseY := sub clientY (rect_top rect) in
  let ratio := div nextScale (scale v) in
  let posX' := sub (posX v)
                   (mul (sub mouseX (div (rect_width rect) d_2)) (sub ratio d_1)) in
  let posY' := sub (posY v)
                   (mul (sub mouseY (div (rect_height rect) d_2)) (sub ratio d_1)) in
  updateTransform
    (mkView nextScale posX' posY' (isDragging v) (startX v) (startY v)
       (preview_src v) (preview_transform v) (modal_display v)).

(** [handlePreviewOverlayClick(e)]: whether the target has the class
    [viewport], and whether its id is [image-preview-modal]. *)
Definition handlePreviewOverlayClick (on_viewport on_modal : bool) (v : View) : View :=
  if on_viewport || on_modal then closeImagePreview v else v.

(** The listener of [keydown]. *)
Definition keydown (key : jsstring) (v : View) : View :=
  if str_eqb key (lit "Escape") then closeImagePreview v else v.

Inductive action :=
| Show_image (base64 : jsstring)
| Overlay_click (on_viewport on_modal : bool)
| Key_down (key : jsstring)
| Mouse_down (clientX clientY : double)
| Mouse_move (clientX clientY : double)
| Mouse_up
| Wheel (deltaY clientX clientY : double) (rect : Rect).

Definition step (v : View) (e : action) : View :=
  match e with
  | Show_image base64 => showImageModal base64 v
  | Overlay_click on_viewport on_modal =>
      handlePreviewOverlayClick on_viewport on_modal v
  | Key_down key => keydown key v
  | Mouse_down x y => mousedown x y v
  | Mouse_move x y => mousemove x y v
  | Mouse_up => mouseup v
  | Wheel deltaY x y rect => wheel deltaY x y rect v
  end.

Definition exec (v : View) (es : list action) : View := fold_left step es v.

(** The zoom factor is a number between 0.5 and 15. *)
Definition in_range (x : double) : Prop := le d_0_5 x = true /\ le x d_15 = true.

(** Events that end a drag. *)
Definition ends_drag (e : action) : Prop :=
  e = Mouse_up \/ e = Key_down (lit "Escape")
  \/ exists on_modal, e = Overlay_click true on_modal.

(** The pointer moving through the given points. *)
Definition moves (points : list (double * double)) : list action :=
  map (fun p => Mouse_move (fst p) (snd p)) points.

End Preview.

(** ** Examples *)
Definition a_rect : Preview.Rect :=
  Preview.mkRect Preview.d_0 Preview.d_0 Preview.d_15 Preview.d_15.

Definition zooming : list Preview.action :=
  [Preview.Show_image (lit "data:image/png;base64,AAAA");
   Preview.Wheel Preview.d_1 Preview.d_2 Preview.d_2 a_rect;
   Preview.Wheel Preview.NaN Preview.d_2 Preview.d_2 a_rect;
   Preview.Mouse_down Preview.d_1 Preview.d_1;
   Preview.Mouse_move Preview.d_15 Preview.d_2].

Definition zoomed : Preview.View :=
  Eval vm_compute in Preview.exec Preview.initial zooming.

(* ================================================================== *)
(** * Facts about the platform functions                               *)
(* ================================================================== *)

Section StringFacts.

Lemma str_eqb_eq (a b : jsstring) : str_eqb a b = true <-> a = b.
Proof.
  revert b; induction a as [|x a IH]; intros [|y b]; simpl; split;
    try congruence; try reflexivity.
  - rewrite andb_true_iff, Z.eqb_eq, IH. intros [-> ->]. reflexivity.
  - intros H; injection H as -> ->. now rewrite Z.eqb_refl, (proj2 (IH b)).
Qed.

Lemma str_eqb_refl (a : jsstring) : str_eqb a a = true.
Proof. now apply str_eqb_eq. Qed.

Lemma startsWith_app (p s : jsstring) : startsWith (p ++ s) p = true.
Proof. induction p as [|x p IH]; simpl; [reflexivity|]. now rewrite Z.eqb_refl. Qed.

Lemma startsWith_inv (s p : jsstring) :
  startsWith s p = true -> exists r, s = p ++ r.
Proof.
  revert s; induction p as [|x p IH]; intros s H; simpl in *.
  - now exists s.
  - destruct s as [|y s]; [discriminate|].
    apply andb_true_iff in H as [Hxy H]. apply Z.eqb_eq in Hxy; subst y.
    destruct (IH _ H) as [r ->]. now exists r.
Qed.

Lemma endsWith_inv (s p : jsstring) :
  endsWith s p = true -> exists r, s = r ++ p.
Proof.
  unfold endsWith. intros H. apply startsWith_inv in H as [r Hr].
  exists (rev r). apply (f_equal (@rev Z)) in Hr.
  now rewrite rev_involutive, rev_app_distr, rev_involutive in Hr.
Qed.

Lemma endsWith_app (r p : jsstring) : endsWith (r ++ p) p = true.
Proof. unfold endsWith. rewrite rev_app_distr. apply startsWith_app. Qed.

Lemma split_nl_nonempty (s : jsstring) : split_nl s <> [].
Proof.
  destruct s as [|c s]; simpl; [discriminate|].
  destruct (c =? 10); [discriminate|]. now destruct (split_nl s).
Qed.

(** Splitting a text that continues: the lines before the last newline of
    the first part are there already, what follows it is joined to the
    continuation. *)
Lemma split_nl_app (t u : jsstring) :
  split_nl (t ++ u)
  = removelast (split_nl t) ++ split_nl (last (split_nl t) [] ++ u).
Proof.
  induction t as [|c t IH]; [reflexivity|].
  cbn [app split_nl]. rewrite IH. clear IH.
  pose proof (split_nl_nonempty t) as Hne.
  destruct (split_nl t) as [|x [|y ys]]; [congruence| |].
  - destruct (c =? 10) eqn:Hc; cbn [removelast last app split_nl].
    + reflexivity.
    + now rewrite Hc.
  - destruct (c =? 10); reflexivity.
Qed.

Lemma removelast_split_nl_app (t u : jsstring) :
  removelast (split_nl (t ++ u))
  = removelast (split_nl t) ++ removelast (split_nl (last (split_nl t) [] ++ u)).
Proof. rewrite split_nl_app. apply removelast_app, split_nl_nonempty. Qed.

Lemma last_app_nonempty {A} (l l' : list A) (d : A) :
  l' <> [] -> last (l ++ l') d = last l' d.
Proof.
  intros H. induction l as [|a l IH]; [reflexivity|].
  cbn [app]. destruct (l ++ l') eqn:E.
  - destruct l; [simpl in E; congruence|discriminate].
  - rewrite <- IH. reflexivity.
Qed.

Lemma last_split_nl_app (t u : jsstring) :
  last (split_nl (t ++ u)) [] = last (split_nl (last (split_nl t) [] ++ u)) [].
Proof. rewrite split_nl_app. apply last_app_nonempty, split_nl_nonempty. Qed.

(** The piece kept in the buffer holds no newline: splitting it again gives
    it back. *)
Lemma split_nl_last (t : jsstring) :
  split_nl (last (split_nl t) []) = [last (split_nl t) []].
Proof.
  induction t as [|c t IH]; [reflexivity|].
  cbn [split_nl]. pose proof (split_nl_nonempty t) as Hne.
  destruct (c =? 10) eqn:Hc.
  - destruct (split_nl t) as [|x xs]; [congruence|]. exact IH.
  - destruct (split_nl t) as [|x [|y ys]]; [congruence| |].
    + cbn [last] in *. cbn [split_nl]. now rewrite Hc, IH.
    + exact IH.
Qed.

End StringFacts.

Section DecoderFacts.

Lemma utf8_run_app (st : utf8_state) (a b : list byte) :
  utf8_run st (a ++ b)
  = let (st1, o1) := utf8_run st a in
    let (st2, o2) := utf8_run st1 b in (st2, o1 ++ o2).
Proof.
  revert st; induction a as [|x a IH]; intros st; cbn [app utf8_run].
  - now destruct (utf8_run st b).
  - destruct (utf8_step st _) as [st1 o1]. rewrite IH.
    destruct (utf8_run st1 a) as [st2 o2]. destruct (utf8_run st2 b).
    now rewrite app_assoc.
Qed.

Lemma strip_bom_app (seen : bool) (o1 o2 : list Z) :
  strip_bom seen (o1 ++ o2)
  = let (s1, o1') := strip_bom seen o1 in
    let (s2, o2') := strip_bom s1 o2 in (s2, o1' ++ o2').
Proof.
  destruct seen; [reflexivity|]. destruct o1 as [|c r]; cbn.
  - now destruct o2.
  - now destruct (c =? 65279).
Qed.

(** Decoding is a fold over the bytes: a chunk cut in two decodes to the
    same text and leaves the same decoder. *)
Lemma decode_app (d : TextDecoder) (a b : list byte) :
  decode d (a ++ b)
  = let (d1, t1) := decode d a in
    let (d2, t2) := decode d1 b in (d2, t1 ++ t2).
Proof.
  unfold decode. rewrite utf8_run_app.
  destruct (utf8_run (d_utf8 d) a) as [st1 o1]. cbn [d_utf8 d_bom_seen].
  destruct (strip_bom (d_bom_seen d) o1) as [s1 o1'] eqn:E1. cbn [d_utf8 d_bom_seen].
  destruct (utf8_run st1 b) as [st2 o2]. rewrite strip_bom_app, E1.
  destruct (strip_bom s1 o2) as [s2 o2']. now rewrite flat_map_app.
Qed.

Lemma decode_nil (d : TextDecoder) : decode d [] = (d, []).
Proof. destruct d as [st [|]]; reflexivity. Qed.

End DecoderFacts.

(** ** The reading loop does not see where the chunks were cut *)
Section StreamFacts.
Variable St : Type.
Variable process_line : St -> jsstring -> St.

Lemma read_chunk_app (r : Reader St) (a b : list byte) :
  read_chunk process_line (read_chunk process_line r a) b
  = read_chunk process_line r (a ++ b).
Proof.
  unfold read_chunk. rewrite decode_app.
  destruct (decode (decoder r) a) as [d1 t1]. cbn [decoder buffer acc].
  destruct (decode d1 b) as [d2 t2].
  rewrite app_assoc.
  rewrite (removelast_split_nl_app (buffer r ++ t1) t2).
  rewrite (last_split_nl_app (buffer r ++ t1) t2).
  now rewrite fold_left_app.
Qed.

(** What every line keeps, a turn of the loop keeps. *)
Lemma read_chunk_preserves (P : St -> Prop) :
  (forall s line, P s -> P (process_line s line)) ->
  forall r v, P (acc r) -> P (acc (read_chunk process_line r v)).
Proof.
  intros Hline r v H. unfold read_chunk.
  destruct (decode (decoder r) v) as [d text]. cbn [acc].
  generalize (removelast (split_nl (buffer r ++ text))) as lines.
  intros lines. revert H. generalize (acc r) as s.
  induction lines as [|line lines IH]; intros s H; cbn [fold_left]; auto.
Qed.

Lemma read_chunk_clean (r : Reader St) (a : list byte) :
  clean (read_chunk process_line r a).
Proof.
  unfold clean, read_chunk. destruct (decode (decoder r) a) as [d t].
  cbn [buffer]. apply split_nl_last.
Qed.

Lemma read_chunk_nil (r : Reader St) :
  clean r -> read_chunk process_line r [] = r.
Proof.
  unfold clean, read_chunk. intros H. rewrite decode_nil, app_nil_r, H.
  destruct r; reflexivity.
Qed.

Lemma read_all_concat (chunks : list (list byte)) (r : Reader St) :
  clean r ->
  read_all process_line chunks r = read_chunk process_line r (List.concat chunks).
Proof.
  revert r; induction chunks as [|c cs IH]; intros r Hr; cbn [read_all fold_left List.concat].
  - symmetry. now apply read_chunk_nil.
  - fold (read_all process_line cs (read_chunk process_line r c)).
    rewrite IH by apply read_chunk_clean. apply read_chunk_app.
Qed.

Lemma read_all_invariant (cs1 cs2 : list (list byte)) (r : Reader St) :
  clean r -> List.concat cs1 = List.concat cs2 ->
  read_all process_line cs1 r = read_all process_line cs2 r.
Proof. intros Hr H. rewrite !read_all_concat by exact Hr. now rewrite H. Qed.

End StreamFacts.

Arguments read_chunk_preserves {St}.
Arguments read_all_invariant {St}.

(** ** Stripping the box markers *)
Section MarkerFacts.

Lemma BEGIN_MARKER_units :
  BEGIN_MARKER = [60; 124; 98; 101; 103; 105; 110; 95; 111; 102; 95; 98; 111; 120; 124; 62].
Proof. reflexivity. Qed.

Lemma END_MARKER_units :
  END_MARKER = [60; 124; 101; 110; 100; 95; 111; 102; 95; 98; 111; 120; 124; 62].
Proof. reflexivity. Qed.

Lemma startsWith_app_l (x y p : jsstring) :
  startsWith (x ++ y) p = true -> (List.length p <= List.length x)%nat ->
  startsWith x p = true.
Proof.
  revert x; induction p as [|c p IH]; intros x H Hlen; [reflexivity|].
  destruct x as [|d x]; [simpl in Hlen; lia|].
  cbn [app startsWith] in *. apply andb_true_iff in H as [-> H].
  apply IH; [exact H|simpl in Hlen; lia].
Qed.

Ltac peel H :=
  repeat match type of H with
         | (_ && _) = true => apply andb_true_iff in H; destruct H as [_ H]
         end.

(** The end marker cannot start inside the begin marker: a text that starts
    with the one and ends with the other holds both, one after the other. *)
Lemma markers_do_not_overlap (r : jsstring) :
  endsWith (BEGIN_MARKER ++ r) END_MARKER = true ->
  (List.length END_MARKER <= List.length r)%nat.
Proof.
  rewrite BEGIN_MARKER_units, END_MARKER_units. unfold endsWith.
  cbn [List.length]. intros H.
  do 14 (destruct r as [|? r];
         [exfalso; cbn in H; peel H; discriminate H|]).
  cbn [List.length]. lia.
Qed.

Lemma has_markers_inv (t : jsstring) :
  has_markers t = true -> exists mid, t = BEGIN_MARKER ++ mid ++ END_MARKER.
Proof.
  unfold has_markers. intros H. apply andb_true_iff in H as [Hb He].
  apply startsWith_inv in Hb as [r ->].
  pose proof (markers_do_not_overlap r He) as Hlen.
  unfold endsWith in He. rewrite rev_app_distr in He.
  apply startsWith_app_l in He; [|now rewrite !length_rev].
  apply (endsWith_inv r END_MARKER) in He as [mid ->]. now exists mid.
Qed.

Lemma has_markers_intro (mid : jsstring) :
  has_markers (BEGIN_MARKER ++ mid ++ END_MARKER) = true.
Proof.
  unfold has_markers. rewrite startsWith_app, app_assoc, endsWith_app.
  reflexivity.
Qed.

Lemma substring_between (a mid b : jsstring) :
  let t := a ++ mid ++ b in
  substring t (strlen a) (strlen t - strlen b) = mid.
Proof.
  cbv zeta. unfold substring, strlen, clamp. rewrite !length_app.
  match goal with
  | |- firstn ?x (skipn ?y _) = _ =>
      replace x with (List.length mid) by lia;
      replace y with (List.length a) by lia
  end.
  rewrite skipn_app, skipn_all, Nat.sub_diag. cbn [skipn app].
  now rewrite firstn_app, firstn_all, Nat.sub_diag, app_nil_r.
Qed.

Lemma strip_markers_between (mid : jsstring) :
  strip_markers (BEGIN_MARKER ++ mid ++ END_MARKER) = mid.
Proof.
  unfold strip_markers. rewrite has_markers_intro. apply substring_between.
Qed.

Lemma strip_markers_other (t : jsstring) :
  has_markers t = false -> strip_markers t = t.
Proof. unfold strip_markers. now intros ->. Qed.

End MarkerFacts.

(** ** Payloads *)
Section PayloadFacts.


Lemma text_of_string (s : jsstring) : text_of (Some (JStr s)) = s.
Proof. now destruct s. Qed.

Lemma text_of_undefined : text_of None = [].
Proof. reflexivity. Qed.

(** A line that carries a payload that parses is dispatched. *)
Lemma parses_not_done (payload : jsstring) (json : JSON) :
  JSON_parse payload = Some json ->
  str_eqb (data_line payload) (lit "data: [DONE]") = false.
Proof.
  intros Hp. destruct (str_eqb _ _) eqn:E; [|reflexivity].
  apply str_eqb_eq in E. injection E as ->. discriminate Hp.
Qed.

Lemma data_line_nonempty (payload : jsstring) :
  nonempty (data_line payload) = true.
Proof. reflexivity. Qed.

Lemma data_line_prefix (payload : jsstring) :
  startsWith (data_line payload) (lit "data: ") = true.
Proof. apply startsWith_app. Qed.

Lemma data_line_payload (payload : jsstring) :
  slice_from 6 (data_line payload) = payload.
Proof. reflexivity. Qed.

End PayloadFacts.

(* ================================================================== *)
(** * The basic script: facts                                          *)
(* ================================================================== *)

Module BasicFacts.
Import Basic BasicSpec.

Lemma basic_dispatch_uniform (json : JSON) :
  exists oe : option effect,
    forall st, dispatch json st = option_map (fun e => apply_effect e st) oe.
Proof.
  unfold dispatch.
  destruct (get (Some json) (lit "choices")) as [choices|]; [|now exists None].
  destruct (get0 choices) as [first|]; [|now exists None].
  destruct (truthy (Some (or_empty (opt_get (opt_get first (lit "delta")) (lit "content"))))).
  - destruct (truthy (opt_get (opt_get first (lit "delta")) (lit "reasoning"))).
    + now exists (Some (EBoth (or_empty (opt_get (opt_get first (lit "delta")) (lit "content")))
                              (or_empty (opt_get (opt_get first (lit "delta")) (lit "reasoning"))))).
    + now exists (Some (EContent (or_empty (opt_get (opt_get first (lit "delta")) (lit "content"))))).
  - now exists (Some ENone).
Qed.

Lemma basic_process_line_uniform (line : jsstring) :
  exists e : effect, forall st, process_line st line = apply_effect e st.
Proof.
  unfold process_line.
  destruct (negb _ || _); [now exists ENone|].
  destruct (startsWith _ _); [|now exists ENone].
  destruct (JSON_parse _) as [json|]; [|now exists ELog].
  destruct (basic_dispatch_uniform json) as [[e|] He].
  - exists e. intros st. now rewrite He.
  - exists ELog. intros st. now rewrite He.
Qed.

(** A property kept by each effect is kept by the whole loop body. *)
Lemma basic_lines_preserve (P : Locals * Page -> Prop) :
  (forall st, P st -> P (log_parse_error st)) ->
  (forall v st, P st -> P (append_reasoning v st)) ->
  (forall v st, P st -> P (append_content v st)) ->
  forall lines st, P st -> P (fold_left process_line lines st).
Proof.
  intros Hlog Hr Hc lines. induction lines as [|line lines IH]; intros st H.
  - exact H.
  - cbn [fold_left]. apply IH.
    destruct (basic_process_line_uniform line) as [e ->].
    destruct e; cbn [apply_effect]; auto.
Qed.

(** ** What holds while a call is suspended *)

Lemma basic_show_frame (c : jsstring) (p : Page) :
  let p' := showReasoningContent c p in
  isRecognizing p' = isRecognizing p
  /\ status_indicator p' = status_indicator p
  /\ result_display p' = result_display p.
Proof.
  cbv zeta. unfold showReasoningContent, hideReasoningContent.
  destruct (nonempty c && nonempty (trim c)); destruct p; repeat split.
Qed.

Lemma basic_running_log (st : Locals * Page) :
  running st -> running (log_parse_error st).
Proof. destruct st as [l []]. exact (fun H => H). Qed.

Lemma basic_running_reasoning (v : JSON) (st : Locals * Page) :
  running st -> running (append_reasoning v st).
Proof.
  destruct st as [l p]. unfold running, append_reasoning. cbn [fst snd fullText].
  destruct (basic_show_frame (reasoningText l ++ ToString v) p) as (-> & -> & _).
  exact (fun H => H).
Qed.

Lemma basic_running_content (v : JSON) (st : Locals * Page) :
  running st -> running (append_content v st).
Proof. destruct st as [l []]. exact (fun H => H). Qed.

(** The events that change what the call reads, and [clearAll], leave the
    running mark and the status alone. *)
Lemma basic_running_frame (l l' : Locals) (p q : Page) :
  isRecognizing q = isRecognizing p ->
  status_indicator q = status_indicator p ->
  running (l, p) -> running (l', q).
Proof. unfold running. cbn [fst snd]. now intros -> ->. Qed.

Lemma basic_idle_frame (a : App) (q : Page) :
  isRecognizing q = isRecognizing (page a) ->
  status_indicator q = status_indicator (page a) ->
  run_inv a -> run_inv (mkApp q (run a)).
Proof.
  unfold run_inv. cbn [run page]. intros H1 H2. destruct (run a) as [r|].
  - now apply basic_running_frame.
  - now rewrite H1.
Qed.

Lemma basic_running_lines (lines : list jsstring) (st : Locals * Page) :
  running st -> running (fold_left process_line lines st).
Proof.
  apply basic_lines_preserve;
    auto using basic_running_log, basic_running_reasoning, basic_running_content.
Qed.

Lemma basic_finally_idle (p : Page) : isRecognizing (finally_block p) = false.
Proof. destruct p; reflexivity. Qed.

Lemma basic_start_running (p : Page) :
  running (mkLocals [] [], page (start p)).
Proof. destruct p. repeat split. Qed.

Lemma basic_toggle_frame (p : Page) :
  isRecognizing (toggleReasoningDisplay p) = isRecognizing p
  /\ status_indicator (toggleReasoningDisplay p) = status_indicator p
  /\ result_display (toggleReasoningDisplay p) = result_display p.
Proof.
  unfold toggleReasoningDisplay.
  destruct (reasoning_display_expanded p), p; repeat split.
Qed.

Lemma basic_timer_frame (n : nat) (p : Page) :
  isRecognizing (auto_collapse (set_timers n p)) = isRecognizing p
  /\ status_indicator (auto_collapse (set_timers n p)) = status_indicator p
  /\ result_display (auto_collapse (set_timers n p)) = result_display p.
Proof.
  unfold auto_collapse.
  destruct (reasoning_display_expanded (set_timers n p)), p; repeat split.
Qed.

Lemma basic_alert_idle (msg : jsstring) (p : Page) :
  isRecognizing (alert msg p) = isRecognizing p.
Proof. destruct p; reflexivity. Qed.

Lemma basic_step_inv (a a' : App) (e : event) :
  run_inv a -> step a e = Some a' -> run_inv a'.
Proof.
  intros Hinv Hstep. unfold step in Hstep.
  destruct e as [|boxType|status|err|errorData|chunk|now time|err|
                 |images|text|model|checked|];
    try (injection Hstep as <-; apply basic_idle_frame;
         [unfold clearAll, hideReasoningContent; now destruct (page a)..|exact Hinv]).
  - (* the button *)
    injection Hstep as <-. unfold run_inv in *. unfold toggleRecognize.
    destruct (isRecognizing (page a)) eqn:Hrec.
    + unfold abort. destruct (run a) as [r|]; [|congruence].
      destruct (at_await r); cbn [run throw page]; apply basic_finally_idle.
    + destruct (is_nil (currentImages (page a))).
      * cbn [run page]. destruct (run a) as [r|].
        -- unfold running in Hinv. cbn [fst snd] in Hinv.
           destruct Hinv as (H & _). congruence.
        -- now rewrite basic_alert_idle.
      * apply basic_start_running.
  - (* the reasoning header *)
    injection Hstep as <-. apply basic_idle_frame; [..|exact Hinv];
      apply basic_toggle_frame.
  - (* the response *)
    unfold run_inv in *. destruct (run a) as [r|]; [|discriminate].
    destruct (at_await r); try discriminate. injection Hstep as <-.
    unfold on_response. destruct (_ && _); exact Hinv.
  - unfold run_inv. destruct (run a) as [r|]; [|discriminate].
    destruct (at_await r); try discriminate. injection Hstep as <-.
    apply basic_finally_idle.
  - unfold run_inv. destruct (run a) as [r|]; [|discriminate].
    destruct (at_await r); try discriminate. injection Hstep as <-.
    apply basic_finally_idle.
  - (* a chunk *)
    unfold run_inv in *. destruct (run a) as [r|]; [|discriminate].
    destruct (at_await r) as [| |d b]; try discriminate. injection Hstep as <-.
    unfold on_chunk. cbn [run page locals]. rewrite <- surjective_pairing.
    apply read_chunk_preserves; [|exact Hinv].
    intros s line. apply (basic_running_lines [line]).
  - unfold run_inv. destruct (run a) as [r|]; [|discriminate].
    destruct (at_await r); try discriminate. injection Hstep as <-.
    apply basic_finally_idle.
  - unfold run_inv. destruct (run a) as [r|]; [|discriminate].
    destruct (at_await r); try discriminate. injection Hstep as <-.
    apply basic_finally_idle.
  - (* the timer *)
    destruct (timers (page a)) as [|n] eqn:Ht; [discriminate|].
    injection Hstep as <-. apply basic_idle_frame; [..|exact Hinv];
      apply basic_timer_frame.
Qed.

Lemma basic_reachable_inv (a : App) : reachable a -> run_inv a.
Proof.
  induction 1 as [p Hp|a e a' _ IH Hstep].
  - exact Hp.
  - eapply basic_step_inv; eassumption.
Qed.

(** ** Lines that are skipped *)

Lemma basic_process_ignored (st : Locals * Page) (line : jsstring) :
  trim line = [] \/ trim line = lit "data: [DONE]" ->
  process_line st line = st.
Proof. unfold process_line. now intros [-> | ->]. Qed.

Lemma basic_process_malformed (st : Locals * Page) (line : jsstring) :
  startsWith (trim line) (lit "data: ") = true ->
  JSON_parse (slice_from 6 (trim line)) = None ->
  process_line st line
  = if str_eqb (trim line) (lit "data: [DONE]") then st else log_parse_error st.
Proof.
  intros Hs Hp. unfold process_line. rewrite Hs, Hp.
  destruct (trim line); [discriminate Hs|]. cbn [nonempty negb orb].
  now destruct (str_eqb _ _).
Qed.

Lemma basic_process_data_line (line payload : jsstring) (json : JSON)
  (st : Locals * Page) :
  trim line = data_line payload -> JSON_parse payload = Some json ->
  process_line st line
  = match dispatch json st with Some st' => st' | None => log_parse_error st end.
Proof.
  intros Ht Hp. unfold process_line. rewrite Ht.
  rewrite (parses_not_done payload json Hp), data_line_nonempty,
    data_line_prefix, data_line_payload, Hp.
  reflexivity.
Qed.


Lemma basic_show_console (x : list jsstring) (c : jsstring) (p : Page) :
  showReasoningContent c (set_console x p)
  = set_console x (showReasoningContent c p).
Proof.
  unfold showReasoningContent, hideReasoningContent. cbv zeta.
  destruct (nonempty c && nonempty (trim c)); destruct p; reflexivity.
Qed.

Lemma basic_mute_reasoning (v : JSON) (st : Locals * Page) :
  basic_mute (append_reasoning v st) = basic_mute (append_reasoning v (basic_mute st)).
Proof.
  destruct st as [l p]. unfold basic_mute, append_reasoning. cbn [fst snd].
  rewrite basic_show_console. reflexivity.
Qed.

Lemma basic_mute_content (v : JSON) (st : Locals * Page) :
  basic_mute (append_content v st) = basic_mute (append_content v (basic_mute st)).
Proof. destruct st as [l []]. reflexivity. Qed.

Lemma basic_mute_effect (e : effect) (st : Locals * Page) :
  basic_mute (apply_effect e st) = basic_mute (apply_effect e (basic_mute st)).
Proof.
  destruct e; cbn [apply_effect].
  - destruct st as [l []]; reflexivity.
  - destruct st as [l []]; reflexivity.
  - apply basic_mute_content.
  - rewrite basic_mute_reasoning, basic_mute_content, <- basic_mute_reasoning.
    reflexivity.
Qed.

Lemma basic_mute_line (line : jsstring) (st : Locals * Page) :
  basic_mute (process_line st line) = basic_mute (process_line (basic_mute st) line).
Proof.
  destruct (basic_process_line_uniform line) as [e He].
  rewrite !He. apply basic_mute_effect.
Qed.

Lemma basic_mute_lines (lines : list jsstring) (st : Locals * Page) :
  basic_mute (fold_left process_line lines st)
  = basic_mute (fold_left process_line lines (basic_mute st)).
Proof.
  revert st. induction lines as [|line lines IH]; intros st; cbn [fold_left].
  - destruct st as [l []]; reflexivity.
  - rewrite IH, basic_mute_line, <- IH. reflexivity.
Qed.

Lemma basic_mute_log (st : Locals * Page) : basic_mute (log_parse_error st) = basic_mute st.
Proof. destruct st as [l []]; reflexivity. Qed.

Lemma basic_skip_line (l1 l2 : list jsstring) (line : jsstring)
  (st : Locals * Page) :
  (forall s, process_line s line = s \/ process_line s line = log_parse_error s) ->
  basic_mute (fold_left process_line (l1 ++ line :: l2) st)
  = basic_mute (fold_left process_line (l1 ++ l2) st).
Proof.
  intros H. rewrite !fold_left_app. cbn [fold_left].
  set (s := fold_left process_line l1 st).
  rewrite basic_mute_lines, (basic_mute_lines l2 s). f_equal. f_equal.
  destruct (H s) as [-> | ->]; [reflexivity|apply basic_mute_log].
Qed.

(** ** The loop, one event per chunk *)

Lemma basic_exec_chunks (chunks : list (list byte)) (a : App) (r : Run)
  (d : TextDecoder) (b : jsstring) :
  run a = Some r -> at_await r = AwaitRead d b ->
  exec a (map Read_chunk chunks)
  = Some (of_reader (read_all process_line chunks (mkReader d b (locals r, page a)))).
Proof.
  revert a r d b. induction chunks as [|c cs IH]; intros a r d b Hr Ha.
  - destruct a as [p ru], r as [l w]. cbn in *. now subst.
  - cbn [map exec step]. rewrite Hr, Ha.
    set (a' := on_chunk c d b r (page a)).
    rewrite (IH a' (mkRun (fst (acc (read_chunk process_line (mkReader d b (locals r, page a)) c)))
                          (AwaitRead (decoder (read_chunk process_line (mkReader d b (locals r, page a)) c))
                                     (buffer (read_chunk process_line (mkReader d b (locals r, page a)) c))))
                _ _ eq_refl eq_refl).
    cbn [read_all fold_left locals page a' on_chunk]. rewrite <- surjective_pairing.
    now destruct (read_chunk process_line (mkReader d b (locals r, page a)) c).
Qed.

(** ** The ends of a call *)

Lemma basic_exec_app (es1 es2 : list event) (a : App) :
  exec a (es1 ++ es2)
  = match exec a es1 with Some a' => exec a' es2 | None => None end.
Proof.
  revert a. induction es1 as [|e es1 IH]; intros a; cbn [app exec]; [reflexivity|].
  destruct (step a e); [apply IH|reflexivity].
Qed.

Lemma basic_exec_reachable (es : list event) (a a' : App) :
  reachable a -> exec a es = Some a' -> reachable a'.
Proof.
  revert a. induction es as [|e es IH]; intros a Ha; cbn [exec].
  - now intros [= <-].
  - destruct (step a e) as [a1|] eqn:E; [|discriminate].
    apply IH. eapply reach_step; eassumption.
Qed.

Lemma basic_done_step (a : App) (r : Run) (d : TextDecoder) (b : jsstring)
  (now : Z) (time : jsstring) :
  run a = Some r -> at_await r = AwaitRead d b ->
  step a (Read_done now time)
  = Some (mkApp (finally_block (after_loop now time r (page a))) None).
Proof. intros Hr Ha. unfold step. now rewrite Hr, Ha. Qed.

Lemma basic_finally_frame (p : Page) :
  sessionHistory (finally_block p) = sessionHistory p
  /\ status_indicator (finally_block p) = status_indicator p
  /\ result_display (finally_block p) = result_display p
  /\ timers (finally_block p) = timers p
  /\ console (finally_block p) = console p
  /\ alerts (finally_block p) = alerts p
  /\ isRecognizing (finally_block p) = false
  /\ btn_recognize (finally_block p) = mkButton (lit "Start") false.
Proof. destruct p. repeat split. Qed.

Lemma basic_after_loop_empty (now : Z) (time : jsstring) (r : Run) (p : Page) :
  fullText (locals r) = [] -> after_loop now time r p = p.
Proof. unfold after_loop. now intros ->. Qed.

Lemma basic_after_loop_history (now : Z) (time : jsstring) (r : Run) (p : Page) :
  nonempty (strip_markers (fullText (locals r))) = true ->
  sessionHistory (after_loop now time r p)
  = mkHistoryItem now time (strip_markers (fullText (locals r))) :: sessionHistory p
  /\ status_indicator (after_loop now time r p) = mkStatus (lit "Done") (lit "success").
Proof.
  unfold after_loop. intros ->.
  destruct (has_markers _), (nonempty (reasoningText (locals r))), p; split; reflexivity.
Qed.

Lemma basic_catch_abort (err : JSError) (p : Page) :
  err_name err = lit "AbortError" ->
  status_indicator (catch_block err p) = mkStatus (lit "Stopped") (lit "error")
  /\ console (catch_block err p) = console p
  /\ alerts (catch_block err p) = alerts p
  /\ sessionHistory (catch_block err p) = sessionHistory p.
Proof. unfold catch_block. intros ->. destruct p. repeat split. Qed.

Lemma basic_cancel_step (a : App) (r : Run) :
  isRecognizing (page a) = true -> run a = Some r ->
  (at_await r = AwaitFetch \/ exists d b, at_await r = AwaitRead d b) ->
  step a Click_recognize = Some (throw AbortError (page a)).
Proof.
  intros Hrec Hr Ha. cbn [step]. unfold toggleRecognize, abort.
  rewrite Hrec, Hr. now destruct Ha as [-> | (d & b & ->)].
Qed.

Lemma basic_no_images_step (a : App) :
  isRecognizing (page a) = false -> currentImages (page a) = [] ->
  step a Click_recognize
  = Some (mkApp (set_alerts (alerts (page a) ++ [lit "Please add images."]) (page a))
                (run a)).
Proof.
  intros Hrec Him. cbn [step]. unfold toggleRecognize. now rewrite Hrec, Him.
Qed.

Lemma basic_after_loop_delivery (now : Z) (time : jsstring) (r : Run) (p : Page) :
  (has_markers (fullText (locals r)) = true ->
     result_display (after_loop now time r p) = strip_markers (fullText (locals r)))
  /\ (has_markers (fullText (locals r)) = false ->
     result_display (after_loop now time r p) = result_display p).
Proof.
  unfold after_loop. cbv zeta. split; intros ->;
    repeat match goal with
           | |- context [if ?c then _ else _] => destruct c
           end; now destruct p.
Qed.

End BasicFacts.

(* ================================================================== *)
(** * The script with the two boxes: facts                             *)
(* ================================================================== *)

Module PanelFacts.
Import Panel PanelSpec.

Lemma panel_dispatch_uniform (json : JSON) :
  exists oe : option effect,
    forall st, dispatch json st = option_map (fun e => apply_effect e st) oe.
Proof.
  unfold dispatch.
  destruct (get (Some json) (lit "type")) as [type|]; [|now exists None].
  destruct (is_string type _).
  - destruct (get (Some json) (lit "delta")) as [delta|]; [|now exists None].
    destruct (truthy (Some (or_empty delta))).
    + now exists (Some (EReasoning (or_empty delta))).
    + now exists (Some ENone).
  - destruct (get (Some json) (lit "choices")) as [choices|]; [|now exists None].
    destruct (truthy choices); [|now exists (Some ENone)].
    destruct (get0 choices) as [first|]; [|now exists None].
    destruct (truthy (opt_get first _)); [|now exists (Some ENone)].
    destruct (get first _) as [delta|]; [|now exists None].
    destruct (get delta (lit "content")) as [c|]; [|now exists None].
    destruct (get delta (lit "reasoning")) as [r|]; [|now exists None].
    destruct (truthy (Some (or_empty r))), (truthy (Some (or_empty c))).
    + now exists (Some (EBoth (or_empty r) (or_empty c))).
    + now exists (Some (EReasoning (or_empty r))).
    + now exists (Some (EContent (or_empty c))).
    + now exists (Some ENone).
Qed.

Lemma panel_process_line_uniform (line : jsstring) :
  exists e : effect, forall st, process_line st line = apply_effect e st.
Proof.
  unfold process_line.
  destruct (negb _ || _); [now exists ENone|].
  destruct (startsWith _ _); [|now exists ENone].
  destruct (JSON_parse _) as [json|]; [|now exists ELog].
  destruct (panel_dispatch_uniform json) as [[e|] He].
  - exists e. intros st. now rewrite He.
  - exists ELog. intros st. now rewrite He.
Qed.

(** A property kept by each effect is kept by the whole loop body. *)
Lemma panel_lines_preserve (P : Locals * Page -> Prop) :
  (forall st, P st -> P (log_parse_error st)) ->
  (forall v st, P st -> P (append_reasoning v st)) ->
  (forall v st, P st -> P (append_content v st)) ->
  forall lines st, P st -> P (fold_left process_line lines st).
Proof.
  intros Hlog Hr Hc lines. induction lines as [|line lines IH]; intros st H.
  - exact H.
  - cbn [fold_left]. apply IH.
    destruct (panel_process_line_uniform line) as [e ->].
    destruct e; cbn [apply_effect]; auto.
Qed.

(** ** The boxes exclude each other *)

Ltac page_simpl :=
  repeat match goal with
         | p : Page |- _ => destruct p
         | b : Box |- _ => destruct b
         | st : (Locals * Page)%type |- _ => destruct st
         end;
  cbn in *.

Lemma panel_toggleBox_exclusive (boxType : jsstring) (p : Page) :
  exclusive (toggleBox boxType p).
Proof.
  unfold exclusive, box_ok, toggleBox.
  destruct (str_eqb boxType _), (contains _ _); page_simpl; auto.
Qed.

Lemma panel_hide_exclusive (p : Page) :
  exclusive p -> exclusive (hideReasoningContent p).
Proof.
  unfold exclusive, box_ok, hideReasoningContent.
  destruct (contains _ _); page_simpl; auto.
Qed.

Lemma panel_show_exclusive (content : jsstring) (p : Page) :
  exclusive p -> exclusive (showReasoningContent content p).
Proof.
  intros H. unfold showReasoningContent.
  destruct (nonempty content && nonempty (trim content)).
  - unfold exclusive, box_ok. page_simpl. auto.
  - apply panel_hide_exclusive. revert H. unfold exclusive, box_ok. page_simpl. auto.
Qed.

(** A delta with visible text sets the boxes whatever they were. *)
Lemma panel_show_visible_exclusive (content : jsstring) (p : Page) :
  nonempty content && nonempty (trim content) = true ->
  exclusive (showReasoningContent content p).
Proof.
  intros H. unfold showReasoningContent. rewrite H.
  unfold exclusive, box_ok. page_simpl. auto.
Qed.

Lemma panel_auto_switch_exclusive (p : Page) :
  exclusive p -> exclusive (auto_switch p).
Proof.
  unfold exclusive, box_ok, auto_switch.
  destruct (str_eqb (reasoning_box_display p) (lit "none"));
    page_simpl; auto.
Qed.

Lemma panel_start_exclusive (p : Page) : exclusive (page (start p)).
Proof.
  unfold exclusive, box_ok, start.
  destruct (reasoning_toggle p); page_simpl; auto.
Qed.

(** ** What holds while a call is suspended *)

Ltac show_cases c p :=
  unfold showReasoningContent, hideReasoningContent; cbv zeta;
  destruct (nonempty c && nonempty (trim c));
  [|destruct (contains (reasoning_box (set_reasoningContent c p)) collapsed)].

Lemma panel_show_frame (c : jsstring) (p : Page) :
  let p' := showReasoningContent c p in
  isRecognizing p' = isRecognizing p
  /\ status_indicator p' = status_indicator p
  /\ result_display p' = result_display p
  /\ sessionHistory p' = sessionHistory p
  /\ btn_recognize p' = btn_recognize p
  /\ alerts p' = alerts p /\ console p' = console p
  /\ requests p' = requests p /\ timers p' = timers p
  /\ currentImages p' = currentImages p.
Proof. cbv zeta. show_cases c p; page_simpl; repeat split. Qed.

Lemma panel_running_log (st : Locals * Page) :
  running st -> running (log_parse_error st).
Proof. unfold running, exclusive, box_ok, log_parse_error. page_simpl. auto. Qed.

Lemma panel_running_reasoning (v : JSON) (st : Locals * Page) :
  running st -> running (append_reasoning v st).
Proof.
  destruct st as [l p]. unfold running, append_reasoning. cbn [fst snd fullText].
  intros (H1 & H2 & H3 & H4).
  destruct (panel_show_frame (reasoningText l ++ ToString v) p)
    as (-> & -> & -> & _).
  auto using panel_show_exclusive.
Qed.

Lemma panel_running_content (v : JSON) (st : Locals * Page) :
  running st -> running (append_content v st).
Proof. unfold running, exclusive, box_ok, append_content. page_simpl. tauto. Qed.

Lemma panel_running_lines (lines : list jsstring) (st : Locals * Page) :
  running st -> running (fold_left process_line lines st).
Proof.
  apply panel_lines_preserve;
    auto using panel_running_log, panel_running_reasoning, panel_running_content.
Qed.

Lemma panel_finally_idle (p : Page) : isRecognizing (finally_block p) = false.
Proof. destruct p; reflexivity. Qed.

Lemma panel_start_running (p : Page) :
  running (mkLocals [] [], page (start p)).
Proof.
  unfold running. cbn [fst snd fullText].
  split; [|split; [|split]]; try apply panel_start_exclusive;
    unfold start; destruct (reasoning_toggle p), p; reflexivity.
Qed.

Lemma panel_toggleBox_frame (boxType : jsstring) (p : Page) :
  isRecognizing (toggleBox boxType p) = isRecognizing p
  /\ status_indicator (toggleBox boxType p) = status_indicator p
  /\ result_display (toggleBox boxType p) = result_display p.
Proof.
  unfold toggleBox. destruct (str_eqb boxType _), (contains _ _), p;
    repeat split.
Qed.

Lemma panel_timer_frame (n : nat) (p : Page) :
  isRecognizing (auto_switch (set_timers n p)) = isRecognizing p
  /\ status_indicator (auto_switch (set_timers n p)) = status_indicator p
  /\ result_display (auto_switch (set_timers n p)) = result_display p
  /\ (exclusive p -> exclusive (auto_switch (set_timers n p))).
Proof.
  unfold auto_switch, exclusive, box_ok.
  destruct (str_eqb (reasoning_box_display (set_timers n p)) (lit "none"));
    destruct p as [? ? ? ? ? ? ? ? ? ? ? [? ?] ? [? ?]]; cbn; repeat split;
    tauto.
Qed.

Lemma panel_alert_idle (msg : jsstring) (p : Page) :
  isRecognizing (alert msg p) = isRecognizing p.
Proof. destruct p; reflexivity. Qed.

(** The events that change what the call reads, and [clearInput], leave
    all of it alone. *)
Lemma panel_idle_frame (a : App) (q : Page) :
  isRecognizing q = isRecognizing (page a) ->
  status_indicator q = status_indicator (page a) ->
  result_display q = result_display (page a) ->
  reasoning_box q = reasoning_box (page a) ->
  output_box q = output_box (page a) ->
  run_inv a -> run_inv (mkApp q (run a)).
Proof.
  unfold run_inv, running, exclusive. cbn [run page fst snd].
  intros -> -> -> -> ->. now destruct (run a).
Qed.

Lemma panel_step_inv (a a' : App) (e : event) :
  run_inv a -> step a e = Some a' -> run_inv a'.
Proof.
  intros Hinv Hstep. unfold step in Hstep.
  destruct e as [|boxType|status|err|errorData|chunk|now time|err|
                 |images|text|model|checked|];
    try (injection Hstep as <-; apply panel_idle_frame;
         [unfold clearInput; now destruct (page a)..|exact Hinv]).
  - (* the button *)
    injection Hstep as <-. unfold run_inv in *. unfold toggleRecognize.
    destruct (isRecognizing (page a)) eqn:Hrec.
    + unfold abort. destruct (run a) as [r|]; [|congruence].
      destruct (at_await r); cbn [run throw page]; apply panel_finally_idle.
    + destruct (is_nil (currentImages (page a))).
      * cbn [run page]. destruct (run a) as [r|].
        -- unfold running in Hinv. cbn [fst snd] in Hinv.
           destruct Hinv as (H & _). congruence.
        -- now rewrite panel_alert_idle.
      * apply panel_start_running.
  - (* a box header *)
    injection Hstep as <-. unfold run_inv in *. cbn [run page].
    pose proof (panel_toggleBox_exclusive boxType (page a)) as Hex.
    destruct (panel_toggleBox_frame boxType (page a)) as (Hf1 & Hf2 & Hf3).
    destruct (run a) as [r|]; [|congruence].
    unfold running in *; cbn [fst snd] in *.
    destruct Hinv as (H1 & H2 & H3 & H4).
    rewrite Hf1, Hf2, Hf3. auto.
  - (* the response *)
    unfold run_inv in *. destruct (run a) as [r|]; [|discriminate].
    destruct (at_await r); try discriminate. injection Hstep as <-.
    unfold on_response. destruct (_ && _); exact Hinv.
  - unfold run_inv. destruct (run a) as [r|]; [|discriminate].
    destruct (at_await r); try discriminate. injection Hstep as <-.
    apply panel_finally_idle.
  - unfold run_inv. destruct (run a) as [r|]; [|discriminate].
    destruct (at_await r); try discriminate. injection Hstep as <-.
    apply panel_finally_idle.
  - (* a chunk *)
    unfold run_inv in *. destruct (run a) as [r|]; [|discriminate].
    destruct (at_await r) as [| |d b]; try discriminate. injection Hstep as <-.
    unfold on_chunk. cbn [run page locals]. rewrite <- surjective_pairing.
    apply read_chunk_preserves; [|exact Hinv].
    intros s line. apply (panel_running_lines [line]).
  - unfold run_inv. destruct (run a) as [r|]; [|discriminate].
    destruct (at_await r); try discriminate. injection Hstep as <-.
    apply panel_finally_idle.
  - unfold run_inv. destruct (run a) as [r|]; [|discriminate].
    destruct (at_await r); try discriminate. injection Hstep as <-.
    apply panel_finally_idle.
  - (* the timer *)
    destruct (timers (page a)) as [|n] eqn:Ht; [discriminate|].
    injection Hstep as <-. unfold run_inv in *. cbn [run page].
    destruct (panel_timer_frame n (page a)) as (Hf1 & Hf2 & Hf3 & Hf4).
    destruct (run a) as [r|]; [|congruence].
    unfold running in *; cbn [fst snd] in *.
    destruct Hinv as (H1 & H2 & H3 & H4).
    rewrite Hf1, Hf2, Hf3. auto.
Qed.

Lemma panel_reachable_inv (a : App) : reachable a -> run_inv a.
Proof.
  induction 1 as [p Hp|a e a' _ IH Hstep].
  - exact Hp.
  - eapply panel_step_inv; eassumption.
Qed.

(** ** How a payload is dispatched *)














(** ** Lines that are skipped *)

Lemma panel_process_ignored (st : Locals * Page) (line : jsstring) :
  trim line = [] \/ trim line = lit "data: [DONE]" ->
  process_line st line = st.
Proof. unfold process_line. now intros [-> | ->]. Qed.

Lemma panel_process_malformed (st : Locals * Page) (line : jsstring) :
  startsWith (trim line) (lit "data: ") = true ->
  JSON_parse (slice_from 6 (trim line)) = None ->
  process_line st line
  = if str_eqb (trim line) (lit "data: [DONE]") then st else log_parse_error st.
Proof.
  intros Hs Hp. unfold process_line. rewrite Hs, Hp.
  destruct (trim line); [discriminate Hs|]. cbn [nonempty negb orb].
  now destruct (str_eqb _ _).
Qed.


Lemma panel_show_console (x : list jsstring) (c : jsstring) (p : Page) :
  showReasoningContent c (set_console x p)
  = set_console x (showReasoningContent c p).
Proof.
  unfold showReasoningContent, hideReasoningContent. cbv zeta.
  destruct (nonempty c && nonempty (trim c)).
  - destruct p; reflexivity.
  - destruct p as [? ? ? ? ? ? ? ? ? ? ? [? hc] ? [? ?]]. cbn.
    destruct hc; reflexivity.
Qed.

Lemma panel_mute_effect (e : effect) (st : Locals * Page) :
  panel_mute (apply_effect e st) = panel_mute (apply_effect e (panel_mute st)).
Proof.
  destruct st as [l p]. unfold panel_mute.
  destruct e; cbn [apply_effect append_reasoning append_content log_parse_error fst snd];
    rewrite ?panel_show_console; destruct p; reflexivity.
Qed.

Lemma panel_mute_line (line : jsstring) (st : Locals * Page) :
  panel_mute (process_line st line) = panel_mute (process_line (panel_mute st) line).
Proof.
  destruct (panel_process_line_uniform line) as [e He].
  rewrite !He. apply panel_mute_effect.
Qed.

Lemma panel_mute_lines (lines : list jsstring) (st : Locals * Page) :
  panel_mute (fold_left process_line lines st)
  = panel_mute (fold_left process_line lines (panel_mute st)).
Proof.
  revert st. induction lines as [|line lines IH]; intros st; cbn [fold_left].
  - destruct st as [l []]; reflexivity.
  - rewrite IH, panel_mute_line, <- IH. reflexivity.
Qed.

Lemma panel_mute_log (st : Locals * Page) : panel_mute (log_parse_error st) = panel_mute st.
Proof. destruct st as [l []]; reflexivity. Qed.

(** A skipped line in the middle of the lines changes nothing the user can
    see: the lines after it are handled as if it were not there. *)
Lemma panel_skip_line (l1 l2 : list jsstring) (line : jsstring)
  (st : Locals * Page) :
  (forall s, process_line s line = s \/ process_line s line = log_parse_error s) ->
  panel_mute (fold_left process_line (l1 ++ line :: l2) st)
  = panel_mute (fold_left process_line (l1 ++ l2) st).
Proof.
  intros H. rewrite !fold_left_app. cbn [fold_left].
  set (s := fold_left process_line l1 st).
  rewrite panel_mute_lines, (panel_mute_lines l2 s). f_equal. f_equal.
  destruct (H s) as [-> | ->]; [reflexivity|apply panel_mute_log].
Qed.

(** ** The loop, one event per chunk *)

Lemma panel_exec_chunks (chunks : list (list byte)) (a : App) (r : Run)
  (d : TextDecoder) (b : jsstring) :
  run a = Some r -> at_await r = AwaitRead d b ->
  exec a (map Read_chunk chunks)
  = Some (of_reader r (read_all process_line chunks (mkReader d b (locals r, page a)))).
Proof.
  revert a r d b. induction chunks as [|c cs IH]; intros a r d b Hr Ha.
  - destruct a as [p ru], r as [l e w]. cbn in *. now subst.
  - cbn [map exec step]. rewrite Hr, Ha.
    set (a' := on_chunk c d b r (page a)).
    rewrite (IH a' (mkRun (fst (acc (read_chunk process_line (mkReader d b (locals r, page a)) c)))
                          (reasoningEnabled r)
                          (AwaitRead (decoder (read_chunk process_line (mkReader d b (locals r, page a)) c))
                                     (buffer (read_chunk process_line (mkReader d b (locals r, page a)) c))))
                _ _ eq_refl eq_refl).
    cbn [read_all fold_left locals page a' on_chunk]. rewrite <- surjective_pairing.
    unfold of_reader. cbn [reasoningEnabled].
    now destruct (read_chunk process_line (mkReader d b (locals r, page a)) c).
Qed.

(** ** The ends of a call *)

Lemma panel_exec_app (es1 es2 : list event) (a : App) :
  exec a (es1 ++ es2)
  = match exec a es1 with Some a' => exec a' es2 | None => None end.
Proof.
  revert a. induction es1 as [|e es1 IH]; intros a; cbn [app exec]; [reflexivity|].
  destruct (step a e); [apply IH|reflexivity].
Qed.

Lemma panel_exec_reachable (es : list event) (a a' : App) :
  reachable a -> exec a es = Some a' -> reachable a'.
Proof.
  revert a. induction es as [|e es IH]; intros a Ha; cbn [exec].
  - now intros [= <-].
  - destruct (step a e) as [a1|] eqn:E; [|discriminate].
    apply IH. eapply reach_step; eassumption.
Qed.

Lemma panel_done_step (a : App) (r : Run) (d : TextDecoder) (b : jsstring)
  (now : Z) (time : jsstring) :
  run a = Some r -> at_await r = AwaitRead d b ->
  step a (Read_done now time)
  = Some (mkApp (finally_block (after_loop now time r (page a))) None).
Proof. intros Hr Ha. unfold step. now rewrite Hr, Ha. Qed.

Lemma panel_finally_frame (p : Page) :
  sessionHistory (finally_block p) = sessionHistory p
  /\ status_indicator (finally_block p) = status_indicator p
  /\ result_display (finally_block p) = result_display p
  /\ timers (finally_block p) = timers p
  /\ console (finally_block p) = console p
  /\ alerts (finally_block p) = alerts p
  /\ isRecognizing (finally_block p) = false
  /\ btn_recognize (finally_block p) = mkButton (lit "Start") false.
Proof. destruct p. repeat split. Qed.

Lemma panel_after_loop_empty (now : Z) (time : jsstring) (r : Run) (p : Page) :
  fullText (locals r) = [] -> after_loop now time r p = p.
Proof. unfold after_loop. now intros ->. Qed.

Lemma panel_after_loop_history (now : Z) (time : jsstring) (r : Run) (p : Page) :
  nonempty (strip_markers (fullText (locals r))) = true ->
  sessionHistory (after_loop now time r p)
  = mkHistoryItem now time (strip_markers (fullText (locals r))) :: sessionHistory p
  /\ status_indicator (after_loop now time r p) = mkStatus (lit "Done") (lit "success").
Proof.
  unfold after_loop. intros ->.
  destruct (has_markers _), (reasoningEnabled r && _), (nonempty (reasoningText (locals r))), p;
    split; reflexivity.
Qed.

Lemma panel_after_loop_display (now : Z) (time : jsstring) (r : Run) (p : Page) :
  result_display p = fullText (locals r) ->
  result_display (after_loop now time r p) = strip_markers (fullText (locals r)).
Proof.
  unfold after_loop, strip_markers. intros H.
  destruct (has_markers (fullText (locals r))).
  - destruct (nonempty _); [|now destruct p].
    destruct (reasoningEnabled r && _), (nonempty (reasoningText (locals r)));
      now destruct p.
  - rewrite <- H. destruct (nonempty _); [|reflexivity].
    destruct (reasoningEnabled r && _), (nonempty (reasoningText (locals r)));
      now destruct p.
Qed.

Lemma panel_catch_abort (err : JSError) (p : Page) :
  err_name err = lit "AbortError" ->
  status_indicator (catch_block err p) = mkStatus (lit "Stopped") (lit "error")
  /\ console (catch_block err p) = console p
  /\ alerts (catch_block err p) = alerts p
  /\ sessionHistory (catch_block err p) = sessionHistory p.
Proof. unfold catch_block. intros ->. destruct p. repeat split. Qed.

Lemma panel_cancel_step (a : App) (r : Run) :
  isRecognizing (page a) = true -> run a = Some r ->
  (at_await r = AwaitFetch \/ exists d b, at_await r = AwaitRead d b) ->
  step a Click_recognize = Some (throw AbortError (page a)).
Proof.
  intros Hrec Hr Ha. cbn [step]. unfold toggleRecognize, abort.
  rewrite Hrec, Hr. now destruct Ha as [-> | (d & b & ->)].
Qed.

Lemma panel_no_images_step (a : App) :
  isRecognizing (page a) = false -> currentImages (page a) = [] ->
  step a Click_recognize
  = Some (mkApp (set_alerts (alerts (page a) ++ [lit "Please add images."]) (page a))
                (run a)).
Proof.
  intros Hrec Him. cbn [step]. unfold toggleRecognize. now rewrite Hrec, Him.
Qed.

(** ** Every event keeps the boxes exclusive *)

Lemma panel_exclusive_boxes (p p' : Page) :
  reasoning_box p' = reasoning_box p -> output_box p' = output_box p ->
  exclusive p -> exclusive p'.
Proof. unfold exclusive. now intros -> ->. Qed.

Lemma panel_throw_boxes (err : JSError) (p : Page) :
  reasoning_box (page (throw err p)) = reasoning_box p
  /\ output_box (page (throw err p)) = output_box p.
Proof.
  unfold throw, catch_block. destruct (str_eqb _ _), p; split; reflexivity.
Qed.

Lemma panel_done_boxes (now : Z) (time : jsstring) (r : Run) (p : Page) :
  reasoning_box (finally_block (after_loop now time r p)) = reasoning_box p
  /\ output_box (finally_block (after_loop now time r p)) = output_box p.
Proof.
  unfold after_loop. cbv zeta.
  repeat match goal with
         | |- context [if ?c then _ else _] => destruct c
         end; destruct p; split; reflexivity.
Qed.

Lemma panel_lines_exclusive (lines : list jsstring) (st : Locals * Page) :
  exclusive (snd st) -> exclusive (snd (fold_left process_line lines st)).
Proof.
  apply (panel_lines_preserve (fun st => exclusive (snd st))).
  - intros [l p]. apply panel_exclusive_boxes; now destruct p.
  - intros v [l p]. apply panel_show_exclusive.
  - intros v [l p]. apply panel_exclusive_boxes; now destruct p.
Qed.

Lemma panel_step_exclusive (a a' : App) (e : event) :
  exclusive (page a) -> step a e = Some a' -> exclusive (page a').
Proof.
  intros Hex Hstep. unfold step in Hstep.
  destruct e as [|boxType|status|err|errorData|chunk|now time|err|
                 |images|text|model|checked|];
    try (injection Hstep as <-; revert Hex; apply panel_exclusive_boxes;
         unfold clearInput; now destruct (page a)).
  - injection Hstep as <-. unfold toggleRecognize.
    destruct (isRecognizing (page a)).
    + unfold abort. destruct (run a) as [r|]; [|exact Hex].
      destruct (at_await r);
        (eapply panel_exclusive_boxes; [apply panel_throw_boxes..|exact Hex]).
    + destruct (is_nil _); [|apply panel_start_exclusive].
      revert Hex. apply panel_exclusive_boxes; now destruct (page a).
  - injection Hstep as <-. apply panel_toggleBox_exclusive.
  - destruct (run a) as [r|]; [|discriminate].
    destruct (at_await r); try discriminate. injection Hstep as <-.
    unfold on_response. now destruct (_ && _).
  - destruct (run a) as [r|]; [|discriminate].
    destruct (at_await r); try discriminate. injection Hstep as <-.
    eapply panel_exclusive_boxes; [apply panel_throw_boxes..|exact Hex].
  - destruct (run a) as [r|]; [|discriminate].
    destruct (at_await r); try discriminate. injection Hstep as <-.
    eapply panel_exclusive_boxes; [apply panel_throw_boxes..|exact Hex].
  - destruct (run a) as [r|]; [|discriminate].
    destruct (at_await r) as [| |d b]; try discriminate. injection Hstep as <-.
    unfold on_chunk. cbn [page].
    apply (read_chunk_preserves process_line (fun st => exclusive (snd st)));
      [|exact Hex].
    intros s line. apply (panel_lines_exclusive [line]).
  - destruct (run a) as [r|]; [|discriminate].
    destruct (at_await r); try discriminate. injection Hstep as <-.
    eapply panel_exclusive_boxes; [apply panel_done_boxes..|exact Hex].
  - destruct (run a) as [r|]; [|discriminate].
    destruct (at_await r); try discriminate. injection Hstep as <-.
    eapply panel_exclusive_boxes; [apply panel_throw_boxes..|exact Hex].
  - destruct (timers (page a)) as [|n]; [discriminate|].
    injection Hstep as <-. cbn [page].
    now apply panel_timer_frame.
Qed.

Lemma panel_exec_exclusive (es : list event) (a a' : App) :
  exclusive (page a) -> exec a es = Some a' -> exclusive (page a').
Proof.
  revert a. induction es as [|e es IH]; intros a Hex; cbn [exec].
  - now intros [= <-].
  - destruct (step a e) as [a1|] eqn:E; [|discriminate].
    apply IH. eapply panel_step_exclusive; eassumption.
Qed.

(** While a call is suspended the boxes are exclusive: the call set them
    when it started. *)
Lemma panel_running_exclusive (a : App) (r : Run) :
  reachable a -> run a = Some r -> exclusive (page a).
Proof.
  intros Hreach Hr. apply panel_reachable_inv in Hreach.
  unfold run_inv in Hreach. rewrite Hr in Hreach. apply Hreach.
Qed.

Lemma panel_after_loop_delivery (now : Z) (time : jsstring) (r : Run) (p : Page) :
  (has_markers (fullText (locals r)) = true ->
     result_display (after_loop now time r p) = strip_markers (fullText (locals r)))
  /\ (has_markers (fullText (locals r)) = false ->
     result_display (after_loop now time r p) = result_display p).
Proof.
  unfold after_loop. cbv zeta. split; intros ->;
    repeat match goal with
           | |- context [if ?c then _ else _] => destruct c
           end; now destruct p.
Qed.

End PanelFacts.

(* ================================================================== *)
(** * The properties of the specification                              *)
(* ================================================================== *)

Import BasicFacts PanelFacts.

(** ** Chunk boundaries *)

Lemma new_Reader_clean {St} (s : St) : clean (new_Reader s).
Proof. reflexivity. Qed.

(** C1. Chunk-boundary invariance.  Two sequences of chunks that carry the
    same bytes leave the reading loop in the same state: the same
    [fullText], the same [reasoningText], the same page, the same buffered
    rest.  The same holds for the events of a suspended call, to the end of
    the call.  In both scripts. *)
Theorem chunk_boundary_invariance (cs1 cs2 : list (list byte)) :
  List.concat cs1 = List.concat cs2 ->
  (forall st : Locals * Basic.Page,
      let r1 := read_all Basic.process_line cs1 (new_Reader st) in
      let r2 := read_all Basic.process_line cs2 (new_Reader st) in
      r1 = r2
      /\ fullText (fst (acc r1)) = fullText (fst (acc r2))
      /\ reasoningText (fst (acc r1)) = reasoningText (fst (acc r2)))
  /\ (forall st : Locals * Panel.Page,
      let r1 := read_all Panel.process_line cs1 (new_Reader st) in
      let r2 := read_all Panel.process_line cs2 (new_Reader st) in
      r1 = r2
      /\ fullText (fst (acc r1)) = fullText (fst (acc r2))
      /\ reasoningText (fst (acc r1)) = reasoningText (fst (acc r2)))
  /\ (forall (a : Basic.App) (r : Basic.Run) (now : Z) (time : jsstring),
      Basic.run a = Some r ->
      Basic.at_await r = AwaitRead new_TextDecoder [] ->
      Basic.exec a (map Read_chunk cs1 ++ [Read_done now time])
      = Basic.exec a (map Read_chunk cs2 ++ [Read_done now time])
      /\ exists a', Basic.exec a (map Read_chunk cs1 ++ [Read_done now time]) = Some a')
  /\ (forall (a : Panel.App) (r : Panel.Run) (now : Z) (time : jsstring),
      Panel.run a = Some r ->
      Panel.at_await r = AwaitRead new_TextDecoder [] ->
      Panel.exec a (map Read_chunk cs1 ++ [Read_done now time])
      = Panel.exec a (map Read_chunk cs2 ++ [Read_done now time])
      /\ exists a', Panel.exec a (map Read_chunk cs1 ++ [Read_done now time]) = Some a').
Proof.
  intros Hcs. repeat split.
  - apply read_all_invariant; [apply new_Reader_clean|exact Hcs].
  - cbv zeta. now rewrite (read_all_invariant _ cs1 cs2 (new_Reader st) (new_Reader_clean st) Hcs).
  - cbv zeta. now rewrite (read_all_invariant _ cs1 cs2 (new_Reader st) (new_Reader_clean st) Hcs).
  - apply read_all_invariant; [apply new_Reader_clean|exact Hcs].
  - cbv zeta. now rewrite (read_all_invariant _ cs1 cs2 (new_Reader st) (new_Reader_clean st) Hcs).
  - cbv zeta. now rewrite (read_all_invariant _ cs1 cs2 (new_Reader st) (new_Reader_clean st) Hcs).
  - rewrite !basic_exec_app, !(basic_exec_chunks _ a r _ _ H H0).
    now rewrite (read_all_invariant _ cs1 cs2
                   (mkReader new_TextDecoder [] (Basic.locals r, Basic.page a))
                   eq_refl Hcs).
  - rewrite basic_exec_app, (basic_exec_chunks _ a r _ _ H H0).
    cbn [Basic.exec]. erewrite basic_done_step; [eexists; reflexivity|reflexivity|reflexivity].
  - rewrite !panel_exec_app, !(panel_exec_chunks _ a r _ _ H H0).
    now rewrite (read_all_invariant _ cs1 cs2
                   (mkReader new_TextDecoder [] (Panel.locals r, Panel.page a))
                   eq_refl Hcs).
  - rewrite panel_exec_app, (panel_exec_chunks _ a r _ _ H H0).
    cbn [Panel.exec]. erewrite panel_done_step; [eexists; reflexivity|reflexivity|reflexivity].
Qed.

Lemma chunk_boundary_invariance_witness :
  List.concat stream_whole = List.concat stream_cut
  /\ fullText (fst (acc (read_all Panel.process_line stream_cut
                           (new_Reader (mkLocals [] [], panel_page [an_image] [])))))
     = [20320].
Proof.
  split; [reflexivity|].
  destruct (chunk_boundary_invariance stream_whole stream_cut eq_refl)
    as (_ & H & _).
  destruct (H (mkLocals [] [], panel_page [an_image] [])) as (_ & <- & _).
  reflexivity.
Defined.

(** ** The box markers *)

(** C7. Box-marker stripping.  When the accumulated text starts with
    [<|begin_of_box|>] and ends with [<|end_of_box|>] it is the two markers
    around a middle part, and the final text is that middle part; in every
    other case, also with one marker only, the final text is the
    accumulated text.  When the stream ends, both scripts put the stripped
    text on the result display (which they leave alone when there is nothing
    to strip) and the final text, when not empty, into the new history
    entry.  In the script with the boxes, where nothing else writes the
    result display, the display then shows the final text. *)
Theorem box_marker_stripping :
  (forall t, has_markers t = true ->
     exists mid, t = BEGIN_MARKER ++ mid ++ END_MARKER /\ strip_markers t = mid)
  /\ (forall t, has_markers t = false -> strip_markers t = t)
  /\ strip_markers (lit "<|begin_of_box|>HELLO<|end_of_box|>") = lit "HELLO"
  /\ strip_markers (lit "HELLO") = lit "HELLO"
  /\ strip_markers (lit "<|begin_of_box|>HELLO") = lit "<|begin_of_box|>HELLO"
  /\ strip_markers (lit "HELLO<|end_of_box|>") = lit "HELLO<|end_of_box|>"
  /\ (forall (a a' : Basic.App) r d b now time,
        Basic.run a = Some r -> Basic.at_await r = AwaitRead d b ->
        Basic.step a (Read_done now time) = Some a' ->
        (has_markers (fullText (Basic.locals r)) = true ->
           Basic.result_display (Basic.page a')
           = strip_markers (fullText (Basic.locals r)))
        /\ (has_markers (fullText (Basic.locals r)) = false ->
           Basic.result_display (Basic.page a') = Basic.result_display (Basic.page a))
        /\ (nonempty (strip_markers (fullText (Basic.locals r))) = true ->
           option_map h_text (hd_error (Basic.sessionHistory (Basic.page a')))
           = Some (strip_markers (fullText (Basic.locals r)))))
  /\ (forall (a a' : Panel.App) r d b now time,
        Panel.run a = Some r -> Panel.at_await r = AwaitRead d b ->
        Panel.step a (Read_done now time) = Some a' ->
        (has_markers (fullText (Panel.locals r)) = true ->
           Panel.result_display (Panel.page a')
           = strip_markers (fullText (Panel.locals r)))
        /\ (has_markers (fullText (Panel.locals r)) = false ->
           Panel.result_display (Panel.page a') = Panel.result_display (Panel.page a))
        /\ (nonempty (strip_markers (fullText (Panel.locals r))) = true ->
           option_map h_text (hd_error (Panel.sessionHistory (Panel.page a')))
           = Some (strip_markers (fullText (Panel.locals r)))))
  /\ (forall (p0 : Panel.Page) (es : list event) (a a' : Panel.App) r d b now time,
        Panel.isRecognizing p0 = false ->
        Panel.exec (Panel.mkApp p0 None) es = Some a ->
        Panel.run a = Some r -> Panel.at_await r = AwaitRead d b ->
        Panel.step a (Read_done now time) = Some a' ->
        Panel.result_display (Panel.page a')
        = strip_markers (fullText (Panel.locals r))).
Proof.
  split; [|split; [|do 4 (split; [reflexivity|]); split; [|split]]].
  - intros t H. destruct (has_markers_inv t H) as [mid ->].
    exists mid. split; [reflexivity|apply strip_markers_between].
  - exact strip_markers_other.
  - intros a a' r d b now time Hr Ha Hstep.
    rewrite (basic_done_step a r d b now time Hr Ha) in Hstep.
    injection Hstep as <-. cbn [Basic.page].
    destruct (basic_finally_frame (Basic.after_loop now time r (Basic.page a)))
      as (-> & _ & -> & _).
    destruct (basic_after_loop_delivery now time r (Basic.page a)) as (H1 & H2).
    split; [exact H1|]. split; [exact H2|]. intros Hne.
    now destruct (basic_after_loop_history now time r (Basic.page a) Hne) as (-> & _).
  - intros a a' r d b now time Hr Ha Hstep.
    rewrite (panel_done_step a r d b now time Hr Ha) in Hstep.
    injection Hstep as <-. cbn [Panel.page].
    destruct (panel_finally_frame (Panel.after_loop now time r (Panel.page a)))
      as (-> & _ & -> & _).
    destruct (panel_after_loop_delivery now time r (Panel.page a)) as (H1 & H2).
    split; [exact H1|]. split; [exact H2|]. intros Hne.
    now destruct (panel_after_loop_history now time r (Panel.page a) Hne) as (-> & _).
  - intros p0 es a a' r d b now time Hidle Hex Hr Ha Hstep.
    assert (Hreach : PanelSpec.reachable a)
      by (eapply panel_exec_reachable; [apply PanelSpec.reach_idle|]; eassumption).
    rewrite (panel_done_step a r d b now time Hr Ha) in Hstep.
    injection Hstep as <-. cbn [Panel.page].
    destruct (panel_finally_frame (Panel.after_loop now time r (Panel.page a)))
      as (_ & _ & -> & _).
    apply panel_after_loop_display.
    pose proof (panel_reachable_inv a Hreach) as Hinv.
    unfold PanelSpec.run_inv in Hinv. rewrite Hr in Hinv. apply Hinv.
Qed.

Lemma box_marker_stripping_witness :
  (has_markers (lit "<|begin_of_box|>A<|end_of_box|>") = true
   /\ exists mid, lit "<|begin_of_box|>A<|end_of_box|>"
                  = BEGIN_MARKER ++ mid ++ END_MARKER
                  /\ strip_markers (lit "<|begin_of_box|>A<|end_of_box|>") = mid)
  /\ exists a a',
       Panel.exec (Panel.mkApp (panel_page [an_image] []) None) hello_events = Some a
       /\ Panel.step a (Read_done 1700000000000 (lit "10:00:00")) = Some a'
       /\ Panel.result_display (Panel.page a') = lit "HELLO".
Proof.
  split.
  - split; [reflexivity|].
    exact (proj1 box_marker_stripping (lit "<|begin_of_box|>A<|end_of_box|>") eq_refl).
  - do 2 eexists. split; [reflexivity|]. split; [reflexivity|].
    rewrite (proj2 (proj2 (proj2 (proj2 (proj2 (proj2 (proj2 (proj2 box_marker_stripping)))))))
               (panel_page [an_image] []) hello_events _ _ _ _ _ _ _
               eq_refl eq_refl eq_refl eq_refl eq_refl).
    reflexivity.
Defined.

(** ** Starting without images *)

(** C9. Zero-image validation.  A click on the button while no call runs
    and no image is staged shows the alert and does nothing else: the page
    is the same but for the alert, and no call is started.  So the status,
    the requests sent, the texts, the images and the history are as they
    were.  In both scripts. *)
Theorem zero_image_validation :
  (forall a : Basic.App,
      Basic.isRecognizing (Basic.page a) = false ->
      Basic.currentImages (Basic.page a) = [] ->
      exists a', Basic.step a Click_recognize = Some a'
        /\ Basic.page a'
           = Basic.set_alerts (Basic.alerts (Basic.page a) ++ [lit "Please add images."])
                              (Basic.page a)
        /\ Basic.run a' = Basic.run a
        /\ Basic.status_indicator (Basic.page a') = Basic.status_indicator (Basic.page a)
        /\ Basic.requests (Basic.page a') = Basic.requests (Basic.page a)
        /\ Basic.isRecognizing (Basic.page a') = false)
  /\ (forall a : Panel.App,
      Panel.isRecognizing (Panel.page a) = false ->
      Panel.currentImages (Panel.page a) = [] ->
      exists a', Panel.step a Click_recognize = Some a'
        /\ Panel.page a'
           = Panel.set_alerts (Panel.alerts (Panel.page a) ++ [lit "Please add images."])
                              (Panel.page a)
        /\ Panel.run a' = Panel.run a
        /\ Panel.status_indicator (Panel.page a') = Panel.status_indicator (Panel.page a)
        /\ Panel.requests (Panel.page a') = Panel.requests (Panel.page a)
        /\ Panel.isRecognizing (Panel.page a') = false).
Proof.
  split; intros a Hrec Him.
  - rewrite (basic_no_images_step a Hrec Him). eexists. split; [reflexivity|].
    cbn [Basic.page Basic.run]. destruct (Basic.page a). cbn in *. now subst.
  - rewrite (panel_no_images_step a Hrec Him). eexists. split; [reflexivity|].
    cbn [Panel.page Panel.run]. destruct (Panel.page a). cbn in *. now subst.
Qed.

Lemma zero_image_validation_witness :
  Panel.isRecognizing (panel_page [] []) = false
  /\ Panel.currentImages (panel_page [] []) = []
  /\ exists a', Panel.step (Panel.mkApp (panel_page [] []) None) Click_recognize = Some a'
       /\ Panel.alerts (Panel.page a') = [lit "Please add images."]
       /\ Panel.run a' = None.
Proof.
  split; [reflexivity|split; [reflexivity|]].
  destruct (proj2 zero_image_validation (Panel.mkApp (panel_page [] []) None)
              eq_refl eq_refl) as (a' & Hs & Hp & Hr & _).
  exists a'. split; [exact Hs|]. split; [now rewrite Hp|exact Hr].
Defined.

(** ** The end of a call *)

(** C10. Empty-result stream end.  When the stream ends and [fullText] is
    still empty, the call ends without the Done status and without a history
    entry: the end of the stream leaves the status indicator, the history
    and the timers as they are, the button is Start again and no call is
    running.  On a page where only the events of the model happened since
    it was idle, the status indicator therefore still shows Processing, as
    [toggleRecognize] set it before the request.  In both scripts; the one
    with the boxes also leaves the box status indicators as they were. *)
Theorem empty_result_stream_end :
  (forall (a : Basic.App) r d b now time,
      Basic.run a = Some r -> Basic.at_await r = AwaitRead d b ->
      fullText (Basic.locals r) = [] ->
      exists a', Basic.step a (Read_done now time) = Some a'
        /\ Basic.status_indicator (Basic.page a') = Basic.status_indicator (Basic.page a)
        /\ Basic.sessionHistory (Basic.page a') = Basic.sessionHistory (Basic.page a)
        /\ Basic.timers (Basic.page a') = Basic.timers (Basic.page a)
        /\ Basic.isRecognizing (Basic.page a') = false
        /\ Basic.btn_recognize (Basic.page a') = mkButton (lit "Start") false
        /\ Basic.run a' = None)
  /\ (forall (a : Panel.App) r d b now time,
      Panel.run a = Some r -> Panel.at_await r = AwaitRead d b ->
      fullText (Panel.locals r) = [] ->
      exists a', Panel.step a (Read_done now time) = Some a'
        /\ Panel.status_indicator (Panel.page a') = Panel.status_indicator (Panel.page a)
        /\ Panel.sessionHistory (Panel.page a') = Panel.sessionHistory (Panel.page a)
        /\ Panel.timers (Panel.page a') = Panel.timers (Panel.page a)
        /\ Panel.reasoning_status (Panel.page a') = Panel.reasoning_status (Panel.page a)
        /\ Panel.output_status (Panel.page a') = Panel.output_status (Panel.page a)
        /\ Panel.isRecognizing (Panel.page a') = false
        /\ Panel.btn_recognize (Panel.page a') = mkButton (lit "Start") false
        /\ Panel.run a' = None)
  /\ (forall (p0 : Basic.Page) (es : list event) (a a' : Basic.App) r d b now time,
      Basic.isRecognizing p0 = false ->
      Basic.exec (Basic.mkApp p0 None) es = Some a ->
      Basic.run a = Some r -> Basic.at_await r = AwaitRead d b ->
      fullText (Basic.locals r) = [] ->
      Basic.step a (Read_done now time) = Some a' ->
      Basic.status_indicator (Basic.page a') = Processing)
  /\ (forall (p0 : Panel.Page) (es : list event) (a a' : Panel.App) r d b now time,
      Panel.isRecognizing p0 = false ->
      Panel.exec (Panel.mkApp p0 None) es = Some a ->
      Panel.run a = Some r -> Panel.at_await r = AwaitRead d b ->
      fullText (Panel.locals r) = [] ->
      Panel.step a (Read_done now time) = Some a' ->
      Panel.status_indicator (Panel.page a') = Processing).
Proof.
  assert (HB : forall (a : Basic.App) r d b now time,
      Basic.run a = Some r -> Basic.at_await r = AwaitRead d b ->
      fullText (Basic.locals r) = [] ->
      Basic.step a (Read_done now time)
      = Some (Basic.mkApp (Basic.finally_block (Basic.page a)) None)).
  { intros a r d b now time Hr Ha Hft.
    now rewrite (basic_done_step a r d b now time Hr Ha), basic_after_loop_empty. }
  assert (HP : forall (a : Panel.App) r d b now time,
      Panel.run a = Some r -> Panel.at_await r = AwaitRead d b ->
      fullText (Panel.locals r) = [] ->
      Panel.step a (Read_done now time)
      = Some (Panel.mkApp (Panel.finally_block (Panel.page a)) None)).
  { intros a r d b now time Hr Ha Hft.
    now rewrite (panel_done_step a r d b now time Hr Ha), panel_after_loop_empty. }
  split; [|split; [|split]].
  - intros a r d b now time Hr Ha Hft. rewrite (HB a r d b now time Hr Ha Hft).
    eexists. split; [reflexivity|]. cbn [Basic.page Basic.run].
    destruct (basic_finally_frame (Basic.page a)) as (-> & -> & _ & -> & _ & _ & -> & ->).
    repeat split.
  - intros a r d b now time Hr Ha Hft. rewrite (HP a r d b now time Hr Ha Hft).
    eexists. split; [reflexivity|]. cbn [Panel.page Panel.run].
    destruct (panel_finally_frame (Panel.page a)) as (-> & -> & _ & -> & _ & _ & -> & ->).
    repeat split; now destruct (Panel.page a).
  - intros p0 es a a' r d b now time Hidle Hex Hr Ha Hft Hstep.
    rewrite (HB a r d b now time Hr Ha Hft) in Hstep. injection Hstep as <-.
    cbn [Basic.page].
    destruct (basic_finally_frame (Basic.page a)) as (_ & -> & _).
    assert (Hinv : BasicSpec.run_inv a).
    { apply basic_reachable_inv. eapply basic_exec_reachable; [|exact Hex].
      now apply BasicSpec.reach_idle. }
    unfold BasicSpec.run_inv in Hinv. rewrite Hr in Hinv. apply Hinv.
  - intros p0 es a a' r d b now time Hidle Hex Hr Ha Hft Hstep.
    rewrite (HP a r d b now time Hr Ha Hft) in Hstep. injection Hstep as <-.
    cbn [Panel.page].
    destruct (panel_finally_frame (Panel.page a)) as (_ & -> & _).
    assert (Hinv : PanelSpec.run_inv a).
    { apply panel_reachable_inv. eapply panel_exec_reachable; [|exact Hex].
      now apply PanelSpec.reach_idle. }
    unfold PanelSpec.run_inv in Hinv. rewrite Hr in Hinv. apply Hinv.
Qed.

Lemma empty_result_stream_end_witness :
  exists a a',
    Panel.exec (Panel.mkApp (panel_page [an_image] []) None) no_content_events = Some a
    /\ Panel.step a (Read_done 1700000000000 (lit "10:00:00")) = Some a'
    /\ Panel.status_indicator (Panel.page a') = Processing
    /\ Panel.sessionHistory (Panel.page a') = []
    /\ Panel.btn_recognize (Panel.page a') = mkButton (lit "Start") false
    /\ Panel.run a' = None.
Proof.
  destruct (proj1 (proj2 empty_result_stream_end)
              (panel_after (Panel.mkApp (panel_page [an_image] []) None) no_content_events)
              _ _ _ 1700000000000 (lit "10:00:00") eq_refl eq_refl eq_refl)
    as (a' & Hs & _ & Hh & _ & _ & _ & _ & Hb & Hr).
  eexists. exists a'. split; [reflexivity|]. split; [exact Hs|].
  split; [|split; [exact Hh|split; [exact Hb|exact Hr]]].
  exact (proj2 (proj2 (proj2 empty_result_stream_end))
           (panel_page [an_image] []) no_content_events _ a' _ _ _
           1700000000000 (lit "10:00:00") eq_refl eq_refl eq_refl eq_refl eq_refl Hs).
Defined.

(** C5, as the code has it.  When the stream ends and the final text is not
    empty, one entry [{id, time, text}] with that text is put at the front
    of [sessionHistory] ([unshift]); the entries that were there follow it
    unchanged, each one position later.  In both scripts. *)
Theorem history_insert_at_front :
  (forall (a : Basic.App) r d b now time,
      Basic.run a = Some r -> Basic.at_await r = AwaitRead d b ->
      nonempty (strip_markers (fullText (Basic.locals r))) = true ->
      exists a', Basic.step a (Read_done now time) = Some a'
        /\ Basic.sessionHistory (Basic.page a')
           = mkHistoryItem now time (strip_markers (fullText (Basic.locals r)))
             :: Basic.sessionHistory (Basic.page a)
        /\ forall i, nth_error (Basic.sessionHistory (Basic.page a')) (S i)
                     = nth_error (Basic.sessionHistory (Basic.page a)) i)
  /\ (forall (a : Panel.App) r d b now time,
      Panel.run a = Some r -> Panel.at_await r = AwaitRead d b ->
      nonempty (strip_markers (fullText (Panel.locals r))) = true ->
      exists a', Panel.step a (Read_done now time) = Some a'
        /\ Panel.sessionHistory (Panel.page a')
           = mkHistoryItem now time (strip_markers (fullText (Panel.locals r)))
             :: Panel.sessionHistory (Panel.page a)
        /\ forall i, nth_error (Panel.sessionHistory (Panel.page a')) (S i)
                     = nth_error (Panel.sessionHistory (Panel.page a)) i).
Proof.
  split; intros a r d b now time Hr Ha Hne.
  - rewrite (basic_done_step a r d b now time Hr Ha).
    eexists. split; [reflexivity|]. cbn [Basic.page].
    destruct (basic_finally_frame (Basic.after_loop now time r (Basic.page a))) as (-> & _).
    destruct (basic_after_loop_history now time r (Basic.page a) Hne) as (-> & _).
    split; reflexivity.
  - rewrite (panel_done_step a r d b now time Hr Ha).
    eexists. split; [reflexivity|]. cbn [Panel.page].
    destruct (panel_finally_frame (Panel.after_loop now time r (Panel.page a))) as (-> & _).
    destruct (panel_after_loop_history now time r (Panel.page a) Hne) as (-> & _).
    split; reflexivity.
Qed.

Lemma history_insert_at_front_witness :
  exists a',
    Panel.step panel_hello_read (Read_done 1700000000000 (lit "10:00:00")) = Some a'
    /\ Panel.sessionHistory (Panel.page a') = [hello_item; earlier_item].
Proof.
  destruct (proj2 history_insert_at_front panel_hello_read
              _ _ _ 1700000000000 (lit "10:00:00") eq_refl eq_refl eq_refl)
    as (a' & Hs & Hh & _).
  exists a'. split; [exact Hs|exact Hh].
Defined.

(** The claim C5 has the new entry at the end of the list and the earlier
    entries at their positions: here the new entry is first and the earlier
    one has moved from position 0 to position 1. *)
Lemma history_append_counterexample :
  option_map (fun a => Basic.sessionHistory (Basic.page a))
    (Basic.exec (Basic.mkApp (basic_page [an_image] [earlier_item]) None)
                (hello_events ++ [Read_done 1700000000000 (lit "10:00:00")]))
  = Some [hello_item; earlier_item]
  /\ option_map (fun a => Panel.sessionHistory (Panel.page a))
    (Panel.exec (Panel.mkApp (panel_page [an_image] [earlier_item]) None)
                (hello_events ++ [Read_done 1700000000000 (lit "10:00:00")]))
  = Some [hello_item; earlier_item]
  /\ nth_error [hello_item; earlier_item] 0 = Some hello_item
  /\ nth_error [hello_item; earlier_item] 1 = Some earlier_item.
Proof. repeat split. Qed.

(** ** Cancelling *)

(** C6, as the code has it.  A click on the button while the call waits for
    the response or for a chunk ends the call with the status text Stopped,
    set with the class [error], and without any error message: nothing is
    logged, nothing is alerted; the call is over and the button is Start
    again.  The same holds when the awaited promise is rejected with any
    error named AbortError.  The script with the boxes sets both box status
    indicators back to the plain [box-status]. *)
Theorem cancellation_outcome :
  (forall (a : Basic.App) r,
      Basic.isRecognizing (Basic.page a) = true -> Basic.run a = Some r ->
      (Basic.at_await r = AwaitFetch \/ exists d b, Basic.at_await r = AwaitRead d b) ->
      exists a', Basic.step a Click_recognize = Some a'
        /\ Basic.status_indicator (Basic.page a') = Stopped
        /\ Basic.console (Basic.page a') = Basic.console (Basic.page a)
        /\ Basic.alerts (Basic.page a') = Basic.alerts (Basic.page a)
        /\ Basic.isRecognizing (Basic.page a') = false
        /\ Basic.btn_recognize (Basic.page a') = mkButton (lit "Start") false
        /\ Basic.run a' = None)
  /\ (forall (a : Panel.App) r,
      Panel.isRecognizing (Panel.page a) = true -> Panel.run a = Some r ->
      (Panel.at_await r = AwaitFetch \/ exists d b, Panel.at_await r = AwaitRead d b) ->
      exists a', Panel.step a Click_recognize = Some a'
        /\ Panel.status_indicator (Panel.page a') = Stopped
        /\ Panel.console (Panel.page a') = Panel.console (Panel.page a)
        /\ Panel.alerts (Panel.page a') = Panel.alerts (Panel.page a)
        /\ Panel.reasoning_status (Panel.page a') = lit "box-status"
        /\ Panel.output_status (Panel.page a') = lit "box-status"
        /\ Panel.isRecognizing (Panel.page a') = false
        /\ Panel.btn_recognize (Panel.page a') = mkButton (lit "Start") false
        /\ Panel.run a' = None)
  /\ (forall (err : JSError) (p : Basic.Page),
      err_name err = lit "AbortError" ->
      Basic.status_indicator (Basic.page (Basic.throw err p)) = Stopped
      /\ Basic.console (Basic.page (Basic.throw err p)) = Basic.console p
      /\ Basic.run (Basic.throw err p) = None)
  /\ (forall (err : JSError) (p : Panel.Page),
      err_name err = lit "AbortError" ->
      Panel.status_indicator (Panel.page (Panel.throw err p)) = Stopped
      /\ Panel.console (Panel.page (Panel.throw err p)) = Panel.console p
      /\ Panel.run (Panel.throw err p) = None).
Proof.
  split; [|split; [|split]].
  - intros a r Hrec Hr Ha. rewrite (basic_cancel_step a r Hrec Hr Ha).
    eexists. split; [reflexivity|]. destruct (Basic.page a). repeat split.
  - intros a r Hrec Hr Ha. rewrite (panel_cancel_step a r Hrec Hr Ha).
    eexists. split; [reflexivity|]. destruct (Panel.page a). repeat split.
  - intros err p He. unfold Basic.throw, Basic.catch_block. rewrite He.
    destruct p. repeat split.
  - intros err p He. unfold Panel.throw, Panel.catch_block. rewrite He.
    destruct p. repeat split.
Qed.

Lemma cancellation_outcome_witness :
  Basic.exec (Basic.mkApp (basic_page [an_image] []) None)
             [Click_recognize; Fetch_resolved 200] = Some basic_reading
  /\ exists a', Basic.step basic_reading Click_recognize = Some a'
       /\ Basic.status_indicator (Basic.page a') = Stopped
       /\ Basic.run a' = None.
Proof.
  split; [reflexivity|].
  destruct (proj1 cancellation_outcome basic_reading _ eq_refl eq_refl
              (or_intror (ex_intro _ _ (ex_intro _ _ eq_refl))))
    as (a' & Hs & Hst & _ & _ & _ & _ & Hr).
  exists a'. split; [exact Hs|]. split; [exact Hst|exact Hr].
Defined.

(** The claim C6 has every cancelled call end in Stopped, never in Error.
    Here the response is not ok and the click comes while its body is being
    read: the rejection of [response.json()] is caught by its own [catch],
    the Error for the status is thrown, and the call ends with the error
    message.  And a call cancelled while it waits for the response ends with
    the class [error] on the status. *)
Lemma cancellation_counterexample :
  option_map (fun a => Basic.status_indicator (Basic.page a))
    (Basic.exec (Basic.mkApp (basic_page [an_image] []) None)
                [Click_recognize; Fetch_resolved 500; Click_recognize])
  = Some (mkStatus (lit "Error: HTTP 500") (lit "error"))
  /\ option_map (fun a => Panel.status_indicator (Panel.page a))
    (Panel.exec (Panel.mkApp (panel_page [an_image] []) None)
                [Click_recognize; Fetch_resolved 500; Click_recognize])
  = Some (mkStatus (lit "Error: HTTP 500") (lit "error"))
  /\ option_map (fun a => className (Basic.status_indicator (Basic.page a)))
    (Basic.exec (Basic.mkApp (basic_page [an_image] []) None)
                [Click_recognize; Click_recognize])
  = Some (lit "error").
Proof. repeat split. Qed.

(** ** Lines that contribute nothing *)

(** C4, as the code has it.  A blank line and the line [data: [DONE]] leave
    the loop state as it is: nothing is added to [fullText] or
    [reasoningText], nothing changes on the page.  The loop goes on ([continue]):
    the lines after such a line are handled as if it were not there.  In
    both scripts. *)
Theorem ignored_lines (line : jsstring) :
  trim line = [] \/ trim line = lit "data: [DONE]" ->
  (forall st, Basic.process_line st line = st)
  /\ (forall l1 l2 st,
        fold_left Basic.process_line (l1 ++ line :: l2) st
        = fold_left Basic.process_line (l1 ++ l2) st)
  /\ (forall st, Panel.process_line st line = st)
  /\ (forall l1 l2 st,
        fold_left Panel.process_line (l1 ++ line :: l2) st
        = fold_left Panel.process_line (l1 ++ l2) st).
Proof.
  intros H. repeat split; intros.
  - now apply basic_process_ignored.
  - rewrite !fold_left_app. cbn [fold_left]. now rewrite basic_process_ignored.
  - now apply panel_process_ignored.
  - rewrite !fold_left_app. cbn [fold_left]. now rewrite panel_process_ignored.
Qed.

Lemma ignored_lines_witness :
  trim (lit "  data: [DONE] ") = lit "data: [DONE]"
  /\ fullText (fst (fold_left Panel.process_line
                      [lit "  data: [DONE] "; one_delta]
                      (mkLocals [] [], panel_page [an_image] [])))
     = lit "late".
Proof.
  split; [reflexivity|].
  rewrite (proj2 (proj2 (proj2 (ignored_lines (lit "  data: [DONE] ") (or_intror eq_refl))))
             [] [one_delta]).
  reflexivity.
Defined.

Lemma sentinel_counterexample :
  option_map (fun a => Basic.result_display (Basic.page a))
    (Basic.exec (Basic.mkApp (basic_page [an_image] []) None) after_sentinel_events)
  = Some (lit "late")
  /\ option_map (fun a => Panel.result_display (Panel.page a))
    (Panel.exec (Panel.mkApp (panel_page [an_image] []) None) after_sentinel_events)
  = Some (lit "late")
  /\ option_map (fun a => map h_text (Panel.sessionHistory (Panel.page a)))
    (Panel.exec (Panel.mkApp (panel_page [an_image] []) None) after_sentinel_events)
  = Some [lit "late"].
Proof. repeat split. Qed.

(** C8. Per-line parse-error recovery.  A line with the prefix whose
    payload [JSON.parse] rejects adds nothing to [fullText] or
    [reasoningText] and changes nothing on the page but the console: no
    alert, the status as it was.  The loop goes on: what the user can see
    after all the lines is what it would be without that line.  In both
    scripts. *)
Theorem parse_error_recovery (line : jsstring) :
  startsWith (trim line) (lit "data: ") = true ->
  JSON_parse (slice_from 6 (trim line)) = None ->
  (forall st,
      fst (Basic.process_line st line) = fst st
      /\ basic_mute (Basic.process_line st line) = basic_mute st
      /\ Basic.alerts (snd (Basic.process_line st line)) = Basic.alerts (snd st)
      /\ Basic.status_indicator (snd (Basic.process_line st line))
         = Basic.status_indicator (snd st))
  /\ (forall l1 l2 st,
        basic_mute (fold_left Basic.process_line (l1 ++ line :: l2) st)
        = basic_mute (fold_left Basic.process_line (l1 ++ l2) st))
  /\ (forall st,
      fst (Panel.process_line st line) = fst st
      /\ panel_mute (Panel.process_line st line) = panel_mute st
      /\ Panel.alerts (snd (Panel.process_line st line)) = Panel.alerts (snd st)
      /\ Panel.status_indicator (snd (Panel.process_line st line))
         = Panel.status_indicator (snd st))
  /\ (forall l1 l2 st,
        panel_mute (fold_left Panel.process_line (l1 ++ line :: l2) st)
        = panel_mute (fold_left Panel.process_line (l1 ++ l2) st)).
Proof.
  intros Hs Hp. split; [|split; [|split]].
  - intros st. rewrite (basic_process_malformed st line Hs Hp).
    destruct (str_eqb _ _), st as [l []]; repeat split.
  - intros l1 l2 st. apply basic_skip_line. intros s.
    rewrite (basic_process_malformed s line Hs Hp). destruct (str_eqb _ _); auto.
  - intros st. rewrite (panel_process_malformed st line Hs Hp).
    destruct (str_eqb _ _), st as [l []]; repeat split.
  - intros l1 l2 st. apply panel_skip_line. intros s.
    rewrite (panel_process_malformed s line Hs Hp). destruct (str_eqb _ _); auto.
Qed.

Lemma parse_error_recovery_witness :
  startsWith (trim broken_line) (lit "data: ") = true
  /\ JSON_parse (slice_from 6 (trim broken_line)) = None
  /\ fullText (fst (panel_mute
        (fold_left Panel.process_line [broken_line; one_delta]
                   (mkLocals [] [], panel_page [an_image] []))))
     = lit "late".
Proof.
  split; [reflexivity|]. split; [reflexivity|].
  rewrite (proj2 (proj2 (proj2 (parse_error_recovery broken_line eq_refl eq_refl)))
             [] [one_delta]).
  reflexivity.
Defined.

(** ** Dispatch on the two schemas *)



(** C3 fails in the basic script.  Its [try] block knows the choices shape
    only, and appends [delta.reasoning] only inside [if (content)]: a
    reasoning fragment with empty content is dropped, and a tagged payload
    throws at [json.choices[0]], is logged as a parse error and dropped.
    The script with the boxes appends both. *)
Theorem basic_reasoning_needs_content (l : Locals) (p : Basic.Page) (q : Panel.Page) :
  fst (Basic.process_line (l, p) reasoning_only_line) = l
  /\ fst (Basic.process_line (l, p) tagged_line) = l
  /\ Basic.console (snd (Basic.process_line (l, p) tagged_line))
     = Basic.console p ++ [lit "Parse error"]
  /\ fst (Panel.process_line (l, q) reasoning_only_line)
     = mkLocals (fullText l) (reasoningText l ++ lit "think")
  /\ fst (Panel.process_line (l, q) tagged_line)
     = mkLocals (fullText l) (reasoningText l ++ lit "think").
Proof.
  destruct l as [ft rt]. repeat split.
Qed.

(** ** The two boxes *)

(** C2. Panel exclusivity (the script with the boxes).  From a page with
    no call running, after any events: once a chunk has brought a reasoning
    delta, exactly one of the reasoning box and the output box is expanded,
    after that chunk and after every later event.  Every operation on the
    boxes keeps it so: a click on a box header leaves exactly one box
    expanded whatever the boxes were, and showing reasoning content, hiding
    it, the delayed switch at the end of the stream and the start of a call
    collapse one box when they expand the other. *)
Theorem panel_exclusivity :
  (forall (p0 : Panel.Page) (earlier later : list event) (chunk : list byte)
          (a1 a2 a3 : Panel.App),
      Panel.isRecognizing p0 = false ->
      Panel.exec (Panel.mkApp p0 None) earlier = Some a1 ->
      Panel.step a1 (Read_chunk chunk) = Some a2 ->
      panel_reasoning_of a2 <> panel_reasoning_of a1 ->
      Panel.exec a2 later = Some a3 ->
      exclusive (Panel.page a3))
  /\ (forall boxType p, exclusive (Panel.toggleBox boxType p))
  /\ (forall content p, exclusive p -> exclusive (Panel.showReasoningContent content p))
  /\ (forall content p,
        nonempty content && nonempty (trim content) = true ->
        exclusive (Panel.showReasoningContent content p))
  /\ (forall p, exclusive p -> exclusive (Panel.hideReasoningContent p))
  /\ (forall p, exclusive p -> exclusive (Panel.auto_switch p))
  /\ (forall p, exclusive (Panel.page (Panel.start p))).
Proof.
  split; [|split; [|split; [|split; [|split; [|split]]]]].
  - intros p0 earlier later chunk a1 a2 a3 Hidle He1 Hstep _ He2.
    apply (panel_exec_exclusive later a2 a3); [|exact He2].
    apply (panel_step_exclusive a1 a2 (Read_chunk chunk)); [|exact Hstep].
    assert (Hreach : PanelSpec.reachable a1)
      by (eapply panel_exec_reachable; [apply PanelSpec.reach_idle|]; eassumption).
    cbn [Panel.step] in Hstep.
    destruct (Panel.run a1) as [r|] eqn:Hr; [|discriminate Hstep].
    exact (panel_running_exclusive a1 r Hreach Hr).
  - exact panel_toggleBox_exclusive.
  - exact panel_show_exclusive.
  - exact panel_show_visible_exclusive.
  - exact panel_hide_exclusive.
  - exact panel_auto_switch_exclusive.
  - exact panel_start_exclusive.
Qed.

Lemma panel_exclusivity_witness :
  Panel.exec (Panel.mkApp both_expanded None)
             [Click_box (lit "output"); Click_recognize; Fetch_resolved 200]
  = Some exclusivity_a1
  /\ Panel.step exclusivity_a1 (Read_chunk reasoning_blank_chunk) = Some exclusivity_a2
  /\ panel_reasoning_of exclusivity_a1 = []
  /\ panel_reasoning_of exclusivity_a2 = lit " "
  /\ Panel.exec exclusivity_a2 exclusivity_events = Some exclusivity_a3
  /\ exclusive (Panel.page exclusivity_a3).
Proof.
  assert (H1 : Panel.exec (Panel.mkApp both_expanded None)
                 [Click_box (lit "output"); Click_recognize; Fetch_resolved 200]
               = Some exclusivity_a1) by (vm_compute; reflexivity).
  assert (H2 : Panel.step exclusivity_a1 (Read_chunk reasoning_blank_chunk)
               = Some exclusivity_a2) by (vm_compute; reflexivity).
  assert (H3 : Panel.exec exclusivity_a2 exclusivity_events = Some exclusivity_a3)
    by (vm_compute; reflexivity).
  assert (H4 : panel_reasoning_of exclusivity_a2 <> panel_reasoning_of exclusivity_a1)
    by (vm_compute; discriminate).
  split; [exact H1|]. split; [exact H2|].
  split; [vm_compute; reflexivity|]. split; [vm_compute; reflexivity|].
  split; [exact H3|].
  exact (proj1 panel_exclusivity both_expanded _ _ _ _ _ _ eq_refl H1 H2 H4 H3).
Defined.

(* ================================================================== *)
(** * Further facts about the platform functions                       *)
(* ================================================================== *)

Section TrimFacts.

Lemma trimStart_whitespace (pre s : jsstring) :
  whitespace pre -> trimStart (pre ++ s) = trimStart s.
Proof.
  unfold whitespace. induction pre as [|c pre IH]; simpl; [reflexivity|].
  intros H. apply andb_true_iff in H. destruct H as [-> H]. now apply IH.
Qed.

Lemma trimStart_all_whitespace (s : jsstring) : whitespace s -> trimStart s = [].
Proof.
  intros H. rewrite <- (app_nil_r s). now rewrite trimStart_whitespace.
Qed.

Lemma trimStart_app_whitespace (s suf : jsstring) :
  whitespace suf ->
  trimStart (s ++ suf) = trimStart s ++ suf
  \/ (trimStart (s ++ suf) = [] /\ trimStart s = []).
Proof.
  intros H. induction s as [|c s IH]; simpl.
  - right. split; [now apply trimStart_all_whitespace|reflexivity].
  - destruct (is_trim_unit c); [exact IH|now left].
Qed.

Lemma whitespace_rev (s : jsstring) : whitespace s -> whitespace (rev s).
Proof.
  unfold whitespace. rewrite !forallb_forall. intros H x Hx.
  apply H. now apply in_rev.
Qed.

Lemma trimEnd_whitespace (s suf : jsstring) :
  whitespace suf -> trimEnd (s ++ suf) = trimEnd s.
Proof.
  intros H. unfold trimEnd. rewrite rev_app_distr.
  now rewrite trimStart_whitespace by now apply whitespace_rev.
Qed.

Lemma trim_whitespace (pre s suf : jsstring) :
  whitespace pre -> whitespace suf -> trim (pre ++ s ++ suf) = trim s.
Proof.
  intros Hp Hs. unfold trim. rewrite trimStart_whitespace by exact Hp.
  destruct (trimStart_app_whitespace s suf Hs) as [-> | [-> ->]].
  - now apply trimEnd_whitespace.
  - reflexivity.
Qed.

End TrimFacts.

Section LineFeedFacts.

Lemma split_nl_single (s : jsstring) : split_nl s = [s] <-> ~ In 10 s.
Proof.
  induction s as [|c s IH]; simpl.
  - split; [intros _ []|reflexivity].
  - destruct (Z.eqb_spec c 10) as [->|Hc].
    + split; [discriminate|]. intros H. exfalso. apply H. now left.
    + destruct (split_nl s) as [|l ls] eqn:E.
      * exfalso. now apply (split_nl_nonempty s).
      * split.
        -- intros H. injection H as -> ->.
           intros [H|H]; [congruence|]. now apply IH.
        -- intros H. assert (Hs : ~ In 10 s) by (intros Hin; apply H; now right).
           apply IH in Hs. now injection Hs as -> ->.
Qed.

Lemma split_nl_app_single (b t : jsstring) :
  split_nl b = [b] -> ~ In 10 t -> split_nl (b ++ t) = [b ++ t].
Proof.
  intros Hb Ht. apply split_nl_single. apply split_nl_single in Hb.
  intros H. apply in_app_or in H. tauto.
Qed.

Lemma land_63 (b : Z) : Z.land b 63 = b mod 64.
Proof. change 63 with (Z.ones 6). now rewrite Z.land_ones by lia. Qed.

Lemma lor_shiftl_6 (c x : Z) :
  0 <= x < 64 -> Z.lor (Z.shiftl c 6) x = c * 64 + x.
Proof.
  intros Hx.
  assert (H0 : Z.land (Z.shiftl c 6) x = 0).
  { apply Z.bits_inj'. intros n Hn. rewrite Z.land_spec, Z.bits_0.
    destruct (Z.ltb_spec n 6).
    - now rewrite Z.shiftl_spec_low.
    - rewrite andb_comm.
      replace x with (x mod 2 ^ 6) by (apply Z.mod_small; lia).
      now rewrite Z.mod_pow2_bits_high by lia. }
  pose proof (Z.add_lor_land (Z.shiftl c 6) x) as H.
  rewrite H0 in H. rewrite Z.shiftl_mul_pow2 in * by lia.
  change (2 ^ 6) with 64 in *. lia.
Qed.

Lemma byte_range (b : byte) : 0 <= Z.of_N (Byte.to_N b) <= 255.
Proof.
  pose proof (Byte.to_N_bounded b) as H. lia.
Qed.

Lemma byte_not_line_feed (b : byte) :
  negb (Byte.eqb b x0a) = true -> Z.of_N (Byte.to_N b) <> 10.
Proof.
  intros H E. destruct b; try discriminate H; discriminate E.
Qed.

End LineFeedFacts.

Section DecoderLineFeed.

Ltac by_division := Z.div_mod_to_equations; lia.

Lemma utf8_init_wf : utf8_wf utf8_init.
Proof. now left. Qed.

Lemma utf8_first_wf (b : Z) : 0 <= b <= 255 -> utf8_wf (fst (utf8_first b)).
Proof.
  intros Hb. unfold utf8_first.
  destruct (Z.leb_spec b 127); [apply utf8_init_wf|].
  destruct (Z.leb_spec 194 b), (Z.leb_spec b 223); cbn [andb];
    try (right; left; cbn [fst u_cp]; change 31 with (Z.ones 5);
         rewrite Z.land_ones by lia; change (2 ^ 5) with 32; by_division).
  all: destruct (Z.leb_spec 224 b), (Z.leb_spec b 239); cbn [andb];
    try (destruct (Z.eqb_spec b 224) as [->|Hne];
         [right; right; cbn; lia
         |right; left; cbn [fst u_cp]; change 15 with (Z.ones 4);
          rewrite Z.land_ones by lia; change (2 ^ 4) with 16; by_division]).
  all: destruct (Z.leb_spec 240 b), (Z.leb_spec b 244); cbn [andb];
    try apply utf8_init_wf;
    try (destruct (Z.eqb_spec b 240) as [->|Hne];
         [right; right; cbn; lia
         |right; left; cbn [fst u_cp]; change 7 with (Z.ones 3);
          rewrite Z.land_ones by lia; change (2 ^ 3) with 8; by_division]).
Qed.

Lemma utf8_first_out (b : Z) : b <> 10 -> ~ In 10 (snd (utf8_first b)).
Proof.
  intros Hb. unfold utf8_first.
  repeat match goal with
         | |- context [if ?c then _ else _] => destruct c
         end; cbn; intuition congruence.
Qed.

Lemma utf8_continue (st : utf8_state) (b : Z) :
  0 <= b <= 255 -> utf8_wf st -> u_needed st <> 0 ->
  u_lower st <= b <= u_upper st ->
  16 <= Z.lor (Z.shiftl (u_cp st) 6) (Z.land b 63).
Proof.
  intros Hb Hwf Hn Hr. rewrite land_63, lor_shiftl_6 by by_division.
  destruct Hwf as [H|[H|(H0 & Hl & Hu)]]; [contradiction|by_division|].
  rewrite H0. by_division.
Qed.

Lemma utf8_step_wf (st : utf8_state) (b : Z) :
  0 <= b <= 255 -> utf8_wf st -> utf8_wf (fst (utf8_step st b)).
Proof.
  intros Hb Hwf. unfold utf8_step.
  destruct (Z.eqb_spec (u_needed st) 0) as [Hn|Hn]; [now apply utf8_first_wf|].
  destruct (Z.leb_spec (u_lower st) b), (Z.leb_spec b (u_upper st)); cbn [andb negb];
    try (pose proof (utf8_first_wf b Hb); now destruct (utf8_first b)).
  destruct (_ =? _); [apply utf8_init_wf|].
  right; left. cbn [fst u_cp].
  pose proof (utf8_continue st b Hb Hwf Hn). lia.
Qed.

Lemma utf8_step_out (st : utf8_state) (b : Z) :
  0 <= b <= 255 -> b <> 10 -> utf8_wf st -> ~ In 10 (snd (utf8_step st b)).
Proof.
  intros Hb Hne Hwf. unfold utf8_step.
  destruct (Z.eqb_spec (u_needed st) 0) as [Hn|Hn]; [now apply utf8_first_out|].
  destruct (Z.leb_spec (u_lower st) b), (Z.leb_spec b (u_upper st)); cbn [andb negb];
    try (pose proof (utf8_first_out b Hne); destruct (utf8_first b);
         cbn in *; intuition congruence).
  pose proof (utf8_continue st b Hb Hwf Hn).
  destruct (_ =? _); cbn [snd In]; [|tauto]. intros [E|[]]. lia.
Qed.

Lemma utf8_run_wf (bs : list byte) (st : utf8_state) :
  utf8_wf st -> utf8_wf (fst (utf8_run st bs)).
Proof.
  revert st. induction bs as [|b bs IH]; intros st Hwf; [exact Hwf|].
  cbn [utf8_run].
  pose proof (utf8_step_wf st _ (byte_range b) Hwf) as H1.
  destruct (utf8_step st _) as [st1 o1]. specialize (IH st1 H1).
  now destruct (utf8_run st1 bs).
Qed.

Lemma utf8_run_out (bs : list byte) (st : utf8_state) :
  utf8_wf st -> no_line_feed bs -> ~ In 10 (snd (utf8_run st bs)).
Proof.
  unfold no_line_feed. revert st.
  induction bs as [|b bs IH]; intros st Hwf Hbs; [intros []|].
  cbn [utf8_run forallb] in *. apply andb_true_iff in Hbs. destruct Hbs as [Hb Hbs].
  pose proof (utf8_step_wf st _ (byte_range b) Hwf) as H1.
  pose proof (utf8_step_out st _ (byte_range b) (byte_not_line_feed b Hb) Hwf) as H2.
  destruct (utf8_step st _) as [st1 o1]. specialize (IH st1 H1 Hbs).
  destruct (utf8_run st1 bs) as [st2 o2]. cbn [fst snd] in *.
  intros H. apply in_app_or in H. tauto.
Qed.

Lemma utf16_out (cp : Z) : In 10 (utf16 cp) -> cp = 10.
Proof.
  unfold utf16. destruct (Z.ltb_spec cp 65536); cbn [In].
  - intuition congruence.
  - pose proof (Z.shiftr_nonneg (cp - 65536) 10).
    pose proof (Z.land_nonneg (cp - 65536) 1023). lia.
Qed.

Lemma strip_bom_out (seen : bool) (out : list Z) :
  ~ In 10 out -> ~ In 10 (snd (strip_bom seen out)).
Proof.
  unfold strip_bom. destruct seen; [auto|]. destruct out as [|c r]; [auto|].
  cbn [snd]. destruct (_ =? _); [|auto]. intros H Hin. apply H. now right.
Qed.

Lemma decode_wf (d : TextDecoder) (value : list byte) :
  utf8_wf (d_utf8 d) -> utf8_wf (d_utf8 (fst (decode d value))).
Proof.
  intros H. unfold decode. pose proof (utf8_run_wf value _ H).
  destruct (utf8_run _ _) as [st cps]. now destruct (strip_bom _ _).
Qed.

Lemma decode_out (d : TextDecoder) (value : list byte) :
  utf8_wf (d_utf8 d) -> no_line_feed value -> ~ In 10 (snd (decode d value)).
Proof.
  intros H Hv. unfold decode. pose proof (utf8_run_out value _ H Hv) as Ho.
  destruct (utf8_run _ _) as [st cps]. cbn [snd] in Ho.
  pose proof (strip_bom_out (d_bom_seen d) cps Ho) as Hs.
  destruct (strip_bom _ _) as [seen cps']. cbn [snd] in *.
  intros Hin. apply in_flat_map in Hin. destruct Hin as (cp & Hcp & Hin).
  apply utf16_out in Hin. now subst.
Qed.

End DecoderLineFeed.

Section TailFacts.
Variable St : Type.
Variable process_line : St -> jsstring -> St.

Lemma new_Reader_wf (s : St) : reader_wf (new_Reader s).
Proof. split; [reflexivity|apply utf8_init_wf]. Qed.

Lemma read_chunk_wf (r : Reader St) (value : list byte) :
  reader_wf r -> reader_wf (read_chunk process_line r value).
Proof.
  intros [_ H]. split; [apply read_chunk_clean|].
  unfold read_chunk. pose proof (decode_wf (decoder r) value H).
  now destruct (decode _ _).
Qed.

Lemma read_all_wf (chunks : list (list byte)) (r : Reader St) :
  reader_wf r -> reader_wf (read_all process_line chunks r).
Proof.
  revert r. induction chunks as [|c cs IH]; intros r H; [exact H|].
  apply IH. now apply read_chunk_wf.
Qed.

Lemma read_chunk_no_line_feed (r : Reader St) (value : list byte) :
  reader_wf r -> no_line_feed value ->
  acc (read_chunk process_line r value) = acc r.
Proof.
  intros [Hc Hw] Hv. unfold read_chunk.
  pose proof (decode_out (decoder r) value Hw Hv) as Ho.
  destruct (decode _ _) as [d text]. cbn [snd acc] in *.
  now rewrite (split_nl_app_single _ _ Hc Ho).
Qed.

Lemma read_all_snoc (chunks : list (list byte)) (value : list byte) (r : Reader St) :
  read_all process_line (chunks ++ [value]) r
  = read_chunk process_line (read_all process_line chunks r) value.
Proof. unfold read_all. now rewrite fold_left_app. Qed.

End TailFacts.

(* ================================================================== *)
(** * Further facts about the two scripts                              *)
(* ================================================================== *)

(** Goals that are equalities between projections of updated pages. *)
Ltac frame :=
  repeat first
    [ reflexivity
    | match goal with
      | |- context [if ?c then _ else _] => destruct c
      end ].

Section BasicFrames.
Import Basic BasicSpec.

Lemma basic_line_static (st : Locals * Page) (line : jsstring) :
  basic_static (snd (process_line st line)) = basic_static (snd st).
Proof.
  destruct (basic_process_line_uniform line) as [e He]. rewrite He.
  destruct st as [l p].
  destruct e; cbn [apply_effect append_content append_reasoning log_parse_error snd];
    unfold showReasoningContent, hideReasoningContent; frame.
Qed.

Lemma basic_lines_static (lines : list jsstring) (st : Locals * Page) :
  basic_static (snd (fold_left process_line lines st)) = basic_static (snd st).
Proof.
  revert st. induction lines as [|l ls IH]; intros st; [reflexivity|].
  cbn [fold_left]. now rewrite IH, basic_line_static.
Qed.

Lemma basic_chunk_static (value : list byte) (d : TextDecoder) (b : jsstring)
  (r : Run) (p : Page) :
  basic_static (page (on_chunk value d b r p)) = basic_static p.
Proof.
  unfold on_chunk. cbn [page].
  apply (read_chunk_preserves process_line
           (fun st => basic_static (snd st) = basic_static p)); [|reflexivity].
  intros s line H. now rewrite basic_line_static.
Qed.

End BasicFrames.

Section PanelFrames.
Import Panel PanelSpec.

Lemma panel_line_static (st : Locals * Page) (line : jsstring) :
  panel_static (snd (process_line st line)) = panel_static (snd st).
Proof.
  destruct (panel_process_line_uniform line) as [e He]. rewrite He.
  destruct st as [l p].
  destruct e; cbn [apply_effect append_content append_reasoning log_parse_error snd];
    unfold showReasoningContent, hideReasoningContent; frame.
Qed.

Lemma panel_lines_static (lines : list jsstring) (st : Locals * Page) :
  panel_static (snd (fold_left process_line lines st)) = panel_static (snd st).
Proof.
  revert st. induction lines as [|l ls IH]; intros st; [reflexivity|].
  cbn [fold_left]. now rewrite IH, panel_line_static.
Qed.

Lemma panel_chunk_static (value : list byte) (d : TextDecoder) (b : jsstring)
  (r : Run) (p : Page) :
  panel_static (page (on_chunk value d b r p)) = panel_static p.
Proof.
  unfold on_chunk. cbn [page].
  apply (read_chunk_preserves process_line
           (fun st => panel_static (snd st) = panel_static p)); [|reflexivity].
  intros s line H. now rewrite panel_line_static.
Qed.

End PanelFrames.

(** The cases of one event: [H] is [step a e = Some a']. *)
Ltac basic_step_cases a e H :=
  unfold Basic.step in H;
  destruct e as [|boxType|status|err|errorData|chunk|now time|err|
                 |images|text|model|checked|];
  try (destruct (Basic.run a) as [r|] eqn:Hrun; [|discriminate H];
       destruct (Basic.at_await r) as [|code|d b] eqn:Hat; try discriminate H);
  try (destruct (Basic.timers (Basic.page a)) as [|n] eqn:Htimers;
       [discriminate H|]);
  injection H as <-.

Ltac panel_step_cases a e H :=
  unfold Panel.step in H;
  destruct e as [|boxType|status|err|errorData|chunk|now time|err|
                 |images|text|model|checked|];
  try (destruct (Panel.run a) as [r|] eqn:Hrun; [|discriminate H];
       destruct (Panel.at_await r) as [|code|d b] eqn:Hat; try discriminate H);
  try (destruct (Panel.timers (Panel.page a)) as [|n] eqn:Htimers;
       [discriminate H|]);
  injection H as <-.

Section BasicSteps.
Import Basic BasicSpec.

Lemma basic_throw_static (err : JSError) (p : Page) :
  sessionHistory (page (throw err p)) = sessionHistory p
  /\ requests (page (throw err p)) = requests p
  /\ alerts (page (throw err p)) = alerts p
  /\ currentImages (page (throw err p)) = currentImages p
  /\ result_display (page (throw err p)) = result_display p
  /\ reasoning_display (page (throw err p)) = reasoning_display p
  /\ isRecognizing (page (throw err p)) = false
  /\ btn_recognize (page (throw err p)) = Start_button
  /\ run (throw err p) = None.
Proof. unfold throw, catch_block. repeat split; frame. Qed.

Lemma basic_done_static (now : Z) (time : jsstring) (r : Run) (p : Page) :
  let p' := finally_block (after_loop now time r p) in
  requests p' = requests p /\ alerts p' = alerts p
  /\ currentImages p' = currentImages p
  /\ isRecognizing p' = false /\ btn_recognize p' = Start_button.
Proof. unfold finally_block, after_loop. repeat split; frame. Qed.


Lemma basic_button_frame (a : App) (q : Page) :
  isRecognizing q = isRecognizing (page a) ->
  btn_recognize q = btn_recognize (page a) ->
  basic_button_ok a -> basic_button_ok (mkApp q (run a)).
Proof.
  unfold basic_button_ok. cbn [run page]. intros -> ->. auto.
Qed.

Lemma basic_step_button (a a' : App) (e : event) :
  basic_button_ok a -> step a e = Some a' -> basic_button_ok a'.
Proof.
  intros Hok H. basic_step_cases a e H;
    try (apply basic_button_frame; [reflexivity..|exact Hok]);
    try (unfold basic_button_ok; cbn [run throw page]; split;
         apply basic_throw_static).
  - unfold toggleRecognize, abort. unfold basic_button_ok in Hok.
    destruct (isRecognizing (page a)) eqn:Hrec.
    + destruct (run a) as [r|]; [|destruct Hok; discriminate].
      destruct (at_await r); unfold basic_button_ok; cbn [run throw page]; split;
        apply basic_throw_static.
    + destruct (run a) as [r|] eqn:Hrun; [destruct Hok; discriminate|].
      destruct (is_nil _).
      * unfold basic_button_ok. cbn [run page]. split; [exact Hrec|apply Hok].
      * unfold basic_button_ok. cbn. split; reflexivity.
  - apply basic_button_frame; [unfold toggleReasoningDisplay; frame..|exact Hok].
  - unfold basic_button_ok in *. rewrite Hrun in Hok.
    unfold on_response. destruct (_ && _); exact Hok.
  - unfold basic_button_ok in *. rewrite Hrun in Hok.
    pose proof (basic_chunk_static chunk d b r (page a)) as Hs.
    unfold basic_static in Hs. injection Hs as _ Hi _ _ _ _ Hb _ _ _ _.
    cbn [run on_chunk page] in *. now rewrite Hi, Hb.
  - unfold basic_button_ok. cbn [run page]. split;
      apply (basic_done_static now time r (page a)).
  - apply basic_button_frame; [unfold auto_collapse; frame..|exact Hok].
Qed.

Lemma basic_exec_button (es : list event) (a a' : App) :
  basic_button_ok a -> exec a es = Some a' -> basic_button_ok a'.
Proof.
  revert a. induction es as [|e es IH]; intros a Hok H; cbn [exec] in H.
  - now injection H as <-.
  - destruct (step a e) as [a1|] eqn:E; [|discriminate].
    apply (IH a1); [now apply (basic_step_button a a1 e)|exact H].
Qed.

Lemma basic_exec_inv (es : list event) (p0 : Page) (a : App) :
  isRecognizing p0 = false -> exec (mkApp p0 None) es = Some a -> run_inv a.
Proof.
  intros Hidle H. apply basic_reachable_inv.
  eapply basic_exec_reachable; [|exact H]. now apply reach_idle.
Qed.

Lemma basic_step_requests (a a' : App) (e : event) :
  run_inv a -> step a e = Some a' ->
  requests (page a') = requests (page a)
  \/ (e = Click_recognize /\ run a = None
      /\ is_nil (currentImages (page a)) = false
      /\ a' = start (page a)).
Proof.
  intros Hinv H. basic_step_cases a e H; try (left; reflexivity);
    try (left; apply basic_throw_static).
  - unfold toggleRecognize, abort. unfold run_inv, running in Hinv.
    destruct (isRecognizing (page a)) eqn:Hrec.
    + left. destruct (run a) as [r|]; [|reflexivity].
      destruct (at_await r); apply basic_throw_static.
    + destruct (run a) as [r|] eqn:Hrun;
        [cbn [snd] in Hinv; destruct Hinv; congruence|].
      destruct (is_nil _) eqn:Hnil; [left; reflexivity|].
      right. repeat split; reflexivity.
  - left. unfold toggleReasoningDisplay. cbn [page]. frame.
  - left. unfold on_response. frame.
  - left. pose proof (basic_chunk_static chunk d b r (page a)) as Hs.
    unfold basic_static in Hs. now injection Hs.
  - left. apply (basic_done_static now time r (page a)).
  - left. cbn [page]. unfold auto_collapse. frame.
Qed.

End BasicSteps.

Section PanelSteps.
Import Panel PanelSpec.

Lemma panel_throw_static (err : JSError) (p : Page) :
  sessionHistory (page (throw err p)) = sessionHistory p
  /\ requests (page (throw err p)) = requests p
  /\ alerts (page (throw err p)) = alerts p
  /\ currentImages (page (throw err p)) = currentImages p
  /\ result_display (page (throw err p)) = result_display p
  /\ reasoning_display (page (throw err p)) = reasoning_display p
  /\ isRecognizing (page (throw err p)) = false
  /\ btn_recognize (page (throw err p)) = Start_button
  /\ run (throw err p) = None.
Proof. unfold throw, catch_block. repeat split; frame. Qed.

Lemma panel_done_static (now : Z) (time : jsstring) (r : Run) (p : Page) :
  let p' := finally_block (after_loop now time r p) in
  requests p' = requests p /\ alerts p' = alerts p
  /\ currentImages p' = currentImages p
  /\ isRecognizing p' = false /\ btn_recognize p' = Start_button.
Proof. unfold finally_block, after_loop. repeat split; frame. Qed.


Lemma panel_button_frame (a : App) (q : Page) :
  isRecognizing q = isRecognizing (page a) ->
  btn_recognize q = btn_recognize (page a) ->
  panel_button_ok a -> panel_button_ok (mkApp q (run a)).
Proof.
  unfold panel_button_ok. cbn [run page]. intros -> ->. auto.
Qed.

Lemma panel_step_button (a a' : App) (e : event) :
  panel_button_ok a -> step a e = Some a' -> panel_button_ok a'.
Proof.
  intros Hok H. panel_step_cases a e H;
    try (apply panel_button_frame; [reflexivity..|exact Hok]);
    try (unfold panel_button_ok; cbn [run throw page]; split;
         apply panel_throw_static).
  - unfold toggleRecognize, abort. unfold panel_button_ok in Hok.
    destruct (isRecognizing (page a)) eqn:Hrec.
    + destruct (run a) as [r|]; [|destruct Hok; discriminate].
      destruct (at_await r); unfold panel_button_ok; cbn [run throw page]; split;
        apply panel_throw_static.
    + destruct (run a) as [r|] eqn:Hrun; [destruct Hok; discriminate|].
      destruct (is_nil _).
      * unfold panel_button_ok. cbn [run page]. split; [exact Hrec|apply Hok].
      * unfold panel_button_ok, start. cbn [run page]. split; frame.
  - apply panel_button_frame; [unfold toggleBox; frame..|exact Hok].
  - unfold panel_button_ok in *. rewrite Hrun in Hok.
    unfold on_response. destruct (_ && _); exact Hok.
  - unfold panel_button_ok in *. rewrite Hrun in Hok.
    pose proof (panel_chunk_static chunk d b r (page a)) as Hs.
    unfold panel_static in Hs. injection Hs as _ Hi _ _ _ _ Hb _ _ _ _.
    cbn [run on_chunk page] in *. now rewrite Hi, Hb.
  - unfold panel_button_ok. cbn [run page]. split;
      apply (panel_done_static now time r (page a)).
  - apply panel_button_frame; [unfold auto_switch; frame..|exact Hok].
Qed.

Lemma panel_exec_button (es : list event) (a a' : App) :
  panel_button_ok a -> exec a es = Some a' -> panel_button_ok a'.
Proof.
  revert a. induction es as [|e es IH]; intros a Hok H; cbn [exec] in H.
  - now injection H as <-.
  - destruct (step a e) as [a1|] eqn:E; [|discriminate].
    apply (IH a1); [now apply (panel_step_button a a1 e)|exact H].
Qed.

Lemma panel_exec_inv (es : list event) (p0 : Page) (a : App) :
  isRecognizing p0 = false -> exec (mkApp p0 None) es = Some a -> run_inv a.
Proof.
  intros Hidle H. apply panel_reachable_inv.
  eapply panel_exec_reachable; [|exact H]. now apply reach_idle.
Qed.

Lemma panel_step_requests (a a' : App) (e : event) :
  run_inv a -> step a e = Some a' ->
  requests (page a') = requests (page a)
  \/ (e = Click_recognize /\ run a = None
      /\ is_nil (currentImages (page a)) = false
      /\ a' = start (page a)).
Proof.
  intros Hinv H. panel_step_cases a e H; try (left; reflexivity);
    try (left; apply panel_throw_static).
  - unfold toggleRecognize, abort. unfold run_inv, running in Hinv.
    destruct (isRecognizing (page a)) eqn:Hrec.
    + left. destruct (run a) as [r|]; [|reflexivity].
      destruct (at_await r); apply panel_throw_static.
    + destruct (run a) as [r|] eqn:Hrun;
        [cbn [snd] in Hinv; destruct Hinv; congruence|].
      destruct (is_nil _) eqn:Hnil; [left; reflexivity|].
      right. repeat split; reflexivity.
  - left. unfold toggleBox. cbn [page]. frame.
  - left. unfold on_response. frame.
  - left. pose proof (panel_chunk_static chunk d b r (page a)) as Hs.
    unfold panel_static in Hs. now injection Hs.
  - left. apply (panel_done_static now time r (page a)).
  - left. cbn [page]. unfold auto_switch. frame.
Qed.

End PanelSteps.

Section ErrorFacts.


Lemma basic_throw_error (a : Basic.App) (err : JSError) :
  not_abort err ->
  basic_ended_in_error (err_message err) a (Basic.throw err (Basic.page a)).
Proof.
  unfold not_abort, basic_ended_in_error, Basic.throw, Basic.catch_block.
  intros ->. repeat split.
Qed.

Lemma panel_throw_error (a : Panel.App) (err : JSError) :
  not_abort err ->
  panel_ended_in_error (err_message err) a (Panel.throw err (Panel.page a)).
Proof.
  unfold not_abort, panel_ended_in_error, Panel.throw, Panel.catch_block.
  intros ->. repeat split.
Qed.

End ErrorFacts.

Section BlankFacts.

Lemma trimStart_nil_iff (s : jsstring) : trimStart s = [] <-> whitespace s.
Proof.
  unfold whitespace. induction s as [|c s IH]; cbn [trimStart forallb].
  - tauto.
  - destruct (is_trim_unit c); cbn [andb]; [exact IH|]. split; discriminate.
Qed.

Lemma trimStart_head (s : jsstring) :
  trimStart s = []
  \/ exists c r, trimStart s = c :: r /\ is_trim_unit c = false.
Proof.
  induction s as [|c s IH]; cbn [trimStart]; [now left|].
  destruct (is_trim_unit c) eqn:E; [exact IH|]. right. now exists c, s.
Qed.

Lemma trim_nil_iff (s : jsstring) : trim s = [] <-> whitespace s.
Proof.
  unfold trim, trimEnd. split.
  - intros H. apply trimStart_nil_iff.
    assert (H1 : trimStart (rev (trimStart s)) = []).
    { destruct (trimStart (rev (trimStart s))) as [|c l]; [reflexivity|].
      cbn in H. now destruct (rev l). }
    apply trimStart_nil_iff, whitespace_rev in H1. rewrite rev_involutive in H1.
    destruct (trimStart_head s) as [E|(c & r & E & Hc)]; [exact E|].
    rewrite E in H1. unfold whitespace in H1. cbn in H1. now rewrite Hc in H1.
  - intros H. apply trimStart_nil_iff in H. now rewrite H.
Qed.

Lemma visible_false_iff (t : jsstring) : visible t = false <-> whitespace t.
Proof.
  unfold visible. rewrite <- trim_nil_iff. split.
  - intros H. destruct (trim t) eqn:E; [reflexivity|].
    destruct t; [discriminate E|discriminate H].
  - intros ->. apply andb_false_r.
Qed.

Lemma visible_app_false (a b : jsstring) :
  visible (a ++ b) = false -> visible a = false.
Proof.
  rewrite !visible_false_iff. unfold whitespace. rewrite forallb_app.
  intros H. now apply andb_true_iff in H.
Qed.

End BlankFacts.

Section MarkFacts.
Import Panel PanelSpec.

(** What the loop keeps of the reasoning status. *)
Lemma panel_mark_line (enabled : bool) (st : Locals * Page) (line : jsstring) :
  reasoning_status (snd st) = reasoning_mark enabled (reasoningText (fst st)) ->
  reasoning_status (snd (process_line st line))
  = reasoning_mark enabled (reasoningText (fst (process_line st line))).
Proof.
  destruct (panel_process_line_uniform line) as [e He]. rewrite He. clear He.
  assert (Hc : forall v s,
             reasoning_status (snd s) = reasoning_mark enabled (reasoningText (fst s)) ->
             reasoning_status (snd (append_content v s))
             = reasoning_mark enabled (reasoningText (fst (append_content v s)))).
  { intros v [l p] H. exact H. }
  assert (Hr : forall v s,
             reasoning_status (snd s) = reasoning_mark enabled (reasoningText (fst s)) ->
             reasoning_status (snd (append_reasoning v s))
             = reasoning_mark enabled (reasoningText (fst (append_reasoning v s)))).
  { intros v [l p] H. cbn [append_reasoning fst snd reasoningText] in *.
    unfold showReasoningContent. cbv zeta.
    fold (visible (reasoningText l ++ ToString v)).
    destruct (visible (reasoningText l ++ ToString v)) eqn:Hv.
    - unfold reasoning_mark. rewrite Hv, orb_true_r. reflexivity.
    - apply visible_app_false in Hv as Hv'.
      unfold reasoning_mark in *. rewrite Hv. rewrite Hv' in H.
      unfold hideReasoningContent. destruct (negb _); exact H. }
  intros H. destruct e; cbn [apply_effect]; auto.
Qed.

Lemma panel_mark_chunks (enabled : bool) (chunks : list (list byte))
  (r : Reader (Locals * Page)) :
  reasoning_status (snd (acc r))
  = reasoning_mark enabled (reasoningText (fst (acc r))) ->
  let r' := read_all process_line chunks r in
  reasoning_status (snd (acc r'))
  = reasoning_mark enabled (reasoningText (fst (acc r'))).
Proof.
  revert r. induction chunks as [|c cs IH]; intros r H; [exact H|].
  cbn [read_all fold_left]. apply IH.
  apply (read_chunk_preserves process_line
           (fun s => reasoning_status (snd s)
                     = reasoning_mark enabled (reasoningText (fst s))));
    [|exact H].
  intros s line. apply panel_mark_line.
Qed.

Lemma panel_start_mark (p : Page) :
  reasoning_status (page (start p)) = reasoning_mark (reasoning_toggle p) [].
Proof.
  unfold start, reasoning_mark. cbn [page visible nonempty andb].
  rewrite orb_false_r. destruct (reasoning_toggle p); reflexivity.
Qed.

Lemma panel_whole_call (p0 : Page) (chunks : list (list byte)) (now : Z)
  (time : jsstring) :
  isRecognizing p0 = false -> currentImages p0 <> [] ->
  exec (mkApp p0 None) (whole_call chunks now time)
  = Some (mkApp
            (finally_block
               (after_loop now time
                  (mkRun (fst (panel_loop_end p0 chunks)) (reasoning_toggle p0)
                         (AwaitRead new_TextDecoder []))
                  (snd (panel_loop_end p0 chunks))))
            None).
Proof.
  intros Hidle Himg. unfold whole_call.
  change ([Click_recognize; Fetch_resolved 200] ++ ?x)
    with (Click_recognize :: Fetch_resolved 200 :: x).
  cbn [exec step]. unfold toggleRecognize. cbn [page]. rewrite Hidle.
  destruct (currentImages p0) as [|i imgs] eqn:Ei; [congruence|]. cbn [is_nil].
  unfold start at 1. cbn [run at_await on_response page locals reasoningEnabled].
  cbn [Z.leb Z.compare Pos.compare Pos.compare_cont andb].
  rewrite panel_exec_app.
  erewrite panel_exec_chunks; [|reflexivity..].
  cbn [exec step of_reader run at_await page locals reasoningEnabled].
  reflexivity.
Qed.

Lemma panel_after_loop_marks (now : Z) (time : jsstring) (r : Run) (p : Page) :
  nonempty (strip_markers (fullText (locals r))) = true ->
  let p' := finally_block (after_loop now time r p) in
  output_status p' = completed
  /\ reasoning_status p'
     = (if reasoningEnabled r && nonempty (reasoningText (locals r))
        then completed else reasoning_status p)
  /\ status_indicator p' = mkStatus (lit "Done") (lit "success").
Proof.
  intros Hne. unfold finally_block, after_loop. rewrite Hne.
  destruct (has_markers _), (reasoningEnabled r),
    (nonempty (reasoningText (locals r))); repeat split.
Qed.

End MarkFacts.

Section BasicIcons.
Import Basic BasicSpec.

Lemma basic_icon_frame (p q : Page) :
  reasoning_display_expanded q = reasoning_display_expanded p ->
  reasoning_toggle_icon q = reasoning_toggle_icon p ->
  basic_icon_ok p -> basic_icon_ok q.
Proof. unfold basic_icon_ok. now intros -> ->. Qed.

Lemma basic_icon_hide (p : Page) : basic_icon_ok (hideReasoningContent p).
Proof. reflexivity. Qed.

Lemma basic_icon_show (c : jsstring) (p : Page) :
  basic_icon_ok p -> basic_icon_ok (showReasoningContent c p).
Proof.
  intros H. unfold showReasoningContent. cbv zeta.
  destruct (_ && _); [exact H|apply basic_icon_hide].
Qed.

Lemma basic_icon_toggle (p : Page) : basic_icon_ok (toggleReasoningDisplay p).
Proof.
  unfold toggleReasoningDisplay. now destruct (reasoning_display_expanded p).
Qed.

Lemma basic_icon_collapse (p : Page) :
  basic_icon_ok p -> basic_icon_ok (auto_collapse p).
Proof.
  intros H. unfold auto_collapse.
  now destruct (reasoning_display_expanded p) eqn:E.
Qed.

Lemma basic_icon_lines (lines : list jsstring) (st : Locals * Page) :
  basic_icon_ok (snd st) -> basic_icon_ok (snd (fold_left process_line lines st)).
Proof.
  apply (basic_lines_preserve (fun st => basic_icon_ok (snd st))).
  - intros [l p] H. exact H.
  - intros v [l p] H. now apply basic_icon_show.
  - intros v [l p] H. exact H.
Qed.

Lemma basic_icon_throw (err : JSError) (p : Page) :
  basic_icon_ok p -> basic_icon_ok (page (throw err p)).
Proof.
  apply basic_icon_frame; unfold throw, catch_block; cbn [page]; frame.
Qed.

Lemma basic_step_icon (a a' : App) (e : event) :
  basic_icon_ok (page a) -> step a e = Some a' -> basic_icon_ok (page a').
Proof.
  intros Hok H. basic_step_cases a e H; try exact Hok;
    try (now apply basic_icon_throw).
  - unfold toggleRecognize, abort. destruct (isRecognizing (page a)).
    + destruct (run a) as [r|]; [|exact Hok].
      destruct (at_await r); now apply basic_icon_throw.
    + destruct (is_nil _); [exact Hok|reflexivity].
  - apply basic_icon_toggle.
  - unfold on_response. now destruct (_ && _).
  - unfold on_chunk. cbn [page].
    apply (read_chunk_preserves process_line (fun st => basic_icon_ok (snd st)));
      [|exact Hok].
    intros s line. apply (basic_icon_lines [line]).
  - cbn [page]. revert Hok. apply basic_icon_frame;
      unfold finally_block, after_loop; frame.
  - cbn [page]. now apply basic_icon_collapse.
  - reflexivity.
Qed.

End BasicIcons.

Section PanelIcons.
Import Panel PanelSpec.

Lemma panel_icons_frame (p q : Page) :
  reasoning_box q = reasoning_box p -> output_box q = output_box p ->
  reasoning_toggle_icon q = reasoning_toggle_icon p ->
  output_toggle_icon q = output_toggle_icon p ->
  panel_icons_ok p -> panel_icons_ok q.
Proof. unfold panel_icons_ok. now intros -> -> -> ->. Qed.

Lemma panel_icons_hide (p : Page) :
  panel_icons_ok p -> panel_icons_ok (hideReasoningContent p).
Proof.
  intros H. unfold hideReasoningContent.
  destruct (negb _); [|exact H]. split; reflexivity.
Qed.

Lemma panel_icons_show (c : jsstring) (p : Page) :
  panel_icons_ok p -> panel_icons_ok (showReasoningContent c p).
Proof.
  intros H. unfold showReasoningContent. cbv zeta.
  destruct (_ && _); [split; reflexivity|]. now apply panel_icons_hide.
Qed.

Lemma panel_icons_toggle (boxType : jsstring) (p : Page) :
  panel_icons_ok (toggleBox boxType p).
Proof.
  unfold toggleBox. cbv zeta.
  destruct (str_eqb boxType _), (contains _ collapsed); split; reflexivity.
Qed.

Lemma panel_icons_switch (p : Page) :
  panel_icons_ok p -> panel_icons_ok (auto_switch p).
Proof.
  intros H. unfold auto_switch. destruct (negb _); [|exact H]. split; reflexivity.
Qed.

Lemma panel_icons_start (p : Page) : panel_icons_ok (page (start p)).
Proof.
  unfold start. cbn [page]. destruct (reasoning_toggle p); split; reflexivity.
Qed.

Lemma panel_icons_lines (lines : list jsstring) (st : Locals * Page) :
  panel_icons_ok (snd st) -> panel_icons_ok (snd (fold_left process_line lines st)).
Proof.
  apply (panel_lines_preserve (fun st => panel_icons_ok (snd st))).
  - intros [l p] H. exact H.
  - intros v [l p] H. now apply panel_icons_show.
  - intros v [l p] H. exact H.
Qed.

Lemma panel_icons_throw (err : JSError) (p : Page) :
  panel_icons_ok p -> panel_icons_ok (page (throw err p)).
Proof.
  apply panel_icons_frame; unfold throw, catch_block; cbn [page]; frame.
Qed.

Lemma panel_step_icons (a a' : App) (e : event) :
  panel_icons_ok (page a) -> step a e = Some a' -> panel_icons_ok (page a').
Proof.
  intros Hok H. panel_step_cases a e H; try exact Hok;
    try (now apply panel_icons_throw).
  - unfold toggleRecognize, abort. destruct (isRecognizing (page a)).
    + destruct (run a) as [r|]; [|exact Hok].
      destruct (at_await r); now apply panel_icons_throw.
    + destruct (is_nil _); [exact Hok|apply panel_icons_start].
  - apply panel_icons_toggle.
  - unfold on_response. now destruct (_ && _).
  - unfold on_chunk. cbn [page].
    apply (read_chunk_preserves process_line (fun st => panel_icons_ok (snd st)));
      [|exact Hok].
    intros s line. apply (panel_icons_lines [line]).
  - cbn [page]. revert Hok. apply panel_icons_frame;
      unfold finally_block, after_loop; frame.
  - cbn [page]. now apply panel_icons_switch.
Qed.

End PanelIcons.

Section DisplayFacts.
Import Basic BasicSpec.

(** Either the loop has added no text and the display is as it was, or
    the display shows the accumulated text. *)
Lemma basic_display_lines (text shown : jsstring) (lines : list jsstring)
  (st : Locals * Page) :
  (fullText (fst st) = text /\ result_display (snd st) = shown)
  \/ result_display (snd st) = fullText (fst st) ->
  let st' := fold_left process_line lines st in
  (fullText (fst st') = text /\ result_display (snd st') = shown)
  \/ result_display (snd st') = fullText (fst st').
Proof.
  apply (basic_lines_preserve
           (fun s => (fullText (fst s) = text /\ result_display (snd s) = shown)
                     \/ result_display (snd s) = fullText (fst s))).
  - intros [l p] H. exact H.
  - intros v [l p] H. cbn [append_reasoning fst snd fullText].
    destruct (basic_show_frame (reasoningText l ++ ToString v) p) as (_ & _ & ->).
    exact H.
  - intros v [l p] _. now right.
Qed.

End DisplayFacts.

(* ================================================================== *)
(** * Facts about copying and the history list                         *)
(* ================================================================== *)

Section ScriptFacts.

Lemma basic_lawful : lawful basic_script.
Proof. repeat split. Qed.

Lemma panel_lawful : lawful panel_script.
Proof. repeat split. Qed.

End ScriptFacts.

Section HistoryRows.
Import Desk.

Lemma substring_from_0 (s : jsstring) (n : Z) :
  0 <= n -> substring s 0 n = firstn (Z.to_nat n) s.
Proof.
  intros Hn. unfold substring, clamp, strlen. cbv zeta.
  set (len := Z.of_nat (List.length s)).
  assert (Hlen : 0 <= len) by (unfold len; lia).
  replace (Z.max 0 (Z.min len 0)) with 0 by lia.
  replace (Z.min 0 (Z.max 0 (Z.min len n))) with 0 by lia.
  replace (Z.max 0 (Z.max 0 (Z.min len n)) - 0) with (Z.min len n) by lia.
  cbn [Z.to_nat skipn].
  destruct (Z.le_ge_cases len n).
  - rewrite Z.min_l by lia. unfold len. rewrite Nat2Z.id.
    rewrite !firstn_all2; [reflexivity|lia|lia].
  - now rewrite Z.min_r by lia.
Qed.

Lemma replace_line_breaks_free (s : jsstring) :
  ~ In 10 (replace_line_breaks s) /\ ~ In 13 (replace_line_breaks s).
Proof.
  unfold replace_line_breaks. split; intros H; apply in_map_iff in H;
    destruct H as (c & Hc & _);
    destruct (Z.eqb_spec c 10), (Z.eqb_spec c 13); cbn in Hc; lia.
Qed.

Lemma preview_bounds (text : jsstring) :
  preview text = replace_line_breaks (firstn 60 text) ++ lit "..."
  /\ (List.length (preview text) <= 63)%nat
  /\ ~ In 10 (preview text) /\ ~ In 13 (preview text).
Proof.
  unfold preview. rewrite substring_from_0 by lia.
  change (Z.to_nat 60) with 60%nat. split; [reflexivity|].
  destruct (replace_line_breaks_free (firstn 60 text)) as [H10 H13].
  split; [|split].
  - rewrite length_app. unfold replace_line_breaks. rewrite length_map.
    pose proof (firstn_le_length 60 text).
    change (List.length (lit "...")) with 3%nat. lia.
  - intros H. apply in_app_or in H. destruct H as [H|H]; [tauto|].
    cbn in H. intuition discriminate.
  - intros H. apply in_app_or in H. destruct H as [H|H]; [tauto|].
    cbn in H. intuition discriminate.
Qed.

Lemma history_html_nil : history_html [] = no_records.
Proof. reflexivity. Qed.

Lemma history_html_cons (h : HistoryItem) (rest : list HistoryItem) :
  history_html (h :: rest) = List.concat (history_rows 0 (h :: rest))
  /\ hd_error (history_html (h :: rest)) = Some 10.
Proof.
  unfold history_html. cbn [history_rows List.concat].
  unfold history_row at 1 2 3. unfold NL.
  cbn [app nonempty hd_error]. split; reflexivity.
Qed.

End HistoryRows.

Section DeskFacts.
Import Desk.
Variable script : Script.
Hypothesis laws : lawful script.

Lemma desk_step_writes (d d' : State (SApp script)) (e : action) :
  step script d e = Some d' ->
  writes d' = writes d
  \/ (e = Click_copy
      /\ nonempty (s_result_display script (page script d)) = true
      /\ writes d' = writes d ++ [s_result_display script (page script d)])
  \/ (exists index h,
        e = Click_copy_item index
        /\ nth_error (s_sessionHistory script (page script d)) index = Some h
        /\ writes d' = writes d ++ [h_text h]).
Proof.
  intros H. destruct e; cbn [step] in H.
  - destruct (s_step script (app d) e); [|discriminate].
    injection H as <-. now left.
  - injection H as <-. unfold copyResult.
    destruct (nonempty _) eqn:E; [|now left].
    right; left. now repeat split.
  - injection H as <-. now left.
  - injection H as <-. unfold copyHistoryItem.
    destruct (nth_error _ index) as [h|] eqn:E; [|now left].
    right; right. exists index, h. now repeat split.
  - injection H as <-. now left.
  - destruct (pending d); [discriminate|]. injection H as <-. now left.
  - destruct (pending d); [discriminate|]. injection H as <-. now left.
  - destruct (restores d); [discriminate|]. injection H as <-. now left.
Qed.

Lemma desk_page_events (es : list event) (d d' : State (SApp script)) :
  exec script d (map Page_event es) = Some d' ->
  restores d' = restores d /\ pending d' = pending d /\ writes d' = writes d.
Proof.
  revert d. induction es as [|e es IH]; intros d H; cbn [map exec step] in H.
  - injection H as <-. now repeat split.
  - destruct (s_step script (app d) e) as [a|]; [|discriminate].
    destruct (IH _ H) as (-> & -> & ->). now repeat split.
Qed.

Lemma desk_exec_app (es1 es2 : list action) (d : State (SApp script)) :
  exec script d (es1 ++ es2)
  = match exec script d es1 with Some d' => exec script d' es2 | None => None end.
Proof.
  revert d. induction es1 as [|e es1 IH]; intros d; [reflexivity|].
  cbn [List.app exec]. destruct (step script d e); [apply IH|reflexivity].
Qed.

Lemma desk_status_page (p : SPage script) (d : State (SApp script)) :
  s_status_indicator script (page script (set_page script p d)) = s_status_indicator script p.
Proof.
  unfold page, set_page. cbn [app set_app].
  destruct laws as (_ & _ & _ & ->). reflexivity.
Qed.

Lemma desk_restore_status (saved : Status) (d : State (SApp script)) :
  s_status_indicator script (page script (restore script saved d)) = saved.
Proof.
  unfold restore. rewrite desk_status_page.
  destruct laws as (-> & _). now destruct saved.
Qed.

Lemma desk_copied (d : State (SApp script)) :
  s_status_indicator script (page script (copied script d))
  = mkStatus (lit "Copied!") (lit "success")
  /\ restores (copied script d)
     = restores d ++ [s_status_indicator script (page script d)]
  /\ pending (copied script d) = pending d
  /\ writes (copied script d) = writes d.
Proof.
  unfold copied. cbv zeta. split; [|now repeat split].
  change (page script (set_restores ?q ?x)) with (page script x).
  rewrite desk_status_page. now destruct laws as (-> & _).
Qed.

(** The status a copy put aside comes back when its timer fires, whatever
    the page did in between. *)
Lemma desk_copy_restore (d d' : State (SApp script)) (es : list event) :
  restores d = [] ->
  exec script d ([Clipboard_written] ++ map Page_event es ++ [Restore_timer]) = Some d' ->
  s_status_indicator script (page script d') = s_status_indicator script (page script d)
  /\ restores d' = [].
Proof.
  intros Hq H. change ([Clipboard_written] ++ ?x) with (Clipboard_written :: x) in H.
  cbn [exec step] in H. destruct (pending d) as [|n] eqn:Hp; [discriminate|].
  rewrite desk_exec_app in H.
  destruct (exec script _ (map Page_event es)) as [d1|] eqn:E; [|discriminate].
  apply desk_page_events in E. destruct E as (Hr & _ & _).
  destruct (desk_copied (set_pending n d)) as (_ & Hc & _).
  rewrite Hc in Hr. cbn [set_pending restores] in Hr. rewrite Hq in Hr.
  cbn [app exec step] in H. rewrite Hr in H. injection H as <-.
  split; [|reflexivity].
  change (restore script ?s ?x) with (restore script s x).
  now rewrite desk_restore_status.
Qed.

Lemma desk_copies (k : nat) (d : State (SApp script)) :
  (k <= pending d)%nat ->
  exists d',
    exec script d (repeat Clipboard_written k) = Some d'
    /\ restores d'
       = restores d
         ++ match k with
            | O => []
            | S k' => s_status_indicator script (page script d) :: repeat Copied k'
            end
    /\ s_status_indicator script (page script d')
       = match k with O => s_status_indicator script (page script d) | S _ => Copied end
    /\ writes d' = writes d.
Proof.
  revert d. induction k as [|k IH]; intros d Hk.
  - exists d. cbn [repeat exec]. rewrite app_nil_r. now repeat split.
  - cbn [repeat exec step]. destruct (pending d) as [|n] eqn:Hp; [lia|].
    destruct (desk_copied (set_pending n d)) as (Hs & Hr & Hn & Hw).
    destruct (IH (copied script (set_pending n d))) as (d' & He & Hq & Ht & Hw').
    { rewrite Hn. cbn [set_pending pending]. lia. }
    exists d'. split; [exact He|]. rewrite Hq, Hr, Ht, Hs, Hw', Hw.
    cbn [set_pending restores writes page app]. rewrite <- app_assoc.
    repeat split; now destruct k.
Qed.

Lemma last_cons_default {A} (q : list A) (s x : A) :
  last (s :: q) x = last q s.
Proof.
  revert s x. induction q as [|a q IH]; intros s x; [reflexivity|].
  change (last (s :: a :: q) x) with (last (a :: q) x). now rewrite !IH.
Qed.

Lemma desk_restores_fire (q : list Status) (d : State (SApp script)) :
  restores d = q ->
  exists d',
    exec script d (repeat Restore_timer (List.length q)) = Some d'
    /\ restores d' = []
    /\ s_status_indicator script (page script d') = last q (s_status_indicator script (page script d))
    /\ writes d' = writes d.
Proof.
  revert d. induction q as [|s q IH]; intros d Hq.
  - exists d. now repeat split.
  - cbn [List.length repeat exec step]. rewrite Hq.
    destruct (IH (restore script s (set_restores q d))) as (d' & He & Hr & Hs & Hw);
      [reflexivity|].
    exists d'. split; [exact He|]. split; [exact Hr|]. split; [|exact Hw].
    rewrite Hs, desk_restore_status. now rewrite last_cons_default.
Qed.

Lemma last_repeat_Copied (k : nat) (s : Status) :
  last (s :: repeat Copied (S k)) s = Copied.
Proof.
  induction k as [|k IH]; [reflexivity|].
  cbn [repeat] in *. cbn [last] in *. exact IH.
Qed.

End DeskFacts.

(* ================================================================== *)
(** * Facts about the configuration and the reasoning switch           *)
(* ================================================================== *)

Section SettingsFacts.
Import Settings.

Lemma find_by_id_found (l : list JSON) (id : jsstring) (model : JSON) :
  find_by_id l id = Some (Some model) ->
  In model l /\ is_string (prop model (lit "id")) id = true
  /\ exists members, model = JObj members.
Proof.
  induction l as [|m l IH]; cbn [find_by_id]; [discriminate|].
  destruct (get (Some m) (lit "id")) as [v|] eqn:Ev; [|discriminate].
  destruct (is_string v id) eqn:Es.
  - intros H. injection H as <-. split; [now left|].
    destruct m; cbn [get prop] in Ev; try discriminate Ev;
      injection Ev as <-; try discriminate Es.
    split; [exact Es|]. now eexists.
  - intros H. destruct (IH H) as (Hin & Hrest). split; [now right|exact Hrest].
Qed.

Lemma find_model_found (models : value) (id : jsstring) (model : JSON) :
  find_model models id = Some (Some model) ->
  exists members, model = JObj members.
Proof.
  unfold find_model. destruct models as [[| | | |l|]|]; try discriminate.
  intros H. now destruct (find_by_id_found l id model H) as (_ & _ & Hm).
Qed.

(** What the [switch] does for a model that was found. *)
Lemma update_found (config : Config) (st : Controls * Panel.Page) (model : JSON) :
  find_model (models config) (Panel.model_select (snd st)) = Some (Some model) ->
  let support := prop model (lit "supports_reasoning") in
  updateReasoningToggleState config st
  = Some (if is_string support (lit "true") then enable st
          else if is_string support (lit "default") then disable true (lit "0.7") st
          else disable false (lit "0.5") st).
Proof.
  intros H. destruct (find_model_found _ _ _ H) as [members ->].
  unfold updateReasoningToggleState. rewrite H. cbn [truthy negb get].
  destruct (prop (JObj members) (lit "supports_reasoning")) as [[| | |s| |]|];
    try reflexivity.
  cbn [is_string].
  destruct (str_eqb s (lit "false")) eqn:E1.
  - apply str_eqb_eq in E1. subst s. reflexivity.
  - destruct (str_eqb s (lit "default")) eqn:E2, (str_eqb s (lit "true")) eqn:E3;
      try reflexivity.
    apply str_eqb_eq in E2, E3. subst s. discriminate E3.
Qed.

Lemma disable_select (checked : bool) (opacity : jsstring) (st : Controls * Panel.Page) :
  Panel.model_select (snd (disable checked opacity st)) = Panel.model_select (snd st).
Proof. reflexivity. Qed.

Lemma disable_twice (checked : bool) (opacity : jsstring) (st : Controls * Panel.Page) :
  disable checked opacity (disable checked opacity st) = disable checked opacity st.
Proof. reflexivity. Qed.

Lemma update_idempotent (config : Config) (st st' : Controls * Panel.Page) :
  updateReasoningToggleState config st = Some st' ->
  updateReasoningToggleState config st' = Some st'.
Proof.
  intros H.
  destruct (find_model (models config) (Panel.model_select (snd st)))
    as [[model|]|] eqn:Ef.
  - rewrite (update_found config st model Ef) in H. injection H as <-.
    assert (Ef' : forall x : Controls * Panel.Page,
                  Panel.model_select (snd x) = Panel.model_select (snd st) ->
                  find_model (models config) (Panel.model_select (snd x))
                  = Some (Some model)) by (intros x ->; exact Ef).
    cbv zeta.
    destruct (is_string _ (lit "true")) eqn:E1;
      [|destruct (is_string _ (lit "default")) eqn:E2].
    + rewrite (update_found config (enable st) model (Ef' _ eq_refl)).
      cbv zeta. now rewrite E1.
    + rewrite (update_found config _ model (Ef' (disable true (lit "0.7") st) eq_refl)).
      cbv zeta. now rewrite E1, E2.
    + rewrite (update_found config _ model (Ef' (disable false (lit "0.5") st) eq_refl)).
      cbv zeta. now rewrite E1, E2.
  - unfold updateReasoningToggleState in H. rewrite Ef in H. cbn in H.
    injection H as <-. unfold updateReasoningToggleState. now rewrite Ef.
  - unfold updateReasoningToggleState in H. rewrite Ef in H. discriminate H.
Qed.

Lemma update_none (config : Config) (st : Controls * Panel.Page) :
  updateReasoningToggleState config st = None ->
  find_model (models config) (Panel.model_select (snd st)) = None.
Proof.
  intros H.
  destruct (find_model (models config) (Panel.model_select (snd st)))
    as [[model|]|] eqn:Ef; [| |reflexivity].
  - now rewrite (update_found config st model Ef) in H.
  - unfold updateReasoningToggleState in H. rewrite Ef in H. discriminate H.
Qed.

Lemma update_some_agrees (config : Config) (c c' : Controls) (p p' : Panel.Page)
  (r : option Panel.Run) (l : bool) (ld : loading) :
  updateReasoningToggleState config (c, p) = Some (c', p') ->
  agrees (mkState (Panel.mkApp p' r) c' config l ld).
Proof.
  intros H. unfold agrees, selected_support, page.
  cbn [app Settings.config Settings.controls Panel.page].
  destruct (find_model (models config) (Panel.model_select p))
    as [[model|]|] eqn:Ef.
  - rewrite (update_found config (c, p) model Ef) in H. cbv zeta in H.
    destruct (is_string _ (lit "true")) eqn:E1;
      [|destruct (is_string _ (lit "default")) eqn:E2];
      injection H as <- <-; cbn [snd Panel.model_select Panel.set_reasoning_toggle];
      rewrite Ef, E1; try rewrite E2; repeat split.
  - unfold updateReasoningToggleState in H. cbn [snd] in H. rewrite Ef in H.
    cbn in H. injection H as <- <-. now rewrite Ef.
  - unfold updateReasoningToggleState in H. cbn [snd] in H. rewrite Ef in H.
    discriminate H.
Qed.

Lemma no_support_agrees (s : State) :
  find_model (models (config s)) (Panel.model_select (page s)) = None -> agrees s.
Proof. intros H. unfold agrees, selected_support. now rewrite H. Qed.

Lemma on_change_agrees (s : State) : listening s = true -> agrees (on_change s).
Proof.
  intros Hl. unfold on_change. rewrite Hl.
  destruct (updateReasoningToggleState (config s) (controls s, page s))
    as [[c p]|] eqn:E.
  - now apply (update_some_agrees (config s) (controls s) c (page s) p).
  - apply no_support_agrees. now apply update_none in E.
Qed.

Lemma on_change_flags (s : State) :
  listening (on_change s) = listening s /\ load (on_change s) = load s
  /\ config (on_change s) = config s.
Proof.
  unfold on_change. destruct (listening s) eqn:E; [|now repeat split].
  destruct (updateReasoningToggleState _ _) as [[c p]|]; now repeat split.
Qed.

Lemma panel_step_switches (a a' : Panel.App) (e : event) :
  Panel.step a e = Some a' ->
  (forall model, e <> Set_model model) ->
  (forall checked, e <> Set_reasoning_toggle checked) ->
  Panel.model_select (Panel.page a') = Panel.model_select (Panel.page a)
  /\ Panel.reasoning_toggle (Panel.page a') = Panel.reasoning_toggle (Panel.page a).
Proof.
  intros H Hm Ht. panel_step_cases a e H;
    try (now elim (Hm model)); try (now elim (Ht checked));
    try (split; reflexivity).
  - unfold Panel.toggleRecognize, Panel.abort.
    destruct (Panel.isRecognizing (Panel.page a)).
    + destruct (Panel.run a) as [r|]; [|now split].
      destruct (Panel.at_await r); unfold Panel.throw, Panel.catch_block;
        cbn [Panel.page]; split; frame.
    + destruct (is_nil _); [now split|].
      unfold Panel.start.
      destruct (Panel.reasoning_toggle (Panel.page a)) eqn:Et; cbn [Panel.page];
        (split; [reflexivity|exact Et]).
  - unfold Panel.toggleBox. cbn [Panel.page]. split; frame.
  - unfold Panel.on_response. split; frame.
  - unfold Panel.throw, Panel.catch_block. cbn [Panel.page]. split; frame.
  - unfold Panel.throw, Panel.catch_block. cbn [Panel.page]. split; frame.
  - pose proof (panel_chunk_static chunk d b r (Panel.page a)) as Hs.
    unfold panel_static in Hs. injection Hs. intros. now split.
  - cbn [Panel.page]. unfold Panel.finally_block, Panel.after_loop. split; frame.
  - unfold Panel.throw, Panel.catch_block. cbn [Panel.page]. split; frame.
  - cbn [Panel.page]. unfold Panel.auto_switch. split; frame.
Qed.

Lemma agrees_frame (s s' : State) :
  config s' = config s -> controls s' = controls s ->
  Panel.model_select (page s') = Panel.model_select (page s) ->
  Panel.reasoning_toggle (page s') = Panel.reasoning_toggle (page s) ->
  agrees s -> agrees s'.
Proof.
  unfold agrees, selected_support. now intros -> -> -> ->.
Qed.

Lemma settings_step_agrees (assign : value -> jsstring) (s s' : State)
  (e : action) :
  listening s = true -> load s = Load_over -> agrees s ->
  step assign s e = Some s' ->
  agrees s' /\ listening s' = true /\ load s' = Load_over.
Proof.
  intros Hl Hd Hag H. destruct e as [e|ok| |data];
    [|cbn [step] in H; rewrite Hd in H; discriminate H..].
  assert (Hother : forall a,
             Panel.step (app s) e = Some a ->
             (forall model, e <> Set_model model) ->
             (forall checked, e <> Set_reasoning_toggle checked) ->
             agrees (with_app a s)
             /\ listening (with_app a s) = true /\ load (with_app a s) = Load_over).
  { intros a Ha Hm Ht. destruct (panel_step_switches _ _ _ Ha Hm Ht) as (H1 & H2).
    split; [|now split]. revert Hag. now apply agrees_frame. }
  assert (Hchange : forall a,
             agrees (on_change (with_app a s))
             /\ listening (on_change (with_app a s)) = true
             /\ load (on_change (with_app a s)) = Load_over).
  { intros a. destruct (on_change_flags (with_app a s)) as (-> & -> & _).
    split; [now apply on_change_agrees|now split]. }
  destruct e; cbn [step] in H;
    try (destruct (Panel.step (app s) _) as [a|] eqn:Ea; [|discriminate H];
         injection H as <-; apply Hother; [reflexivity|discriminate..]).
  - destruct (Panel.step (app s) _) as [a|]; [|discriminate H].
    injection H as <-. apply Hchange.
  - destruct (toggle_disabled (controls s)); [discriminate H|].
    destruct (Panel.step (app s) _) as [a|]; [|discriminate H].
    injection H as <-. apply Hchange.
Qed.

Lemma settings_exec_agrees (assign : value -> jsstring) (es : list action)
  (s s' : State) :
  listening s = true -> load s = Load_over -> agrees s ->
  exec assign s es = Some s' ->
  agrees s' /\ listening s' = true /\ load s' = Load_over.
Proof.
  revert s. induction es as [|e es IH]; intros s Hl Hd Hag H; cbn [exec] in H.
  - injection H as <-. now repeat split.
  - destruct (step assign s e) as [s1|] eqn:E; [|discriminate].
    destruct (settings_step_agrees assign s s1 e Hl Hd Hag E) as (H1 & H2 & H3).
    now apply (IH s1).
Qed.

Lemma configure_agrees (assign : value -> jsstring) (data : JSON) (s s' : State) :
  configure assign data s = Some s' ->
  agrees s' /\ listening s' = true /\ load s' = Load_over
  /\ models (config s') = prop data (lit "models").
Proof.
  unfold configure.
  destruct (get (Some data) (lit "models")) as [ms|] eqn:Eg; [|discriminate].
  assert (Hms : ms = prop data (lit "models")) by (destruct data; now inversion Eg).
  cbv zeta. intros H. injection H as <-.
  match goal with
  | |- context [updateReasoningToggleState ?c (?x, ?y)] =>
      destruct (updateReasoningToggleState c (x, y)) as [[c' p']|] eqn:E
  end.
  - split; [exact (update_some_agrees _ _ _ _ _ _ _ _ E)|].
    now repeat split.
  - split; [|now repeat split].
    apply no_support_agrees. apply update_none in E. exact E.
Qed.

End SettingsFacts.

(* ================================================================== *)
(** * Facts about the image preview                                    *)
(* ================================================================== *)

Section RoundingFacts.
Import SpecFloat.

Lemma shr_1_nonneg (mrs : shr_record) : 0 <= shr_m mrs -> 0 <= shr_m (shr_1 mrs).
Proof.
  destruct mrs as [m r s]. cbn [shr_m]. intros H.
  destruct m as [|[p|p|]|p]; cbn; lia.
Qed.

Lemma iter_shr_1_nonneg (p : positive) (mrs : shr_record) :
  0 <= shr_m mrs -> 0 <= shr_m (iter_pos shr_1 p mrs).
Proof.
  revert mrs. induction p as [p IH|p IH|]; intros mrs H; cbn [iter_pos].
  - apply IH, IH. now apply shr_1_nonneg.
  - now apply IH, IH.
  - now apply shr_1_nonneg.
Qed.

Lemma shr_fexp_nonneg (prec emax m e : Z) (l : location) :
  0 <= m -> 0 <= shr_m (fst (shr_fexp prec emax m e l)).
Proof.
  intros H. unfold shr_fexp, shr.
  assert (H0 : 0 <= shr_m (shr_record_of_loc m l)) by (now destruct l as [|[| |]]).
  destruct (_ - e) as [|p|p]; cbn [fst]; [exact H0| |exact H0].
  now apply iter_shr_1_nonneg.
Qed.

Lemma round_nearest_even_nonneg (m : Z) (l : location) :
  0 <= m -> 0 <= round_nearest_even m l.
Proof.
  intros H. unfold round_nearest_even.
  destruct l as [|[| |]]; try destruct (Z.even m); lia.
Qed.

Lemma binary_round_aux_number (prec emax : Z) (s : bool) (m e : Z) (l : location) :
  0 <= m -> binary_round_aux prec emax s m e l <> S754_nan.
Proof.
  intros H. unfold binary_round_aux.
  pose proof (shr_fexp_nonneg prec emax m e l H) as H1.
  destruct (shr_fexp prec emax m e l) as [mrs' e']. cbn [fst] in H1.
  pose proof (round_nearest_even_nonneg (shr_m mrs') (loc_of_shr_record mrs') H1) as H2.
  pose proof (shr_fexp_nonneg prec emax _ e' loc_Exact H2) as H3.
  destruct (shr_fexp prec emax _ e' loc_Exact) as [mrs'' e'']. cbn [fst] in H3.
  destruct (shr_m mrs'') as [|p|p]; [discriminate| |lia].
  destruct (_ <=? _); discriminate.
Qed.

Lemma SFmul_finite_number (prec emax : Z) (s1 s2 : bool) (m1 m2 : positive)
  (e1 e2 : Z) :
  SFmul prec emax (S754_finite s1 m1 e1) (S754_finite s2 m2 e2) <> S754_nan.
Proof. cbn [SFmul]. apply binary_round_aux_number. lia. Qed.

End RoundingFacts.

Section ZoomFacts.
Import Preview.

(** A number in the range is positive and finite. *)
Lemma in_range_finite (x : double) :
  in_range x -> exists m e, x = SpecFloat.S754_finite false m e.
Proof.
  unfold in_range, le, SpecFloat.SFleb. intros [H1 H2].
  destruct x as [s|s| |s m e]; try discriminate H1.
  - destruct s; [discriminate H1|discriminate H2].
  - destruct s; [discriminate H1|]. now exists m, e.
Qed.

Lemma Math_max_half (x : double) :
  x <> NaN ->
  (Math_max d_0_5 x = x /\ SpecFloat.SFcompare d_0_5 x = Some Lt)
  \/ Math_max d_0_5 x = d_0_5.
Proof.
  intros Hx. unfold Math_max.
  destruct (SpecFloat.SFcompare d_0_5 x) as [[| |]|] eqn:E.
  - right. now destruct x.
  - left. now split.
  - now right.
  - destruct x; try discriminate E. now elim Hx.
Qed.

Lemma Math_min_fifteen (y : double) :
  y <> NaN ->
  (Math_min y d_15 = y /\ le y d_15 = true) \/ Math_min y d_15 = d_15.
Proof.
  intros Hy. unfold Math_min, le, SpecFloat.SFleb.
  destruct (SpecFloat.SFcompare y d_15) as [[| |]|] eqn:E.
  - left. split; [now destruct y|reflexivity].
  - left. now split.
  - now right.
  - destruct y; try discriminate E. now elim Hy.
Qed.

Lemma clamp_in_range (x : double) :
  x <> NaN -> in_range (Math_min (Math_max d_0_5 x) d_15).
Proof.
  intros Hx. destruct (Math_max_half x Hx) as [[-> H1]| ->].
  - destruct (Math_min_fifteen x Hx) as [[-> H2]| ->]; [|now split].
    split; [|exact H2]. unfold le, SpecFloat.SFleb. now rewrite H1.
  - now split.
Qed.

Lemma wheel_scale (deltaY x y : double) (rect : Rect) (v : View) :
  in_range (scale v) -> in_range (scale (wheel deltaY x y rect v)).
Proof.
  intros H. destruct (in_range_finite _ H) as (m & e & Hs).
  unfold wheel. cbv zeta. cbn [updateTransform scale].
  apply clamp_in_range. rewrite Hs. unfold mul.
  destruct (gt deltaY d_0); apply SFmul_finite_number.
Qed.

Lemma one_in_range : in_range d_1.
Proof. now split. Qed.

Lemma step_scale (v : View) (e : action) :
  in_range (scale v) -> in_range (scale (step v e)).
Proof.
  intros H. destruct e; cbn [step].
  - apply one_in_range.
  - unfold handlePreviewOverlayClick. now destruct (_ || _).
  - unfold keydown. now destruct (str_eqb _ _).
  - exact H.
  - unfold mousemove. now destruct (negb _).
  - exact H.
  - now apply wheel_scale.
Qed.

End ZoomFacts.

Section ReasoningShown.

Lemma panel_shown_line (st : Locals * Panel.Page) (line : jsstring) :
  panel_reasoning_shown st -> panel_reasoning_shown (Panel.process_line st line).
Proof.
  destruct (panel_process_line_uniform line) as [e He]. rewrite He. clear He.
  assert (Hc : forall v s, panel_reasoning_shown s ->
                           panel_reasoning_shown (Panel.append_content v s)).
  { intros v [l p] H. exact H. }
  assert (Hr : forall v s, panel_reasoning_shown (Panel.append_reasoning v s)).
  { intros v [l p]. unfold panel_reasoning_shown.
    cbn [Panel.append_reasoning fst snd reasoningText].
    unfold Panel.showReasoningContent. cbv zeta.
    fold (visible (reasoningText l ++ ToString v)).
    destruct (visible (reasoningText l ++ ToString v)) eqn:Hv.
    - now repeat split.
    - split; [|discriminate]. unfold Panel.hideReasoningContent.
      now destruct (negb _). }
  intros H. destruct e; cbn [PanelSpec.apply_effect]; auto.
Qed.

Lemma panel_shown_chunk (value : list byte) (d : TextDecoder) (b : jsstring)
  (r : Panel.Run) (p : Panel.Page) :
  panel_reasoning_shown (Panel.locals r, p) ->
  panel_reasoning_ok (Panel.on_chunk value d b r p).
Proof.
  intros H. unfold panel_reasoning_ok, Panel.on_chunk.
  cbn [Panel.run Panel.page Panel.locals]. rewrite <- surjective_pairing.
  apply (read_chunk_preserves Panel.process_line panel_reasoning_shown);
    [|exact H].
  intros s line. apply panel_shown_line.
Qed.

Lemma panel_reasoning_frame (a : Panel.App) (q : Panel.Page) :
  Panel.reasoningContent q = Panel.reasoningContent (Panel.page a) ->
  Panel.reasoning_display q = Panel.reasoning_display (Panel.page a) ->
  Panel.reasoning_box_display q = Panel.reasoning_box_display (Panel.page a) ->
  panel_reasoning_ok a -> panel_reasoning_ok (Panel.mkApp q (Panel.run a)).
Proof.
  unfold panel_reasoning_ok, panel_reasoning_shown. cbn [Panel.run Panel.page fst snd].
  now intros -> -> ->.
Qed.

Lemma panel_step_reasoning (a a' : Panel.App) (e : event) :
  panel_reasoning_ok a -> Panel.step a e = Some a' -> panel_reasoning_ok a'.
Proof.
  intros Hok H. panel_step_cases a e H;
    try (apply panel_reasoning_frame; [reflexivity..|exact Hok]);
    try exact I.
  - unfold Panel.toggleRecognize, Panel.abort.
    destruct (Panel.isRecognizing (Panel.page a)).
    + destruct (Panel.run a) as [r|]; [|exact Hok].
      destruct (Panel.at_await r); exact I.
    + destruct (is_nil _).
      * apply panel_reasoning_frame; [reflexivity..|exact Hok].
      * unfold panel_reasoning_ok, panel_reasoning_shown, Panel.start.
        cbn [Panel.run Panel.page Panel.locals fst snd reasoningText].
        split; [destruct (Panel.reasoning_toggle (Panel.page a)); reflexivity|].
        discriminate.
  - apply panel_reasoning_frame; [unfold Panel.toggleBox; frame..|exact Hok].
  - unfold panel_reasoning_ok in *. rewrite Hrun in Hok.
    unfold Panel.on_response. destruct (_ && _); exact Hok.
  - apply panel_shown_chunk. unfold panel_reasoning_ok in Hok.
    now rewrite Hrun in Hok.
  - apply panel_reasoning_frame; [unfold Panel.auto_switch; frame..|exact Hok].
Qed.

Lemma basic_shown_line (st : Locals * Basic.Page) (line : jsstring) :
  basic_reasoning_shown st -> basic_reasoning_shown (Basic.process_line st line).
Proof.
  destruct (basic_process_line_uniform line) as [e He]. rewrite He. clear He.
  assert (Hc : forall v s, basic_reasoning_shown s ->
                           basic_reasoning_shown (Basic.append_content v s)).
  { intros v [l p] H. exact H. }
  assert (Hr : forall v s, basic_reasoning_shown (Basic.append_reasoning v s)).
  { intros v [l p]. unfold basic_reasoning_shown.
    cbn [Basic.append_reasoning fst snd reasoningText].
    unfold Basic.showReasoningContent. cbv zeta.
    fold (visible (reasoningText l ++ ToString v)).
    destruct (visible (reasoningText l ++ ToString v)) eqn:Hv.
    - now repeat split.
    - split; [reflexivity|]. split; [discriminate|reflexivity]. }
  intros H. destruct e; cbn [BasicSpec.apply_effect]; auto.
Qed.

End ReasoningShown.

(* ================================================================== *)
(** * Further properties of the scripts                                *)
(* ================================================================== *)

(** ** The lines of the stream *)

(** White space around a line does not count: a line is handled as the
    line without the white space before and after it, whatever the line
    is.  So a stream whose lines end in CR LF is handled as the stream with
    LF alone, the CR being what [split] leaves at the end of each line.  In
    both scripts. *)
Theorem surrounding_whitespace_ignored (pre suf : jsstring) :
  whitespace pre -> whitespace suf ->
  (forall line st,
      Basic.process_line st (pre ++ line ++ suf) = Basic.process_line st line)
  /\ (forall lines st,
      fold_left Basic.process_line (map (fun l => pre ++ l ++ suf) lines) st
      = fold_left Basic.process_line lines st)
  /\ (forall line st,
      Panel.process_line st (pre ++ line ++ suf) = Panel.process_line st line)
  /\ (forall lines st,
      fold_left Panel.process_line (map (fun l => pre ++ l ++ suf) lines) st
      = fold_left Panel.process_line lines st).
Proof.
  intros Hp Hs.
  assert (HB : forall line st,
             Basic.process_line st (pre ++ line ++ suf) = Basic.process_line st line).
  { intros line st. unfold Basic.process_line. now rewrite trim_whitespace. }
  assert (HP : forall line st,
             Panel.process_line st (pre ++ line ++ suf) = Panel.process_line st line).
  { intros line st. unfold Panel.process_line. now rewrite trim_whitespace. }
  split; [exact HB|]. split; [|split; [exact HP|]].
  - induction lines as [|l ls IH]; intros st; [reflexivity|].
    cbn [map fold_left]. now rewrite HB, IH.
  - induction lines as [|l ls IH]; intros st; [reflexivity|].
    cbn [map fold_left]. now rewrite HP, IH.
Qed.

Lemma surrounding_whitespace_ignored_witness :
  whitespace [] /\ whitespace CR
  /\ fullText (fst (fold_left Panel.process_line
                      (map (fun l => [] ++ l ++ CR) [one_delta; lit "data: [DONE]"])
                      (mkLocals [] [], panel_page [an_image] [])))
     = lit "late".
Proof.
  split; [reflexivity|]. split; [reflexivity|].
  rewrite (proj2 (proj2 (proj2
             (surrounding_whitespace_ignored [] CR eq_refl eq_refl)))).
  reflexivity.
Defined.

(** What follows the last line feed of the stream is never handled.  The
    loop keeps the text after the last line feed in [buffer], and nothing
    reads [buffer] once [reader.read()] says done: a last chunk without a
    line feed adds nothing, so a last data line that is not ended by a line
    feed is lost, and the call ends as if the stream had stopped before
    it.  In both scripts. *)
Theorem unterminated_tail_dropped (chunks : list (list byte)) (tail : list byte) :
  no_line_feed tail ->
  (forall st : Locals * Basic.Page,
      acc (read_all Basic.process_line (chunks ++ [tail]) (new_Reader st))
      = acc (read_all Basic.process_line chunks (new_Reader st)))
  /\ (forall st : Locals * Panel.Page,
      acc (read_all Panel.process_line (chunks ++ [tail]) (new_Reader st))
      = acc (read_all Panel.process_line chunks (new_Reader st)))
  /\ (forall (a : Basic.App) (r : Basic.Run) (now : Z) (time : jsstring),
      Basic.run a = Some r ->
      Basic.at_await r = AwaitRead new_TextDecoder [] ->
      Basic.exec a (map Read_chunk (chunks ++ [tail]) ++ [Read_done now time])
      = Basic.exec a (map Read_chunk chunks ++ [Read_done now time]))
  /\ (forall (a : Panel.App) (r : Panel.Run) (now : Z) (time : jsstring),
      Panel.run a = Some r ->
      Panel.at_await r = AwaitRead new_TextDecoder [] ->
      Panel.exec a (map Read_chunk (chunks ++ [tail]) ++ [Read_done now time])
      = Panel.exec a (map Read_chunk chunks ++ [Read_done now time])).
Proof.
  intros Ht.
  assert (H : forall St (pl : St -> jsstring -> St) (s : St),
             acc (read_all pl (chunks ++ [tail]) (new_Reader s))
             = acc (read_all pl chunks (new_Reader s))).
  { intros St pl s. rewrite read_all_snoc.
    apply read_chunk_no_line_feed; [|exact Ht].
    apply read_all_wf, new_Reader_wf. }
  split; [apply H|]. split; [apply H|]. split.
  - intros a r now time Hr Ha.
    rewrite !basic_exec_app, !(basic_exec_chunks _ a r _ _ Hr Ha).
    change (mkReader new_TextDecoder [] (Basic.locals r, Basic.page a))
      with (new_Reader (Basic.locals r, Basic.page a)).
    unfold BasicSpec.of_reader. cbn. now rewrite H.
  - intros a r now time Hr Ha.
    rewrite !panel_exec_app, !(panel_exec_chunks _ a r _ _ Hr Ha).
    change (mkReader new_TextDecoder [] (Panel.locals r, Panel.page a))
      with (new_Reader (Panel.locals r, Panel.page a)).
    unfold PanelSpec.of_reader. cbn. now rewrite H.
Qed.

Lemma unterminated_tail_dropped_witness :
  no_line_feed B_line
  /\ option_map (fun a => Basic.result_display (Basic.page a))
       (Basic.exec basic_reading
          (map Read_chunk ([A_line ++ LF] ++ [B_line])
           ++ [Read_done 1700000000000 (lit "10:00:00")]))
     = Some (lit "A").
Proof.
  split; [reflexivity|].
  rewrite (proj1 (proj2 (proj2 (unterminated_tail_dropped [A_line ++ LF] B_line eq_refl)))
             basic_reading _ 1700000000000 (lit "10:00:00") eq_refl eq_refl).
  reflexivity.
Defined.

(** ** What the stream can and cannot change *)

(** Whatever bytes the stream carries, reading them changes nothing but
    the two displays, the reasoning panel (or the boxes) and the console:
    the status indicator, the button, the running flag, the history, the
    staged images, the form controls, the alerts, the requests sent and the
    pending timers are after the chunks what they were before.  In both
    scripts. *)
Theorem stream_leaves_controls_alone (chunks : list (list byte)) :
  (forall (d : TextDecoder) (b : jsstring) (st : Locals * Basic.Page),
      basic_static (snd (acc (read_all Basic.process_line chunks (mkReader d b st))))
      = basic_static (snd st))
  /\ (forall (d : TextDecoder) (b : jsstring) (st : Locals * Panel.Page),
      panel_static (snd (acc (read_all Panel.process_line chunks (mkReader d b st))))
      = panel_static (snd st)).
Proof.
  split; intros d b st.
  - change (snd st) with (snd (acc (mkReader d b st))).
    generalize (mkReader d b st). clear.
    induction chunks as [|c cs IH]; intros r; [reflexivity|].
    cbn [read_all fold_left]. unfold read_all in IH. rewrite IH.
    apply (read_chunk_preserves Basic.process_line
             (fun s => basic_static (snd s) = basic_static (snd (acc r))));
      [|reflexivity].
    intros s line H. now rewrite basic_line_static.
  - change (snd st) with (snd (acc (mkReader d b st))).
    generalize (mkReader d b st). clear.
    induction chunks as [|c cs IH]; intros r; [reflexivity|].
    cbn [read_all fold_left]. unfold read_all in IH. rewrite IH.
    apply (read_chunk_preserves Panel.process_line
             (fun s => panel_static (snd s) = panel_static (snd (acc r))));
      [|reflexivity].
    intros s line H. now rewrite panel_line_static.
Qed.

(** ** The history *)



(** ** The button *)

(** The button tells whether a call is in progress.  On a page that starts
    with no call running and the button saying Start, after any events: a
    call is suspended exactly when [isRecognizing] is set, and then the
    button says Stop with the class [btn-stop]; otherwise it says Start
    without the class.  In both scripts. *)
Theorem button_shows_call :
  (forall (p0 : Basic.Page) (es : list event) (a : Basic.App),
      Basic.isRecognizing p0 = false ->
      Basic.btn_recognize p0 = Start_button ->
      Basic.exec (Basic.mkApp p0 None) es = Some a ->
      basic_button_ok a)
  /\ (forall (p0 : Panel.Page) (es : list event) (a : Panel.App),
      Panel.isRecognizing p0 = false ->
      Panel.btn_recognize p0 = Start_button ->
      Panel.exec (Panel.mkApp p0 None) es = Some a ->
      panel_button_ok a).
Proof.
  split; intros p0 es a Hidle Hbtn H.
  - apply (basic_exec_button es (Basic.mkApp p0 None) a); [|exact H]. now split.
  - apply (panel_exec_button es (Panel.mkApp p0 None) a); [|exact H]. now split.
Qed.

Lemma button_shows_call_witness :
  Basic.exec (Basic.mkApp (basic_page [an_image] []) None)
             [Click_recognize; Fetch_resolved 200] = Some basic_reading
  /\ Basic.btn_recognize (Basic.page basic_reading) = Stop_button
  /\ Basic.isRecognizing (Basic.page basic_reading) = true.
Proof.
  assert (E : Basic.exec (Basic.mkApp (basic_page [an_image] []) None)
                [Click_recognize; Fetch_resolved 200] = Some basic_reading)
    by reflexivity.
  split; [exact E|].
  pose proof (proj1 button_shows_call (basic_page [an_image] []) _ _
                eq_refl eq_refl E) as H.
  split; apply H.
Defined.

(** ** The requests *)

(** One request for each call, and none besides.  On a page that starts
    with no call running, an event either leaves the requests sent as they
    are, or it is a click on the button while no call is in progress and an
    image is staged: then a call starts and exactly one request is sent,
    with the [base64] of the staged images in their order, the prompt, the
    model and the reasoning switch as the page has them at the click.  A
    click while a call is in progress sends nothing.  In both scripts. *)
Theorem one_request_per_call :
  (forall (p0 : Basic.Page) (es : list event) (a a' : Basic.App) (e : event),
      Basic.isRecognizing p0 = false ->
      Basic.exec (Basic.mkApp p0 None) es = Some a ->
      Basic.step a e = Some a' ->
      Basic.requests (Basic.page a') = Basic.requests (Basic.page a)
      \/ (e = Click_recognize /\ Basic.run a = None
          /\ Basic.currentImages (Basic.page a) <> []
          /\ Basic.run a' = Some (Basic.mkRun (mkLocals [] []) AwaitFetch)
          /\ Basic.requests (Basic.page a')
             = Basic.requests (Basic.page a) ++ [basic_request (Basic.page a)]))
  /\ (forall (p0 : Panel.Page) (es : list event) (a a' : Panel.App) (e : event),
      Panel.isRecognizing p0 = false ->
      Panel.exec (Panel.mkApp p0 None) es = Some a ->
      Panel.step a e = Some a' ->
      Panel.requests (Panel.page a') = Panel.requests (Panel.page a)
      \/ (e = Click_recognize /\ Panel.run a = None
          /\ Panel.currentImages (Panel.page a) <> []
          /\ Panel.run a'
             = Some (Panel.mkRun (mkLocals [] [])
                                 (Panel.reasoning_toggle (Panel.page a)) AwaitFetch)
          /\ Panel.requests (Panel.page a')
             = Panel.requests (Panel.page a) ++ [panel_request (Panel.page a)])).
Proof.
  split; intros p0 es a a' e Hidle Hex Hstep.
  - destruct (basic_step_requests a a' e (basic_exec_inv es p0 a Hidle Hex) Hstep)
      as [H|(-> & Hr & Hn & ->)]; [now left|right].
    repeat split; try assumption; try reflexivity.
    intros E. now rewrite E in Hn.
  - destruct (panel_step_requests a a' e (panel_exec_inv es p0 a Hidle Hex) Hstep)
      as [H|(-> & Hr & Hn & ->)]; [now left|right].
    repeat split; try assumption; try reflexivity.
    + intros E. now rewrite E in Hn.
    + unfold Panel.start, panel_request. destruct (Panel.page a) eqn:Ep.
      cbn [Panel.page Panel.reasoning_toggle Panel.set_isRecognizing].
      destruct reasoning_toggle; reflexivity.
Qed.

Lemma one_request_per_call_witness :
  Basic.exec (Basic.mkApp (basic_page [an_image] []) None)
             [Click_recognize; Fetch_resolved 200] = Some basic_reading
  /\ Basic.step basic_reading Click_recognize
     = Some (basic_after basic_reading [Click_recognize])
  /\ Basic.requests (Basic.page (basic_after basic_reading [Click_recognize]))
     = [basic_request (basic_page [an_image] [])].
Proof.
  assert (E : Basic.exec (Basic.mkApp (basic_page [an_image] []) None)
                [Click_recognize; Fetch_resolved 200] = Some basic_reading)
    by reflexivity.
  assert (S : Basic.step basic_reading Click_recognize
              = Some (basic_after basic_reading [Click_recognize])) by reflexivity.
  split; [exact E|]. split; [exact S|].
  destruct (proj1 one_request_per_call (basic_page [an_image] []) _ _ _ _
              eq_refl E S) as [H|(_ & H & _)].
  - rewrite H. reflexivity.
  - discriminate H.
Defined.

(** ** Calls that fail *)



(** A request or a stream that fails ends the call with the error's
    message.  When [fetch] or [reader.read()] is rejected with an error
    that is not named AbortError, the call ends with the status [Error: ]
    followed by the message of the error, with the class [error]; the
    message is logged; the text received so far stays on the displays but
    is not added to the history; the button is Start again.  In both
    scripts; the one with the boxes marks both boxes with the error. *)
Theorem rejection_outcome (err : JSError) :
  not_abort err ->
  (forall (a : Basic.App) (r : Basic.Run),
      Basic.run a = Some r ->
      (Basic.at_await r = AwaitFetch ->
       exists a', Basic.step a (Fetch_rejected err) = Some a'
                  /\ basic_ended_in_error (err_message err) a a')
      /\ (forall d b, Basic.at_await r = AwaitRead d b ->
          exists a', Basic.step a (Read_rejected err) = Some a'
                     /\ basic_ended_in_error (err_message err) a a'))
  /\ (forall (a : Panel.App) (r : Panel.Run),
      Panel.run a = Some r ->
      (Panel.at_await r = AwaitFetch ->
       exists a', Panel.step a (Fetch_rejected err) = Some a'
                  /\ panel_ended_in_error (err_message err) a a')
      /\ (forall d b, Panel.at_await r = AwaitRead d b ->
          exists a', Panel.step a (Read_rejected err) = Some a'
                     /\ panel_ended_in_error (err_message err) a a')).
Proof.
  intros Hn. split; intros a r Hr; split.
  - intros Ha. cbn [Basic.step]. rewrite Hr, Ha. eexists. split; [reflexivity|].
    now apply basic_throw_error.
  - intros d b Ha. cbn [Basic.step]. rewrite Hr, Ha. eexists. split; [reflexivity|].
    now apply basic_throw_error.
  - intros Ha. cbn [Panel.step]. rewrite Hr, Ha. eexists. split; [reflexivity|].
    now apply panel_throw_error.
  - intros d b Ha. cbn [Panel.step]. rewrite Hr, Ha. eexists. split; [reflexivity|].
    now apply panel_throw_error.
Qed.

Lemma rejection_outcome_witness :
  not_abort network_down
  /\ exists a',
       Basic.step basic_connecting (Fetch_rejected network_down) = Some a'
       /\ Basic.status_indicator (Basic.page a')
          = mkStatus (lit "Error: Failed to fetch") (lit "error").
Proof.
  split; [reflexivity|].
  destruct (proj1 (proj1 (rejection_outcome network_down eq_refl)
                     basic_connecting _ eq_refl) eq_refl)
    as (a' & He & Hs & _).
  exists a'. split; [exact He|exact Hs].
Defined.

(** ** The box status indicators at the end of a call *)

(** How the script with the boxes marks the boxes when a call that started
    on an idle page has read its stream to the end and has a result.  The
    status says Done and the output box is marked completed.  The reasoning
    box is marked completed only when the reasoning switch was on at the
    start and reasoning text arrived.  Otherwise its indicator stays as the
    loop left it: spinning when the switch was on (and no reasoning came),
    spinning as well when the switch was off and reasoning that is not blank
    came all the same, and plain when the switch was off and no visible
    reasoning came. *)
Theorem completion_marks (p0 : Panel.Page) (chunks : list (list byte))
  (now : Z) (time : jsstring) :
  Panel.isRecognizing p0 = false -> Panel.currentImages p0 <> [] ->
  nonempty (strip_markers (fullText (fst (panel_loop_end p0 chunks)))) = true ->
  exists a',
    Panel.exec (Panel.mkApp p0 None) (whole_call chunks now time) = Some a'
    /\ Panel.run a' = None
    /\ Panel.status_indicator (Panel.page a') = mkStatus (lit "Done") (lit "success")
    /\ Panel.output_status (Panel.page a') = completed
    /\ Panel.reasoning_status (Panel.page a')
       = reasoning_end_mark (Panel.reasoning_toggle p0)
           (reasoningText (fst (panel_loop_end p0 chunks))).
Proof.
  intros Hidle Himg Hne. rewrite (panel_whole_call p0 chunks now time Hidle Himg).
  eexists. split; [reflexivity|]. split; [reflexivity|]. cbn [Panel.page].
  destruct (panel_after_loop_marks now time
              (Panel.mkRun (fst (panel_loop_end p0 chunks)) (Panel.reasoning_toggle p0)
                           (AwaitRead new_TextDecoder []))
              (snd (panel_loop_end p0 chunks)) Hne) as (Ho & Hr & Hs).
  split; [exact Hs|]. split; [exact Ho|]. rewrite Hr.
  cbn [Panel.reasoningEnabled Panel.locals]. unfold reasoning_end_mark.
  destruct (_ && _); [reflexivity|].
  unfold panel_loop_end.
  apply (panel_mark_chunks (Panel.reasoning_toggle p0) chunks).
  apply panel_start_mark.
Qed.

Lemma completion_marks_witness :
  exists a',
    Panel.exec (Panel.mkApp switch_off_page None)
               (whole_call unasked_reasoning 1700000000000 (lit "10:00:00"))
    = Some a'
    /\ Panel.status_indicator (Panel.page a') = mkStatus (lit "Done") (lit "success")
    /\ Panel.output_status (Panel.page a') = completed
    /\ Panel.reasoning_status (Panel.page a') = spinning.
Proof.
  destruct (completion_marks switch_off_page unasked_reasoning
              1700000000000 (lit "10:00:00") eq_refl ltac:(discriminate) eq_refl)
    as (a' & He & _ & Hs & Ho & Hr).
  exists a'. split; [exact He|]. split; [exact Hs|]. split; [exact Ho|].
  rewrite Hr. reflexivity.
Defined.

(** ** The toggle icons and the boxes *)

(** The toggle icons show the state of what they toggle.  When the icon of
    the reasoning panel (basic script) or the icons of the two boxes (the
    other script) agree with the state of the panel or the boxes, up for
    expanded and down for collapsed, they still do after any events; and
    once a call has been started they agree whatever the page was. *)
Theorem icons_show_state :
  (forall (es : list event) (a a' : Basic.App),
      basic_icon_ok (Basic.page a) -> Basic.exec a es = Some a' ->
      basic_icon_ok (Basic.page a'))
  /\ (forall (es : list event) (a a' : Panel.App),
      panel_icons_ok (Panel.page a) -> Panel.exec a es = Some a' ->
      panel_icons_ok (Panel.page a'))
  /\ (forall p : Basic.Page, basic_icon_ok (Basic.page (Basic.start p)))
  /\ (forall p : Panel.Page, panel_icons_ok (Panel.page (Panel.start p))).
Proof.
  split; [|split; [|split]].
  - induction es as [|e es IH]; intros a a' Hok H; cbn [Basic.exec] in H.
    + now injection H as <-.
    + destruct (Basic.step a e) as [a1|] eqn:E; [|discriminate].
      apply (IH a1); [now apply (basic_step_icon a a1 e)|exact H].
  - induction es as [|e es IH]; intros a a' Hok H; cbn [Panel.exec] in H.
    + now injection H as <-.
    + destruct (Panel.step a e) as [a1|] eqn:E; [|discriminate].
      apply (IH a1); [now apply (panel_step_icons a a1 e)|exact H].
  - reflexivity.
  - apply panel_icons_start.
Qed.

Lemma icons_show_state_witness :
  panel_icons_ok (panel_page [an_image] [])
  /\ Panel.exec (Panel.mkApp (panel_page [an_image] []) None)
                [Click_box (lit "output"); Click_recognize; Fetch_resolved 200]
     = Some panel_reading
  /\ Panel.reasoning_toggle_icon (Panel.page panel_reading) = icon_up.
Proof.
  assert (H0 : panel_icons_ok (panel_page [an_image] [])) by (split; reflexivity).
  assert (E : Panel.exec (Panel.mkApp (panel_page [an_image] []) None)
                [Click_box (lit "output"); Click_recognize; Fetch_resolved 200]
              = Some panel_reading) by (vm_compute; reflexivity).
  split; [exact H0|]. split; [exact E|].
  destruct (proj1 (proj2 icons_show_state) _
              (Panel.mkApp (panel_page [an_image] []) None) _ H0 E) as (-> & _).
  reflexivity.
Defined.

(** A click on either box header swaps the two boxes.  On a page where
    exactly one box is expanded, [toggleBox] gives the same page for the
    reasoning header and for the output header (or for any other argument):
    the expanded box is collapsed and the collapsed one expanded, with their
    icons.  A second click, on either header, gives back the page as it
    was when its icons agreed with the boxes. *)
Theorem header_click_swaps (p : Panel.Page) (b1 b2 : jsstring) :
  exclusive p ->
  Panel.toggleBox b1 p = Panel.toggleBox b2 p
  /\ Panel.has_expanded (Panel.reasoning_box (Panel.toggleBox b1 p))
     = negb (Panel.has_expanded (Panel.reasoning_box p))
  /\ Panel.has_expanded (Panel.output_box (Panel.toggleBox b1 p))
     = negb (Panel.has_expanded (Panel.output_box p))
  /\ (panel_icons_ok p -> Panel.toggleBox b2 (Panel.toggleBox b1 p) = p).
Proof.
  unfold exclusive, box_ok, panel_icons_ok, Panel.toggleBox. cbv zeta.
  destruct p as [? ? ? ? ? ? ? ? ? ? ? [re rc] ? [oe oc] ri oi ? ? ? ? ? ?].
  cbn [Panel.reasoning_box Panel.output_box Panel.has_expanded Panel.has_collapsed
       Panel.reasoning_toggle_icon Panel.output_toggle_icon].
  intros (Hx & -> & ->).
  destruct (str_eqb b1 _), (str_eqb b2 _), re, oe; try discriminate Hx;
    (split; [reflexivity|split; [reflexivity|split; [reflexivity|]]]);
    intros [-> ->]; reflexivity.
Qed.

Lemma header_click_swaps_witness :
  exclusive (panel_page [an_image] [])
  /\ Panel.toggleBox (lit "output") (panel_page [an_image] []) = reasoning_open
  /\ Panel.toggleBox (lit "output") reasoning_open = panel_page [an_image] [].
Proof.
  assert (H0 : exclusive (panel_page [an_image] []))
    by (repeat split; reflexivity).
  split; [exact H0|].
  destruct (header_click_swaps (panel_page [an_image] []) (lit "reasoning")
              (lit "output") H0) as (H1 & _ & _ & H2).
  split.
  - symmetry. exact H1.
  - apply H2. split; reflexivity.
Defined.

(** ** The result display during a call *)

(** The result display shows the text accumulated so far.  In the script
    with the boxes, on a page that started with no call running, whenever a
    call is suspended the result display holds exactly its [fullText].  In
    the basic script, where Clear can empty the display during a call, a
    chunk either adds no text and leaves the display as it is, or leaves
    the display holding the whole [fullText], the text received before
    included. *)
Theorem display_shows_accumulated_text :
  (forall (p0 : Panel.Page) (es : list event) (a : Panel.App) (r : Panel.Run),
      Panel.isRecognizing p0 = false ->
      Panel.exec (Panel.mkApp p0 None) es = Some a ->
      Panel.run a = Some r ->
      Panel.result_display (Panel.page a) = fullText (Panel.locals r))
  /\ (forall (a a' : Basic.App) (r r' : Basic.Run) (chunk : list byte),
      Basic.run a = Some r ->
      Basic.step a (Read_chunk chunk) = Some a' ->
      Basic.run a' = Some r' ->
      (fullText (Basic.locals r') = fullText (Basic.locals r)
       /\ Basic.result_display (Basic.page a') = Basic.result_display (Basic.page a))
      \/ Basic.result_display (Basic.page a') = fullText (Basic.locals r')).
Proof.
  split.
  - intros p0 es a r Hidle Hex Hr.
    pose proof (panel_exec_inv es p0 a Hidle Hex) as Hinv.
    unfold PanelSpec.run_inv in Hinv. rewrite Hr in Hinv. apply Hinv.
  - intros a a' r r' chunk Hr Hstep Hr'. cbn [Basic.step] in Hstep.
    rewrite Hr in Hstep.
    destruct (Basic.at_await r) as [| |d b]; try discriminate Hstep.
    injection Hstep as <-. unfold Basic.on_chunk in *.
    cbn [Basic.run Basic.page] in *. injection Hr' as <-. cbn [Basic.locals].
    apply (read_chunk_preserves Basic.process_line
             (fun s => (fullText (fst s) = fullText (Basic.locals r)
                        /\ Basic.result_display (snd s)
                           = Basic.result_display (Basic.page a))
                       \/ Basic.result_display (snd s) = fullText (fst s))).
    + intros s line. apply (basic_display_lines _ _ [line]).
    + left. split; reflexivity.
Qed.

Lemma display_shows_accumulated_text_witness :
  Basic.step basic_one_delta Clear = Some (basic_after basic_one_delta [Clear])
  /\ Basic.result_display (Basic.page (basic_after basic_one_delta [Clear])) = []
  /\ Basic.step (basic_after basic_one_delta [Clear]) (Read_chunk second_delta)
     = Some (basic_after basic_one_delta [Clear; Read_chunk second_delta])
  /\ Basic.result_display
       (Basic.page (basic_after basic_one_delta [Clear; Read_chunk second_delta]))
     = lit "Hello".
Proof.
  assert (S : Basic.step (basic_after basic_one_delta [Clear]) (Read_chunk second_delta)
              = Some (basic_after basic_one_delta [Clear; Read_chunk second_delta]))
    by reflexivity.
  split; [reflexivity|]. split; [reflexivity|]. split; [exact S|].
  destruct (proj2 display_shows_accumulated_text
              (basic_after basic_one_delta [Clear])
              (basic_after basic_one_delta [Clear; Read_chunk second_delta])
              _ _ second_delta eq_refl S eq_refl) as [(H & _)|H].
  - discriminate H.
  - rewrite H. reflexivity.
Defined.

(** ** Copying: the clipboard and the status indicator

    [copyResult], [copyToClipboard], [copyHistoryItem] and [openHistory]
    are the same in the two scripts; the properties hold for both
    ([basic_lawful], [panel_lawful]). *)

(** What is copied.  [navigator.clipboard.writeText] is called by the Copy
    button with the text of the result display, and only when that text is
    not empty, and by the Copy button of a history row with the text of the
    entry at that index of [sessionHistory], and only when there is such an
    entry.  Nothing else calls it, and an empty result display or an index
    beyond the list leaves everything as it is. *)
Theorem clipboard_requests (script : Script) (d d' : Desk.State (SApp script))
  (e : Desk.action) :
  Desk.step script d e = Some d' ->
  (Desk.writes d' = Desk.writes d
   \/ (e = Desk.Click_copy
       /\ nonempty (s_result_display script (Desk.page script d)) = true
       /\ Desk.writes d'
          = Desk.writes d ++ [s_result_display script (Desk.page script d)])
   \/ (exists index h,
         e = Desk.Click_copy_item index
         /\ nth_error (s_sessionHistory script (Desk.page script d)) index = Some h
         /\ Desk.writes d' = Desk.writes d ++ [h_text h]))
  /\ (e = Desk.Click_copy -> s_result_display script (Desk.page script d) = [] -> d' = d)
  /\ (forall index,
        e = Desk.Click_copy_item index ->
        (List.length (s_sessionHistory script (Desk.page script d)) <= index)%nat ->
        d' = d).
Proof.
  intros H. split; [now apply desk_step_writes|]. split.
  - intros -> Hr. cbn [Desk.step] in H. unfold Desk.copyResult in H.
    rewrite Hr in H. now injection H.
  - intros index -> Hl. cbn [Desk.step] in H. unfold Desk.copyHistoryItem in H.
    apply nth_error_None in Hl. rewrite Hl in H. now injection H.
Qed.

Lemma clipboard_requests_witness :
  Desk.step basic_script (Desk.fresh history_end) (Desk.Click_copy_item 1)
  = Some copied_earlier
  /\ Desk.writes copied_earlier = [lit "earlier"].
Proof.
  assert (E : Desk.step basic_script (Desk.fresh history_end)
                (Desk.Click_copy_item 1) = Some copied_earlier)
    by (vm_compute; reflexivity).
  split; [exact E|].
  destruct (proj1 (clipboard_requests basic_script _ _ _ E))
    as [H|[(H & _)|(index & h & Hi & Hn & Hw)]].
  - reflexivity.
  - discriminate H.
  - reflexivity.
Defined.

(** The status a copy puts aside comes back, whatever happened meanwhile.
    When [writeText] succeeds the status shows Copied! with the class
    [success], and the timer set then writes back the text and the class
    the status had at that moment.  With no other copy pending, after any
    events of the page in between (a call that starts, ends, fails), the
    status is again what it was when the text was copied: a status written
    in between, such as Done or an error, is overwritten. *)
Theorem copied_status_put_back (script : Script) (d d' : Desk.State (SApp script))
  (es : list event) :
  lawful script -> Desk.restores d = [] ->
  Desk.exec script d ([Desk.Clipboard_written] ++ map Desk.Page_event es
               ++ [Desk.Restore_timer]) = Some d' ->
  (exists d1, Desk.step script d Desk.Clipboard_written = Some d1
              /\ s_status_indicator script (Desk.page script d1) = Desk.Copied)
  /\ s_status_indicator script (Desk.page script d')
     = s_status_indicator script (Desk.page script d)
  /\ Desk.restores d' = [].
Proof.
  intros laws Hq H. split; [|now apply (desk_copy_restore script laws d d' es)].
  change ([Desk.Clipboard_written] ++ ?x) with (Desk.Clipboard_written :: x) in H.
  cbn [Desk.exec] in H. destruct (Desk.step script d Desk.Clipboard_written) as [d1|] eqn:E;
    [|discriminate].
  exists d1. split; [reflexivity|]. cbn [Desk.step] in E.
  destruct (Desk.pending d) as [|n]; [discriminate|]. injection E as <-.
  apply (desk_copied script laws).
Qed.

Lemma copied_status_put_back_witness :
  Desk.exec basic_script copying_while_reading
    ([Desk.Clipboard_written]
     ++ map Desk.Page_event [Read_done 1700000000000 (lit "10:00:00")]
     ++ [Desk.Restore_timer])
  = Some copy_put_back
  /\ Basic.run (Desk.app copy_put_back) = None
  /\ Basic.status_indicator (Desk.page basic_script copy_put_back) = Processing.
Proof.
  assert (E : Desk.exec basic_script copying_while_reading
                ([Desk.Clipboard_written]
                 ++ map Desk.Page_event [Read_done 1700000000000 (lit "10:00:00")]
                 ++ [Desk.Restore_timer])
              = Some copy_put_back) by (vm_compute; reflexivity).
  split; [exact E|]. split; [reflexivity|].
  destruct (copied_status_put_back basic_script copying_while_reading copy_put_back
              _ basic_lawful eq_refl E)
    as (_ & H & _).
  cbn [s_status_indicator basic_script] in H. rewrite H. reflexivity.
Defined.

(** Two copies in a row leave Copied! on the status indicator.  When a
    text is copied again before the timer of the copy before has fired, the
    second copy puts aside the Copied! status itself, and its timer, the
    last to fire, writes it back: with no timer pending at the start, after
    two or more copies and as many timers the status says Copied! with the
    class [success], and not what it said before the copies. *)
Theorem repeated_copy_sticks (script : Script) (d : Desk.State (SApp script)) (k : nat) :
  lawful script -> Desk.restores d = [] -> (k + 2 <= Desk.pending d)%nat ->
  exists d',
    Desk.exec script d (repeat Desk.Clipboard_written (k + 2)
                 ++ repeat Desk.Restore_timer (k + 2)) = Some d'
    /\ s_status_indicator script (Desk.page script d') = Desk.Copied
    /\ Desk.restores d' = []
    /\ Desk.writes d' = Desk.writes d.
Proof.
  intros laws Hq Hp. rewrite desk_exec_app.
  destruct (desk_copies script laws (k + 2) d Hp) as (d1 & He & Hr & _ & Hw).
  rewrite He. rewrite Hq in Hr. replace (k + 2)%nat with (S (S k)) in * by lia.
  cbn [List.app] in Hr.
  destruct (desk_restores_fire script laws _ d1 Hr) as (d' & He' & Hr' & Hs & Hw').
  cbn [List.length] in He'. rewrite repeat_length in He'.
  exists d'. split; [exact He'|]. split; [|split; [exact Hr'|congruence]].
  rewrite Hs.
  generalize (s_status_indicator script (Desk.page script d)) as s.
  generalize (s_status_indicator script (Desk.page script d1)) as s1.
  clear. intros s1 s. induction k as [|k IH]; [reflexivity|].
  cbn [repeat] in *. cbn [last] in *. exact IH.
Qed.

Lemma repeated_copy_sticks_witness :
  exists d',
    Desk.exec panel_script two_copies_pending
      (repeat Desk.Clipboard_written (0 + 2) ++ repeat Desk.Restore_timer (0 + 2))
    = Some d'
    /\ Panel.status_indicator (Desk.page panel_script d') = Desk.Copied.
Proof.
  destruct (repeated_copy_sticks panel_script two_copies_pending 0
              panel_lawful eq_refl ltac:(vm_compute; lia))
    as (d' & He & Hs & _).
  exists d'. split; [exact He|exact Hs].
Defined.

(** ** The history list *)

(** What [openHistory] renders.  The modal is shown, and the list holds
    the No records line exactly when the history is empty; otherwise it
    holds one row for each entry, in the order of [sessionHistory] (the
    newest first), each with its index in the Copy button.  The preview of
    an entry is its first 60 code units with every line feed and carriage
    return replaced by a space, followed by three dots, also when the text
    is shorter than 60: at most 63 code units, without a line break.
    Nothing is copied and the page is not changed. *)
Theorem history_list_rendering (script : Script) (d : Desk.State (SApp script)) :
  (exists d',
      Desk.step script d Desk.Click_history = Some d'
      /\ Desk.history_modal d' = lit "block"
      /\ Desk.app d' = Desk.app d /\ Desk.writes d' = Desk.writes d
      /\ (s_sessionHistory script (Desk.page script d) = [] ->
          Desk.history_list d' = Desk.no_records)
      /\ (s_sessionHistory script (Desk.page script d) <> [] ->
          Desk.history_list d'
          = List.concat (Desk.history_rows 0
                           (s_sessionHistory script (Desk.page script d)))
          /\ Desk.history_list d' <> Desk.no_records))
  /\ (forall text,
        Desk.preview text
        = Desk.replace_line_breaks (firstn 60 text) ++ lit "..."
        /\ (List.length (Desk.preview text) <= 63)%nat
        /\ ~ In 10 (Desk.preview text) /\ ~ In 13 (Desk.preview text)).
Proof.
  split; [|exact preview_bounds].
  eexists. split; [reflexivity|]. split; [reflexivity|].
  split; [reflexivity|]. split; [reflexivity|].
  cbn [Desk.openHistory Desk.history_list Desk.set_history_list
       Desk.set_history_modal].
  split.
  - intros ->. reflexivity.
  - intros Hne. destruct (s_sessionHistory script (Desk.page script d)) as [|h rest];
      [congruence|].
    destruct (history_html_cons h rest) as (H1 & H2). split; [exact H1|].
    intros E. rewrite E in H2. discriminate H2.
Qed.

(** The Copy button of a row copies what the history holds at the click.
    A row carries the index it had when the list was rendered, and
    [copyHistoryItem] reads [sessionHistory] at that index when the button
    is clicked.  So when a call ends with a result while the list is open,
    the list still shows the rows of before, but the first row now copies
    the new result and each other row copies the text of the row above it.
    In both scripts. *)
Theorem history_row_copies_current_entry (now : Z) (time : jsstring) :
  (forall (d : Desk.State Basic.App) (r : Basic.Run) dec b,
      Basic.run (Desk.app d) = Some r -> Basic.at_await r = AwaitRead dec b ->
      nonempty (strip_markers (fullText (Basic.locals r))) = true ->
      exists d',
        Desk.exec basic_script d
          [Desk.Click_history; Desk.Page_event (Read_done now time)] = Some d'
        /\ Desk.history_list d'
           = Desk.history_html (Basic.sessionHistory (Basic.page (Desk.app d)))
        /\ option_map Desk.writes
             (Desk.step basic_script d' (Desk.Click_copy_item 0))
           = Some (Desk.writes d ++ [strip_markers (fullText (Basic.locals r))])
        /\ forall i h,
             nth_error (Basic.sessionHistory (Basic.page (Desk.app d))) i = Some h ->
             option_map Desk.writes
               (Desk.step basic_script d' (Desk.Click_copy_item (S i)))
             = Some (Desk.writes d ++ [h_text h]))
  /\ (forall (d : Desk.State Panel.App) (r : Panel.Run) dec b,
      Panel.run (Desk.app d) = Some r -> Panel.at_await r = AwaitRead dec b ->
      nonempty (strip_markers (fullText (Panel.locals r))) = true ->
      exists d',
        Desk.exec panel_script d
          [Desk.Click_history; Desk.Page_event (Read_done now time)] = Some d'
        /\ Desk.history_list d'
           = Desk.history_html (Panel.sessionHistory (Panel.page (Desk.app d)))
        /\ option_map Desk.writes
             (Desk.step panel_script d' (Desk.Click_copy_item 0))
           = Some (Desk.writes d ++ [strip_markers (fullText (Panel.locals r))])
        /\ forall i h,
             nth_error (Panel.sessionHistory (Panel.page (Desk.app d))) i = Some h ->
             option_map Desk.writes
               (Desk.step panel_script d' (Desk.Click_copy_item (S i)))
             = Some (Desk.writes d ++ [h_text h])).
Proof.
  split; intros d r dec b Hr Ha Hne.
  - cbn [Desk.exec Desk.step s_step basic_script Desk.openHistory
         Desk.set_history_list Desk.set_history_modal Desk.app].
    change (SApp basic_script) with Basic.App.
    rewrite (basic_done_step (Desk.app d) r dec b now time Hr Ha).
    eexists. split; [reflexivity|]. split; [reflexivity|].
    unfold Desk.copyHistoryItem, Desk.page.
    cbn [Desk.step Desk.app Desk.set_app s_page s_sessionHistory basic_script
         Basic.page].
    destruct (basic_finally_frame
                (Basic.after_loop now time r (Basic.page (Desk.app d)))) as (-> & _).
    destruct (basic_after_loop_history now time r (Basic.page (Desk.app d)) Hne)
      as (-> & _).
    split; [reflexivity|]. intros i h Hi. cbn [nth_error]. rewrite Hi. reflexivity.
  - cbn [Desk.exec Desk.step s_step panel_script Desk.openHistory
         Desk.set_history_list Desk.set_history_modal Desk.app].
    change (SApp panel_script) with Panel.App.
    rewrite (panel_done_step (Desk.app d) r dec b now time Hr Ha).
    eexists. split; [reflexivity|]. split; [reflexivity|].
    unfold Desk.copyHistoryItem, Desk.page.
    cbn [Desk.step Desk.app Desk.set_app s_page s_sessionHistory panel_script
         Panel.page].
    destruct (panel_finally_frame
                (Panel.after_loop now time r (Panel.page (Desk.app d)))) as (-> & _).
    destruct (panel_after_loop_history now time r (Panel.page (Desk.app d)) Hne)
      as (-> & _).
    split; [reflexivity|]. intros i h Hi. cbn [nth_error]. rewrite Hi. reflexivity.
Qed.

Lemma history_row_copies_current_entry_witness :
  exists d',
    Desk.exec panel_script (Desk.fresh panel_hello_read)
      [Desk.Click_history;
       Desk.Page_event (Read_done 1700000000000 (lit "10:00:00"))] = Some d'
    /\ Desk.history_list d' = Desk.history_html [earlier_item]
    /\ option_map Desk.writes
         (Desk.step panel_script d' (Desk.Click_copy_item 0))
       = Some [lit "HELLO"].
Proof.
  destruct (proj2 (history_row_copies_current_entry 1700000000000 (lit "10:00:00"))
              (Desk.fresh panel_hello_read) _ _ _ eq_refl eq_refl eq_refl)
    as (d' & He & Hl & Hc & _).
  exists d'. split; [exact He|]. split; [exact Hl|exact Hc].
Defined.

(** ** The reasoning switch and the selected model ([part_000]) *)

(** What [updateReasoningToggleState] does to the switch.  When [models]
    is undefined or null, or no entry has the selected id, nothing changes.
    When [models] is no array, or a [null] entry comes before the selected
    one, it throws and nothing changes.  Otherwise the first entry with the
    selected id decides: only the string ['true'] as [supports_reasoning]
    leaves the switch free (enabled, [checked] as it was); the string
    ['default'] locks it on; everything else, the string ['false'], a
    missing field or the boolean [true] as well, locks it off.  A locked
    switch is disabled together with its container.  Calling it twice is
    the same as calling it once. *)
Theorem switch_follows_model (config : Settings.Config)
  (st : Settings.Controls * Panel.Page) :
  let found := Settings.find_model (Settings.models config)
                                   (Panel.model_select (snd st)) in
  (found = None -> Settings.updateReasoningToggleState config st = None)
  /\ (found = Some None -> Settings.updateReasoningToggleState config st = Some st)
  /\ (forall model,
        found = Some (Some model) ->
        let support := prop model (lit "supports_reasoning") in
        exists st',
          Settings.updateReasoningToggleState config st = Some st'
          /\ (is_string support (lit "true") = true ->
              st' = (Settings.mkControls false (lit "1") false (lit "pointer"),
                     snd st))
          /\ (is_string support (lit "default") = true ->
              st' = (Settings.mkControls true (lit "0.7") true (lit "not-allowed"),
                     Panel.set_reasoning_toggle true (snd st)))
          /\ (is_string support (lit "true") = false ->
              is_string support (lit "default") = false ->
              st' = (Settings.mkControls true (lit "0.5") true (lit "not-allowed"),
                     Panel.set_reasoning_toggle false (snd st)))
          /\ Settings.toggle_disabled (fst st')
             = Settings.container_disabled (fst st')
          /\ Settings.updateReasoningToggleState config st' = Some st').
Proof.
  cbv zeta. split; [|split].
  - intros H. unfold Settings.updateReasoningToggleState. now rewrite H.
  - intros H. unfold Settings.updateReasoningToggleState. now rewrite H.
  - intros model H. rewrite (update_found config st model H). cbv zeta.
    eexists. split; [reflexivity|].
    assert (Hi : forall st', Settings.updateReasoningToggleState config st = Some st' ->
                 Settings.updateReasoningToggleState config st' = Some st')
      by (intros st'; apply update_idempotent).
    rewrite (update_found config st model H) in Hi. cbv zeta in Hi.
    destruct (is_string _ (lit "true")) eqn:E1;
      [|destruct (is_string _ (lit "default")) eqn:E2].
    + split; [reflexivity|]. split.
      * intros E2. exfalso.
        destruct (prop model (lit "supports_reasoning")) as [[| | |s| |]|];
          try discriminate E1.
        cbn [is_string] in *. apply str_eqb_eq in E1, E2. subst s. discriminate E2.
      * split; [discriminate|]. split; [reflexivity|]. now apply Hi.
    + split; [discriminate|]. split; [reflexivity|]. split; [discriminate|].
      split; [reflexivity|]. now apply Hi.
    + split; [discriminate|]. split; [discriminate|]. split; [reflexivity|].
      split; [reflexivity|]. now apply Hi.
Qed.

Lemma switch_follows_model_witness :
  Settings.find_model (Some (JArr [JObj []; plain_model])) (lit "model")
  = Some (Some plain_model)
  /\ Settings.updateReasoningToggleState
       (Settings.mkConfig (Some (JArr [JObj []; plain_model])) None None)
       (free_switch, panel_page [an_image] [])
     = Some (Settings.mkControls true (lit "0.5") true (lit "not-allowed"),
             Panel.set_reasoning_toggle false (panel_page [an_image] [])).
Proof.
  split; [reflexivity|].
  destruct (proj2 (proj2 (switch_follows_model
                            (Settings.mkConfig (Some (JArr [JObj []; plain_model]))
                                               None None)
                            (free_switch, panel_page [an_image] [])))
              plain_model eq_refl) as (st' & -> & _ & _ & H & _).
  now rewrite (H eq_refl eq_refl).
Defined.

(** Once the configuration is loaded, the switch agrees with the selected
    model, and so does the request.  When the body of [/api/models] is read
    and is not [null], the listeners are in place and the switch is as the
    selected model asks, if the list has it.  From then on this holds
    after any events: the user selecting a model, using the switch (which a
    disabled switch does not allow), calls starting and ending.  So a call
    started while the selected model has anything but ['true'] as
    [supports_reasoning] sends [enable_reasoning] true exactly when it is
    ['default']. *)
Theorem switch_agrees_with_model (assign : value -> jsstring) :
  (forall (s s' : Settings.State) (data : JSON),
      Settings.load s = Settings.Load_reading -> data <> JNull ->
      Settings.step assign s (Settings.Models_body (Some data)) = Some s' ->
      Settings.agrees s' /\ Settings.listening s' = true
      /\ Settings.load s' = Settings.Load_over
      /\ Settings.models (Settings.config s') = prop data (lit "models"))
  /\ (forall (s s' : Settings.State) (es : list Settings.action),
      Settings.listening s = true -> Settings.load s = Settings.Load_over ->
      Settings.agrees s ->
      Settings.exec assign s es = Some s' ->
      Settings.agrees s' /\ Settings.listening s' = true)
  /\ (forall (s : Settings.State) (support : value),
      Settings.agrees s -> Settings.selected_support s = Some support ->
      is_string support (lit "true") = false ->
      Panel.isRecognizing (Settings.page s) = false ->
      Panel.currentImages (Settings.page s) <> [] ->
      exists s',
        Settings.step assign s (Settings.Page_event Click_recognize) = Some s'
        /\ Panel.requests (Settings.page s')
           = Panel.requests (Settings.page s) ++ [panel_request (Settings.page s)]
        /\ req_enable_reasoning (panel_request (Settings.page s))
           = is_string support (lit "default")).
Proof.
  split; [|split].
  - intros s s' data Hl Hn H. cbn [Settings.step] in H. rewrite Hl in H.
    destruct (Settings.configure assign data s) as [s1|] eqn:E.
    + injection H as <-. now apply (configure_agrees assign data s).
    + unfold Settings.configure in E. destruct data; try congruence; discriminate E.
  - intros s s' es Hl Hd Hag H.
    destruct (settings_exec_agrees assign es s s' Hl Hd Hag H) as (H1 & H2 & _).
    now split.
  - intros s support Hag Hs Ht Hidle Himg.
    cbn [Settings.step Panel.step]. unfold Panel.toggleRecognize.
    unfold Settings.page in *. rewrite Hidle.
    destruct (Panel.currentImages (Panel.page (Settings.app s))) as [|i imgs] eqn:Ei;
      [congruence|]. cbn [is_nil].
    eexists. split; [reflexivity|].
    unfold Settings.agrees in Hag. unfold Settings.page in Hag.
    rewrite Hs, Ht in Hag. destruct Hag as (_ & _ & Hc). split.
    + unfold Settings.with_app. cbn [Settings.app]. unfold Panel.start, panel_request.
      destruct (Panel.page (Settings.app s)) eqn:Ep.
      cbn [Panel.page Panel.reasoning_toggle Panel.set_isRecognizing].
      destruct reasoning_toggle; reflexivity.
    + exact Hc.
Qed.

Lemma switch_agrees_with_model_witness :
  Settings.step assign_text reading_models (Settings.Models_body (Some models_body))
  = Some configured
  /\ Settings.toggle_disabled (Settings.controls configured) = true
  /\ Panel.reasoning_toggle (Settings.page configured) = false.
Proof.
  assert (E : Settings.step assign_text reading_models
                (Settings.Models_body (Some models_body)) = Some configured)
    by (vm_compute; reflexivity).
  split; [exact E|].
  destruct (proj1 (switch_agrees_with_model assign_text) reading_models configured
              models_body eq_refl ltac:(discriminate) E) as (H & _).
  unfold Settings.agrees in H.
  assert (Hs : Settings.selected_support configured = Some (Some (JStr (lit "false"))))
    by (vm_compute; reflexivity).
  rewrite Hs in H. cbn [is_string] in H.
  change (str_eqb (lit "false") (lit "true")) with false in H.
  change (str_eqb (lit "false") (lit "default")) with false in H.
  destruct H as (H1 & _ & H2). now split.
Defined.

(** A configuration that cannot be loaded leaves the switch alone.  When
    the response of [/api/models] is not ok, nothing at all changes.  When
    [fetch] fails, the body is no JSON or the body is [null], the failure is
    logged and nothing else changes: [APP_CONFIG] keeps no [models] and no
    listener is added.  Without the listeners, selecting a model changes the
    selected model only: the switch stays as the page had it. *)
Theorem config_load_failure (assign : value -> jsstring) (s : Settings.State) :
  Settings.load s = Settings.Load_fetching ->
  let failed := Settings.log_failure (Settings.set_load Settings.Load_over s) in
  Settings.step assign s (Settings.Models_response false)
  = Some (Settings.set_load Settings.Load_over s)
  /\ Settings.step assign s Settings.Models_failed = Some failed
  /\ Settings.exec assign s
       [Settings.Models_response true; Settings.Models_body None] = Some failed
  /\ Settings.exec assign s
       [Settings.Models_response true; Settings.Models_body (Some JNull)]
     = Some failed
  /\ Settings.controls failed = Settings.controls s
  /\ Settings.config failed = Settings.config s
  /\ Settings.listening failed = Settings.listening s
  /\ Panel.console (Settings.page failed)
     = Panel.console (Settings.page s) ++ [lit "Failed to load configuration:"]
  /\ (Settings.listening s = false ->
      forall model,
        exists s',
          Settings.step assign failed (Settings.Page_event (Set_model model))
          = Some s'
          /\ Panel.model_select (Settings.page s') = model
          /\ Settings.controls s' = Settings.controls s
          /\ Panel.reasoning_toggle (Settings.page s')
             = Panel.reasoning_toggle (Settings.page s)).
Proof.
  intros Hl. cbv zeta. cbn [Settings.exec Settings.step]. rewrite Hl.
  cbn [Settings.set_load Settings.load Settings.step Settings.configure get].
  repeat (split; [reflexivity|]).
  intros Hn model. eexists. split; [reflexivity|].
  unfold Settings.on_change.
  cbn [Settings.with_app Settings.listening Settings.log_failure Settings.set_page
       Settings.set_load].
  rewrite Hn. repeat split.
Qed.

Lemma config_load_failure_witness :
  Settings.load (Settings.loaded (panel_page [an_image] []) free_switch)
  = Settings.Load_fetching
  /\ Settings.exec assign_text (Settings.loaded (panel_page [an_image] []) free_switch)
       [Settings.Models_response true; Settings.Models_body None]
     = Some (Settings.log_failure
               (Settings.set_load Settings.Load_over
                  (Settings.loaded (panel_page [an_image] []) free_switch))).
Proof.
  split; [reflexivity|].
  exact (proj1 (proj2 (proj2 (config_load_failure assign_text
                                (Settings.loaded (panel_page [an_image] []) free_switch)
                                eq_refl)))).
Defined.

(** ** The image preview *)

(** The zoom factor stays between 0.5 and 15.  [scale] starts as 1, and
    whatever the wheel, the pointer and the keys do, in any order and with
    any numbers in the events (NaN and infinities included), [scale] is a
    number between 0.5 and 15, both included.  At 15 a zoom in leaves it at
    15, at 0.5 a zoom out leaves it at 0.5.  In both scripts. *)
Theorem zoom_stays_in_range (v : Preview.View) (es : list Preview.action) :
  Preview.in_range (Preview.scale v) ->
  Preview.in_range (Preview.scale (Preview.exec v es))
  /\ (forall deltaY x y rect,
        Preview.scale v = Preview.d_15 -> Preview.gt deltaY Preview.d_0 = false ->
        Preview.scale (Preview.wheel deltaY x y rect v) = Preview.d_15)
  /\ (forall deltaY x y rect,
        Preview.scale v = Preview.d_0_5 -> Preview.gt deltaY Preview.d_0 = true ->
        Preview.scale (Preview.wheel deltaY x y rect v) = Preview.d_0_5).
Proof.
  intros H. split; [|split].
  - revert v H. unfold Preview.exec.
    induction es as [|e es IH]; intros v H; [exact H|].
    cbn [fold_left]. apply IH. now apply step_scale.
  - intros deltaY x y rect Hs Hd. unfold Preview.wheel. cbv zeta.
    cbn [Preview.updateTransform Preview.scale]. rewrite Hs, Hd.
    vm_compute. reflexivity.
  - intros deltaY x y rect Hs Hd. unfold Preview.wheel. cbv zeta.
    cbn [Preview.updateTransform Preview.scale]. rewrite Hs, Hd.
    vm_compute. reflexivity.
Qed.

Lemma zoom_stays_in_range_witness :
  Preview.in_range (Preview.scale Preview.initial)
  /\ Preview.exec Preview.initial zooming = zoomed
  /\ Preview.in_range (Preview.scale zoomed).
Proof.
  assert (H0 : Preview.in_range (Preview.scale Preview.initial))
    by (split; vm_compute; reflexivity).
  assert (E : Preview.exec Preview.initial zooming = zoomed)
    by (vm_compute; reflexivity).
  split; [exact H0|]. split; [exact E|]. rewrite <- E.
  exact (proj1 (zoom_stays_in_range Preview.initial zooming H0)).
Defined.

(** The image moves with the pointer only while the button is held.
    While no drag is in progress the pointer can move anywhere and nothing
    changes.  Releasing the button, the Escape key and a click on the
    viewport end a drag.  During a drag the image follows the pointer: its
    position is the pointer's minus the offset taken at [mousedown], and
    the zoom factor is not touched.  In both scripts. *)
Theorem drag_needs_pressed_button (v : Preview.View) :
  (forall points,
      Preview.isDragging v = false ->
      Preview.exec v (Preview.moves points) = v)
  /\ (forall e es points,
        Preview.ends_drag e ->
        Preview.exec v (es ++ [e] ++ Preview.moves points)
        = Preview.exec v (es ++ [e]))
  /\ (forall x0 y0 x y,
        let v' := Preview.exec v [Preview.Mouse_down x0 y0; Preview.Mouse_move x y] in
        Preview.posX v' = Preview.sub x (Preview.sub x0 (Preview.posX v))
        /\ Preview.posY v' = Preview.sub y (Preview.sub y0 (Preview.posY v))
        /\ Preview.scale v' = Preview.scale v
        /\ Preview.isDragging v' = true).
Proof.
  assert (Hstill : forall points w,
             Preview.isDragging w = false ->
             Preview.exec w (Preview.moves points) = w).
  { unfold Preview.exec, Preview.moves.
    induction points as [|p ps IH]; intros w Hw; [reflexivity|].
    cbn [map fold_left Preview.step]. unfold Preview.mousemove. rewrite Hw.
    cbn [negb]. now apply IH. }
  split; [intros points; apply Hstill|]. split.
  - intros e es points He. unfold Preview.exec. rewrite !fold_left_app.
    apply Hstill. cbn [fold_left].
    generalize (fold_left Preview.step es v) as w. intros w.
    destruct He as [->|[->|[on_modal ->]]]; reflexivity.
  - intros x0 y0 x y. cbv zeta. repeat split.
Qed.

Lemma drag_needs_pressed_button_witness :
  Preview.isDragging Preview.initial = false
  /\ Preview.exec Preview.initial
       (Preview.moves [(Preview.d_1, Preview.d_2); (Preview.d_15, Preview.NaN)])
     = Preview.initial.
Proof.
  split; [reflexivity|].
  exact (proj1 (drag_needs_pressed_button Preview.initial) _ eq_refl).
Defined.

(** ** The reasoning display during a call *)

(** The reasoning display shows the reasoning text accumulated so far.  In
    the script with the boxes, on a page that started with no call running,
    whenever a call is suspended the global [reasoningContent] is its
    [reasoningText], and once that text is not blank the reasoning display
    holds it and the reasoning box is shown, whatever the reasoning switch
    said.  In the basic script, after the chunks of a call, the reasoning
    container is shown exactly when the accumulated reasoning text is not
    blank, and then the display holds that text.  Reasoning that is blank
    is accumulated but not shown. *)
Theorem reasoning_display_shows_reasoning :
  (forall (p0 : Panel.Page) (es : list event) (a : Panel.App) (r : Panel.Run),
      Panel.exec (Panel.mkApp p0 None) es = Some a ->
      Panel.run a = Some r ->
      panel_reasoning_shown (Panel.locals r, Panel.page a))
  /\ (forall (p : Basic.Page) (chunks : list (list byte)),
      basic_reasoning_shown (basic_loop_end p chunks)).
Proof.
  split.
  - intros p0 es a r Hex Hr.
    assert (H : panel_reasoning_ok a).
    { assert (H0 : panel_reasoning_ok (Panel.mkApp p0 None)) by exact I.
      revert H0 Hex. generalize (Panel.mkApp p0 None) as a0. clear.
      induction es as [|e es IH]; intros a0 H0 Hex.
      - cbn [Panel.exec] in Hex. now injection Hex as <-.
      - cbn [Panel.exec] in Hex.
        destruct (Panel.step a0 e) as [a1|] eqn:Hs; [|discriminate].
        apply (IH a1); [|exact Hex].
        exact (panel_step_reasoning a0 a1 e H0 Hs). }
    unfold panel_reasoning_ok in H. now rewrite Hr in H.
  - intros p chunks. unfold basic_loop_end.
    assert (H0 : basic_reasoning_shown
                   (acc (new_Reader (mkLocals [] [], Basic.page (Basic.start p)))))
      by (repeat split; discriminate).
    revert H0. generalize (new_Reader (mkLocals [] [], Basic.page (Basic.start p))).
    induction chunks as [|c cs IH]; intros rd H0; [exact H0|].
    cbn [read_all fold_left]. apply IH.
    apply (read_chunk_preserves Basic.process_line basic_reasoning_shown);
      [|exact H0].
    intros s line. apply basic_shown_line.
Qed.

Lemma reasoning_display_shows_reasoning_witness :
  Panel.exec (Panel.mkApp (panel_page [an_image] []) None)
             ([Click_recognize; Fetch_resolved 200; Clear; Click_box (lit "output")]
              ++ map Read_chunk blank_then_reasoning)
  = Some panel_reasoned
  /\ Panel.reasoning_display (Panel.page panel_reasoned) = lit " so"
  /\ Panel.reasoning_box_display (Panel.page panel_reasoned) = lit "flex".
Proof.
  assert (E : Panel.exec (Panel.mkApp (panel_page [an_image] []) None)
                ([Click_recognize; Fetch_resolved 200; Clear; Click_box (lit "output")]
                 ++ map Read_chunk blank_then_reasoning)
              = Some panel_reasoned) by (vm_compute; reflexivity).
  split; [exact E|].
  destruct (Panel.run panel_reasoned) as [r|] eqn:Hr; [|discriminate Hr].
  destruct (proj1 reasoning_display_shows_reasoning
              (panel_page [an_image] []) _ panel_reasoned r E Hr) as (_ & H).
  injection Hr as <-.
  destruct (H eq_refl) as (H1 & H2). cbn [fst snd] in H1, H2.
  rewrite H1, H2. split; reflexivity.
Defined.
